(** * The Enable Banking adapter and the accounts route of the engine

    A shallow embedding of
      - [apps/engine/src/routes/accounts/index.ts] (the [GET /accounts] handler), and
      - the [EnableBankingApi] class (token signing, session, account, balance
        and transaction retrieval),
    followed by the properties of the bounded-concurrency account fetch, the
    highest-balance selection, the signed token and the transaction query.

    Layout: the JavaScript runtime notions the code relies on (strings,
    numbers, JSON text, base64url, promises on a logical clock), then the
    program, then the theorems. *)

From Stdlib Require Import ZArith NArith List String Ascii Bool Lia.
From Stdlib Require Import DecimalString DecimalN SpecFloat.
Import ListNotations.

Local Open Scope string_scope.
Local Open Scope N_scope.

(* ===================================================================== *)
(** * 1. JavaScript runtime                                               *)
(* ===================================================================== *)

Module JS.

(** ** Strings

    A string is its sequence of UTF-8 bytes.  The identifiers and the
    fields of the token are ASCII; an amount may be any text, and the white
    space before it need not be ASCII. *)

Definition quote_char : ascii := "034"%char.
Definition backslash : ascii := "092"%char.

Fixpoint join (sep : string) (parts : list string) : string :=
  match parts with
  | [] => EmptyString
  | [p] => p
  | p :: rest => p ++ sep ++ join sep rest
  end.

(** Template-literal / [String(n)] rendering of a non-negative integer
    (in plain digits, as JavaScript prints every integer below 10^21). *)
Definition show (n : N) : string := NilZero.string_of_uint (N.to_uint n).

Fixpoint zeros (k : nat) : string :=
  match k with
  | O => EmptyString
  | S k' => String "0" (zeros k')
  end.

(** [s.padStart(targetLength, "0")] *)
Definition padStart0 (s : string) (targetLength : nat) : string :=
  zeros (targetLength - String.length s) ++ s.

(** ** Numbers: IEEE 754 binary64 *)

Definition number := spec_float.
Definition prec : Z := 53.
Definition emax : Z := 1024.

Definition NaN : number := S754_nan.

(** [x > y] and [x >= y] on numbers; both are [false] when either side is NaN. *)
Definition gt (x y : number) : bool := SFltb y x.
Definition ge (x y : number) : bool := SFleb y x.

Definition isNaN (x : number) : bool :=
  match x with S754_nan => true | _ => false end.

(** The number nearest to [m * 10^e] (round to nearest, ties to even). *)
Definition of_decimal (negative : bool) (m : N) (e : Z) : number :=
  match m with
  | N0 => S754_zero negative
  | Npos p =>
      match e with
      | Zneg k =>
          let '(q, e', l) :=
            SFdiv_core_binary prec emax (Zpos p) 0 (Z.pow 10 (Zpos k)) 0 in
          binary_round_aux prec emax negative q e' l
      | _ =>
          match (Zpos p * Z.pow 10 e)%Z with
          | Zpos v => binary_round prec emax negative v 0
          | _ => S754_nan
          end
      end
  end.

(** *** [Number.parseFloat]

    Leading white space is skipped, then the longest prefix that is a
    [StrDecimalLiteral] is read; [NaN] when there is none.

    White space is [WhiteSpace] or [LineTerminator]: the six ASCII
    characters TAB, LF, VT, FF, CR and SP, and, in their UTF-8 bytes,
    U+00A0, U+1680, U+2000 to U+200A, U+2028, U+2029, U+202F, U+205F,
    U+3000 and U+FEFF. *)

Definition isWhiteSpace (c : ascii) : bool :=
  let n := N_of_ascii c in
  (n =? 9) || (n =? 10) || (n =? 11) || (n =? 12) || (n =? 13) || (n =? 32).

(** U+00A0 is [C2 A0]. *)
Definition isWhiteSpace2 (a b : ascii) : bool :=
  (N_of_ascii a =? 194) && (N_of_ascii b =? 160).

(** U+1680 is [E1 9A 80]; U+2000 to U+200A are [E2 80 80] to [E2 80 8A];
    U+2028, U+2029 and U+202F are [E2 80 A8], [E2 80 A9] and [E2 80 AF];
    U+205F is [E2 81 9F]; U+3000 is [E3 80 80]; U+FEFF is [EF BB BF]. *)
Definition isWhiteSpace3 (a b c : ascii) : bool :=
  let x := N_of_ascii a in
  let y := N_of_ascii b in
  let z := N_of_ascii c in
  ((x =? 225) && (y =? 154) && (z =? 128))
  || ((x =? 226) && (y =? 128)
      && (((128 <=? z) && (z <=? 138)) || (z =? 168) || (z =? 169) || (z =? 175)))
  || ((x =? 226) && (y =? 129) && (z =? 159))
  || ((x =? 227) && (y =? 128) && (z =? 128))
  || ((x =? 239) && (y =? 187) && (z =? 191)).

Fixpoint trimStart (s : string) : string :=
  match s with
  | String a r1 =>
      if isWhiteSpace a then trimStart r1
      else
        match r1 with
        | String b r2 =>
            if isWhiteSpace2 a b then trimStart r2
            else
              match r2 with
              | String c r3 => if isWhiteSpace3 a b c then trimStart r3 else s
              | EmptyString => s
              end
        | EmptyString => s
        end
  | EmptyString => s
  end.

Definition digit_of (c : ascii) : option N :=
  let n := N_of_ascii c in
  if (48 <=? n) && (n <=? 57) then Some (n - 48) else None.

(** Reads a maximal run of decimal digits: the accumulated value, the number
    of digits read and the rest of the text. *)
Fixpoint digits (s : string) (acc : N) (count : N) : N * N * string :=
  match s with
  | String c rest =>
      match digit_of c with
      | Some d => digits rest (10 * acc + d) (count + 1)
      | None => (acc, count, s)
      end
  | EmptyString => (acc, count, s)
  end.

(** The exponent part [e], [e+] or [e-] followed by at least one digit;
    absent or malformed, it contributes nothing. *)
Definition exponentPart (s : string) : Z :=
  match s with
  | String c rest =>
      if (Ascii.eqb c "e" || Ascii.eqb c "E")%bool then
        let '(negative, body) :=
          match rest with
          | String "-" r => (true, r)
          | String "+" r => (false, r)
          | _ => (false, rest)
          end in
        let '(v, count, _) := digits body 0 0 in
        if count =? 0 then 0%Z
        else if negative then (- Z.of_N v)%Z else Z.of_N v
      else 0%Z
  | EmptyString => 0%Z
  end.

Definition unsignedLiteral (negative : bool) (s : string) : number :=
  if String.prefix "Infinity" s then S754_infinity negative
  else
    let '(int_value, int_count, after_int) := digits s 0 0 in
    let '(mantissa, frac_count, after_frac) :=
      match after_int with
      | String "." r =>
          let '(v, total, rest) := digits r int_value int_count in
          (v, total - int_count, rest)
      | _ => (int_value, 0, after_int)
      end in
    if (int_count =? 0) && (frac_count =? 0) then NaN
    else of_decimal negative mantissa (exponentPart after_frac - Z.of_N frac_count)%Z.

Definition parseFloat (s : string) : number :=
  match trimStart s with
  | String "-" rest => unsignedLiteral true rest
  | String "+" rest => unsignedLiteral false rest
  | t => unsignedLiteral false t
  end.

(** ** JSON text of flat objects *)

Inductive JSONValue :=
| JSONNumber (n : N)
| JSONString (s : string).

Definition JSONObject := list (string * JSONValue).

Definition hexDigit (n : N) : ascii :=
  match String.get (N.to_nat n) "0123456789abcdef" with
  | Some c => c
  | None => "0"%char
  end.

(** [QuoteJSONString] on one byte. *)
Definition quoteJSONChar (c : ascii) : string :=
  let n := N_of_ascii c in
  if n =? 34 then String backslash (String quote_char EmptyString)
  else if n =? 92 then String backslash (String backslash EmptyString)
  else if n =? 8 then String backslash "b"
  else if n =? 12 then String backslash "f"
  else if n =? 10 then String backslash "n"
  else if n =? 13 then String backslash "r"
  else if n =? 9 then String backslash "t"
  else if n <? 32 then
    String backslash (String "u" (String "0" (String "0"
      (String (hexDigit (n / 16)) (String (hexDigit (n mod 16)) EmptyString)))))
  else String c EmptyString.

Fixpoint quoteJSONChars (s : string) : string :=
  match s with
  | EmptyString => EmptyString
  | String c rest => quoteJSONChar c ++ quoteJSONChars rest
  end.

Definition quoteJSONString (s : string) : string :=
  String quote_char (quoteJSONChars s ++ String quote_char EmptyString).

Definition stringifyValue (v : JSONValue) : string :=
  match v with
  | JSONNumber n => show n
  | JSONString s => quoteJSONString s
  end.

Definition stringifyMember (kv : string * JSONValue) : string :=
  quoteJSONString (fst kv) ++ ":" ++ stringifyValue (snd kv).

(** [JSON.stringify] of an object whose values are integers and strings. *)
Definition JSON_stringify (o : JSONObject) : string :=
  "{" ++ join "," (map stringifyMember o) ++ "}".

End JS.

(** ** base64url without padding (RFC 4648, section 5), as [jose.base64url] *)

Module Base64Url.

Definition alphabet : string :=
  "ABCDEFGHIJKLMNOPQRSTUVWXYZabcdefghijklmnopqrstuvwxyz0123456789-_".

Definition sextetChar (n : N) : ascii :=
  match String.get (N.to_nat n) alphabet with
  | Some c => c
  | None => "A"%char
  end.

Fixpoint indexOf (c : ascii) (s : string) (i : N) : option N :=
  match s with
  | EmptyString => None
  | String d rest => if Ascii.eqb c d then Some i else indexOf c rest (i + 1)
  end.

Definition charSextet (c : ascii) : option N := indexOf c alphabet 0.

Fixpoint encode (bytes : string) : string :=
  match bytes with
  | EmptyString => EmptyString
  | String a EmptyString =>
      let x := N_of_ascii a in
      String (sextetChar (x / 4)) (String (sextetChar ((x mod 4) * 16)) EmptyString)
  | String a (String b EmptyString) =>
      let x := N_of_ascii a in
      let y := N_of_ascii b in
      String (sextetChar (x / 4))
        (String (sextetChar ((x mod 4) * 16 + y / 16))
           (String (sextetChar ((y mod 16) * 4)) EmptyString))
  | String a (String b (String c rest)) =>
      let x := N_of_ascii a in
      let y := N_of_ascii b in
      let z := N_of_ascii c in
      String (sextetChar (x / 4))
        (String (sextetChar ((x mod 4) * 16 + y / 16))
           (String (sextetChar ((y mod 16) * 4 + z / 64))
              (String (sextetChar (z mod 64)) (encode rest))))
  end.

Definition byte1 (p q : N) : ascii := ascii_of_N (p * 4 + q / 16).
Definition byte2 (q r : N) : ascii := ascii_of_N ((q mod 16) * 16 + r / 4).
Definition byte3 (r t : N) : ascii := ascii_of_N ((r mod 4) * 64 + t).

Fixpoint decode (text : string) : option string :=
  match text with
  | EmptyString => Some EmptyString
  | String _ EmptyString => None
  | String a (String b EmptyString) =>
      match charSextet a, charSextet b with
      | Some p, Some q => Some (String (byte1 p q) EmptyString)
      | _, _ => None
      end
  | String a (String b (String c EmptyString)) =>
      match charSextet a, charSextet b, charSextet c with
      | Some p, Some q, Some r =>
          Some (String (byte1 p q) (String (byte2 q r) EmptyString))
      | _, _, _ => None
      end
  | String a (String b (String c (String d rest))) =>
      match charSextet a, charSextet b, charSextet c, charSextet d, decode rest with
      | Some p, Some q, Some r, Some t, Some bytes =>
          Some (String (byte1 p q) (String (byte2 q r) (String (byte3 r t) bytes)))
      | _, _, _, _, _ => None
      end
  end.

(** Characters of the URL-safe alphabet: no [+], [/], [=] and no [.]. *)
Definition urlSafeChar (c : ascii) : bool :=
  match charSextet c with Some _ => true | None => false end.

Fixpoint urlSafe (s : string) : bool :=
  match s with
  | EmptyString => true
  | String c rest => urlSafeChar c && urlSafe rest
  end.

End Base64Url.

(** ** Errors, the console, promises and asynchronous functions

    Time is a logical clock in milliseconds.  A promise either never settles
    or settles at some instant with a value or a reason.  Events due at the
    same instant happen in the order in which they were registered: of the
    two calls of a [Promise.all] the one started first is taken first, and
    in a race against a timer that was set before the work was started the
    timer is taken first. *)

Module Async.

Inductive Error := MkError (name : string) (message : string) (code : option string).

(** [new Error(message)] *)
Definition new_Error (message : string) : Error := MkError "Error" message None.
Definition new_TypeError (message : string) : Error := MkError "TypeError" message None.

Definition error_message (e : Error) : string :=
  match e with MkError _ m _ => m end.

Inductive Level := LOG | WARN | ERROR.

Record LogEntry := { level : Level; text : string; attached : option Error }.

Inductive PromiseSettledResult (A : Type) :=
| fulfilled (value : A)
| rejected (reason : Error).
Arguments fulfilled {A} value.
Arguments rejected {A} reason.

Inductive Promise (A : Type) :=
| pending
| settled (at_ms : N) (result : PromiseSettledResult A).
Arguments pending {A}.
Arguments settled {A} at_ms result.

(** What a remote party does with one call: nothing at all, or an answer
    after a delay. *)
Inductive Reply (A : Type) :=
| silent
| replies (after_ms : N) (result : PromiseSettledResult A).
Arguments silent {A}.
Arguments replies {A} after_ms result.

Definition issued {A} (now : N) (r : Reply A) : Promise A :=
  match r with
  | silent => pending
  | replies d x => settled (now + d) x
  end.

(** [Promise.all([p, q])] *)
Definition Promise_all2 {A B} (p : Promise A) (q : Promise B) : Promise (A * B) :=
  match p, q with
  | settled t (fulfilled a), settled u (fulfilled b) => settled (N.max t u) (fulfilled (a, b))
  | settled t (rejected e), settled u (rejected e') =>
      if t <=? u then settled t (rejected e) else settled u (rejected e')
  | settled t (rejected e), _ => settled t (rejected e)
  | _, settled u (rejected e) => settled u (rejected e)
  | _, _ => pending
  end.

(** [Promise.race([p, timer])] for a [timer] that was set before [p] was
    started, as in both races of the program.  Of two events due in the same
    millisecond the one registered first runs first: when [p] settles in the
    very millisecond the timer is due, the timer has already settled the
    race. *)
Definition Promise_race {A} (p timer : Promise A) : Promise A :=
  match p, timer with
  | settled t r, settled u s => if t <? u then settled t r else settled u s
  | settled t r, pending => settled t r
  | pending, _ => timer
  end.

Fixpoint settledResults {A} (ps : list (Promise A)) : option (list (PromiseSettledResult A)) :=
  match ps with
  | [] => Some []
  | pending :: _ => None
  | settled _ r :: rest => option_map (cons r) (settledResults rest)
  end.

Fixpoint latest {A} (now : N) (ps : list (Promise A)) : N :=
  match ps with
  | [] => now
  | pending :: rest => latest now rest
  | settled t _ :: rest => N.max t (latest now rest)
  end.

(** [Promise.allSettled(ps)], called at [now]. *)
Definition Promise_allSettled {A} (now : N) (ps : list (Promise A))
  : Promise (list (PromiseSettledResult A)) :=
  match settledResults ps with
  | Some rs => settled (latest now ps) (fulfilled rs)
  | None => pending
  end.

(** The state an asynchronous function runs in: the clock, what was written
    to the console so far, and how many times [Math.random] was drawn. *)
Record Machine := { clock : N; console : list LogEntry; draws : N }.

Inductive Completion (A : Type) :=
| Returned (value : A)
| Thrown (reason : Error)
| Suspended.      (* waits for a promise that never settles *)
Arguments Returned {A} value.
Arguments Thrown {A} reason.
Arguments Suspended {A}.

Definition Async (A : Type) : Type := Machine -> Completion A * Machine.

Definition ret {A} (a : A) : Async A := fun m => (Returned a, m).

Definition throw {A} (e : Error) : Async A := fun m => (Thrown e, m).

Definition bind {A B} (c : Async A) (k : A -> Async B) : Async B :=
  fun m =>
    match c m with
    | (Returned a, m') => k a m'
    | (Thrown e, m') => (Thrown e, m')
    | (Suspended, m') => (Suspended, m')
    end.

(** [try { body } catch (error) { handler }] *)
Definition try_catch {A} (body : Async A) (handler : Error -> Async A) : Async A :=
  fun m =>
    match body m with
    | (Thrown e, m') => handler e m'
    | other => other
    end.

Definition Date_now : Async N := fun m => (Returned (clock m), m).

Definition write (l : Level) (msg : string) (e : option Error) : Async unit :=
  fun m =>
    (Returned tt,
     {| clock := clock m;
        console := console m ++ [{| level := l; text := msg; attached := e |}];
        draws := draws m |}).

Definition console_log (msg : string) : Async unit := write LOG msg None.
Definition console_warn (msg : string) : Async unit := write WARN msg None.
Definition console_error (msg : string) (e : Error) : Async unit := write ERROR msg (Some e).

(** Calling an asynchronous function: the caller gets a promise at once and
    its own clock does not move; the promise settles when the body ends.
    Console lines of concurrently started bodies are recorded body by body. *)
Definition settlement {A} (body : Async A) (m : Machine) : Promise A :=
  match body m with
  | (Returned a, m') => settled (clock m') (fulfilled a)
  | (Thrown e, m') => settled (clock m') (rejected e)
  | (Suspended, _) => pending
  end.

Definition start {A} (body : Async A) : Async (Promise A) :=
  fun m =>
    let m' := snd (body m) in
    (Returned (settlement body m),
     {| clock := clock m; console := console m'; draws := draws m' |}).

(** [await p] *)
Definition await {A} (p : Promise A) : Async A :=
  fun m =>
    match p with
    | pending => (Suspended, m)
    | settled t r =>
        let m' := {| clock := N.max (clock m) t; console := console m; draws := draws m |} in
        match r with
        | fulfilled v => (Returned v, m')
        | rejected e => (Thrown e, m')
        end
    end.

(** [new Promise((_, reject) => setTimeout(() => reject(e), delay))] *)
Definition rejectAfter {A} (delay : N) (e : Error) : Async (Promise A) :=
  fun m => (Returned (settled (clock m + delay) (rejected e)), m).

(** A synchronous step that may throw. *)
Definition lift {A} (r : Error + A) : Async A :=
  match r with
  | inl e => throw e
  | inr a => ret a
  end.

(** [xs.map(async (x, index) => body)] : the bodies are started in order. *)
Fixpoint mapIndexed {A B} (f : A -> nat -> Async B) (xs : list A) (index : nat) : Async (list B) :=
  match xs with
  | [] => ret []
  | x :: rest =>
      bind (f x index) (fun y =>
      bind (mapIndexed f rest (S index)) (fun ys => ret (y :: ys)))
  end.

(** [xs.reduce(callback, initialValue)] with a callback that may throw. *)
Fixpoint reduce {A B} (callback : B -> A -> Error + B) (xs : list A) (initialValue : B) : Error + B :=
  match xs with
  | [] => inr initialValue
  | x :: rest =>
      match callback initialValue x with
      | inl e => inl e
      | inr acc => reduce callback rest acc
      end
  end.

End Async.

Declare Scope async_scope.
Delimit Scope async_scope with async.
Notation "x <- c ;; k" := (Async.bind c (fun x => k))
  (at level 61, c at next level, right associativity) : async_scope.
Notation "' pat <- c ;; k" := (Async.bind c (fun x => match x with pat => k end))
  (at level 61, pat pattern, c at next level, right associativity) : async_scope.
Notation "c ;; k" := (Async.bind c (fun _ => k))
  (at level 61, right associativity) : async_scope.

(** ** Calendar dates (date-fns on the host's local time)

    A [Date] is kept as its local calendar day, counted from 1970-01-01;
    the time of day plays no part in what the program prints. *)

Module DateFns.

Definition Date := Z.

(** [subDays(date, amount)]: [date.setDate(date.getDate() - amount)]. *)
Definition subDays (date : Date) (amount : Z) : Date := (date - amount)%Z.

(** Year, month (1..12) and day of month of a day number. *)
Definition civil (day : Date) : Z * Z * Z :=
  let z := (day + 719468)%Z in
  let era := (z / 146097)%Z in
  let doe := (z - era * 146097)%Z in
  let yoe := ((doe - doe / 1460 + doe / 36524 - doe / 146096) / 365)%Z in
  let doy := (doe - (365 * yoe + yoe / 4 - yoe / 100))%Z in
  let mp := ((5 * doy + 2) / 153)%Z in
  let d := (doy - (153 * mp + 2) / 5 + 1)%Z in
  let m := (if mp <? 10 then mp + 3 else mp - 9)%Z in
  let y := (yoe + era * 400 + (if m <=? 2 then 1 else 0))%Z in
  (y, m, d).

Definition addLeadingZeros (number : Z) (targetLength : nat) : string :=
  let sign := if (number <? 0)%Z then "-" else EmptyString in
  sign ++ JS.padStart0 (JS.show (Z.abs_N number)) targetLength.

(** [formatISO(date, { representation: "date" })] *)
Definition formatISO_date (date : Date) : string :=
  let '(y, m, d) := civil date in
  addLeadingZeros y 4 ++ "-" ++ addLeadingZeros m 2 ++ "-" ++ addLeadingZeros d 2.

End DateFns.

(* ===================================================================== *)
(** * 2. The Enable Banking adapter                                       *)
(* ===================================================================== *)

Module EnableBanking.

Import JS Async.
Local Open Scope async_scope.

(** ** Provider types (the fields the adapter reads) *)

Record Aspsp := { aspsp_name : string; aspsp_country : string }.

Record Access := { access_valid_until : string }.

Record GetSessionResponse :=
  { accounts : list string; aspsp : Aspsp; access : Access }.

Record Amount := { amount : string; currency : string }.

Record Balance := { balance_amount : Amount; balance_type : string }.

Record GetBalancesResponse := { balances : list Balance }.

(** An account: the fields the provider sent, and the three the adapter
    sets.  [balance] is [None] for JavaScript's [undefined]. *)
Record GetAccountDetailsResponse :=
  { provided : list (string * string);
    institution : option Aspsp;
    valid_until : option string;
    balance : option Balance }.

Record Transaction := { entry_reference : string; status : string }.

Record GetTransactionsResponse := { transactions : list Transaction }.

Record GetTransactionsRequest := { accountId : string; latest_flag : option bool }.

(** ** The HTTP client and the outside world *)

Record XiorInstance :=
  { baseURL : string; timeout : N; client_headers : list (string * string) }.

Record Request :=
  { sent_at : N;
    client : XiorInstance;
    path : string;
    params : option (list (string * string));
    headers : list (string * string) }.

(** The error of the HTTP client ([xior]) when its [timeout] elapses. *)
Definition new_XiorTimeoutError (timeout_ms : N) : Error :=
  MkError "XiorTimeoutError" ("timeout of " ++ show timeout_ms ++ "ms exceeded") None.

(** A request made at [now] through the client [api]: the client sets its
    timeout timer, when it has a timeout, and then sends.  The call settles
    to the answer when the answer comes before the timer is due, and is
    rejected by the timer otherwise, also when no answer ever comes. *)
Definition xior_request {T} (api : XiorInstance) (now : N) (reply : Reply T) : Promise T :=
  if timeout api =? 0 then issued now reply
  else Promise_race (issued now reply)
         (settled (now + timeout api) (rejected (new_XiorTimeoutError (timeout api)))).

(** Everything the adapter does not decide itself: the RSA signature for a
    key and a text (or the error thrown while importing the key or signing),
    the outcomes of [Math.random], the host's calendar, and what the bank
    API does with each request. *)
Record World :=
  { sign_RS256 : string -> string -> Error + string;
    random_octet : N -> N;
    localDay : N -> Z;
    GET_session : Request -> Reply GetSessionResponse;
    GET_details : Request -> Reply GetAccountDetailsResponse;
    GET_balances : Request -> Reply GetBalancesResponse;
    GET_transactions : Request -> Reply GetTransactionsResponse }.

(** The private fields set by the constructor. *)
Record EnableBankingApi :=
  { redirectUrl : string; applicationId : string; keyContent : string }.

Definition baseUrl : string := "https://api.enablebanking.com".

(** Maximum allowed TTL is 24 hours (86400 seconds) *)
Definition expiresIn : N := 20. (* hours *)

Definition ACCOUNT_TIMEOUT : N := 8000.
Definition MAX_CONCURRENT : nat := 2.

Section Methods.

Variable W : World.
Variable this : EnableBankingApi.

(** [~~(Math.random() * 256)] *)
Definition random256 : Async N :=
  fun m =>
    (Returned (random_octet W (draws m)),
     {| clock := clock m; console := console m; draws := draws m + 1 |}).

(** [new Date()] *)
Definition new_Date : Async DateFns.Date :=
  fun m => (Returned (localDay W (clock m)), m).

(** ** Token signing *)

Definition encodeData (data : JSONObject) : string :=
  Base64Url.encode (JSON_stringify data).

Definition getJWTHeader : string :=
  encodeData
    [("typ", JSONString "JWT");
     ("alg", JSONString "RS256");
     ("kid", JSONString (applicationId this))].

Definition getJWTBody (exp : N) : Async string :=
  now <- Date_now ;;
  let timestamp := now / 1000 in
  ret (encodeData
         [("iss", JSONString "enablebanking.com");
          ("aud", JSONString "api.enablebanking.com");
          ("iat", JSONNumber timestamp);
          ("exp", JSONNumber (timestamp + exp))]).

Definition signWithKey (data : string) : Async string :=
  try_catch
    (signature <- lift (sign_RS256 W (keyContent this) data) ;;
     ret (Base64Url.encode signature))
    (fun error =>
       console_error "Error in JWT signing:" error ;;
       throw error).

Definition generateJWT : Async string :=
  let exp := expiresIn * 60 * 60 in
  let jwtHeaders := getJWTHeader in
  jwtBody <- getJWTBody exp ;;
  jwtSignature <- signWithKey (jwtHeaders ++ "." ++ jwtBody) ;;
  ret (jwtHeaders ++ "." ++ jwtBody ++ "." ++ jwtSignature).

Definition getApi : Async XiorInstance :=
  jwt <- generateJWT ;;
  ret {| baseURL := baseUrl;
         timeout := 30000;
         client_headers :=
           [("Accept", "application/json");
            ("Authorization", "Bearer " ++ jwt)] |}.

Definition userAgent : string :=
  "Mozilla/5.0 (Macintosh; Intel Mac OS X 10_15_7) AppleWebKit/537.36 (KHTML, like Gecko) Chrome/120.0.0.0 Safari/537.36".

(** [#get<TResponse>(path, params)]; the endpoint stands for [TResponse].
    No caller in the class passes a [config]. *)
Definition get {T} (endpoint : World -> Request -> Reply T)
    (path_ : string) (params_ : option (list (string * string))) : Async T :=
  api <- getApi ;;
  a <- random256 ;;
  b <- random256 ;;
  c <- random256 ;;
  d <- random256 ;;
  now <- Date_now ;;
  await (xior_request api now
           (endpoint W
              {| sent_at := now;
                 client := api;
                 path := path_;
                 params := params_;
                 headers :=
                   [("Psu-Ip-Address", join "." (map show [a; b; c; d]));
                    ("Psu-User-Agent", userAgent)] |})).

Definition getSession (sessionId : string) : Async GetSessionResponse :=
  get GET_session ("/sessions/" ++ sessionId) None.

Definition getAccountDetails (accountId_ : string) : Async GetAccountDetailsResponse :=
  get GET_details ("/accounts/" ++ accountId_ ++ "/details") None.

(** ** Balance *)

(** The callback of the [reduce]; reading [max.balance_amount] throws when
    [max] is [undefined]. *)
Definition higher (max : option Balance) (current : Balance) : Error + option Balance :=
  let currentAmount := parseFloat (amount (balance_amount current)) in
  match max with
  | None =>
      inl (new_TypeError "Cannot read properties of undefined (reading 'balance_amount')")
  | Some max_ =>
      let maxAmount := parseFloat (amount (balance_amount max_)) in
      inr (if gt currentAmount maxAmount then Some current else Some max_)
  end.

(** Find balance with highest amount *)
Definition highestBalance (response : GetBalancesResponse) : Error + option Balance :=
  reduce higher (balances response) (nth_error (balances response) 0).

Definition getAccountBalance (accountId_ : string) : Async (option Balance) :=
  response <- get GET_balances ("/accounts/" ++ accountId_ ++ "/balances") None ;;
  lift (highestBalance response).

(** ** Accounts *)

Definition slice {A} (xs : list A) (from to : nat) : list A :=
  firstn (to - from) (skipn from xs).

(** [for (let i = 0; i < accounts.length; i += MAX_CONCURRENT)
       accountBatches.push(accounts.slice(i, i + MAX_CONCURRENT))];
    [fuel] bounds the number of iterations. *)
Fixpoint batchLoop (fuel : nat) (accounts_ : list string) (i : nat)
    (accountBatches : list (list string)) : list (list string) :=
  match fuel with
  | O => accountBatches
  | S fuel' =>
      if (i <? List.length accounts_)%nat then
        batchLoop fuel' accounts_ (i + MAX_CONCURRENT)%nat
          (accountBatches ++ [slice accounts_ i (i + MAX_CONCURRENT)%nat])
      else accountBatches
  end.

Definition makeBatches (accounts_ : list string) : list (list string) :=
  batchLoop (List.length accounts_) accounts_ 0%nat [].

Section Session.

Variable session : GetSessionResponse.

(** The inner [async] function: both calls are started, then awaited together. *)
Definition accountPromise (accountIds : list string) (accountId_ : string) (index : nat)
  : Async GetAccountDetailsResponse :=
  console_log ("[EnableBanking] Processing account " ++ show (N.of_nat (index + 1)) ++ "/"
               ++ show (N.of_nat (List.length accountIds)) ++ ": " ++ accountId_) ;;
  detailsCall <- start (getAccountDetails accountId_) ;;
  balanceCall <- start (getAccountBalance accountId_) ;;
  '(details, balance_) <- await (Promise_all2 detailsCall balanceCall) ;;
  ret {| provided := provided details;
         institution := Some (aspsp session);
         valid_until := Some (access_valid_until (access session));
         balance := balance_ |}.

(** One element of [accountIds.map(async (accountId, index) => ...)]. *)
Definition processAccount (accountIds : list string) (accountId_ : string) (index : nat)
  : Async (Promise GetAccountDetailsResponse) :=
  timeoutPromise <- rejectAfter ACCOUNT_TIMEOUT
                      (new_Error ("Timeout processing account " ++ accountId_)) ;;
  work <- start (accountPromise accountIds accountId_ index) ;;
  ret (Promise_race work timeoutPromise).

Definition processAccountBatch (accountIds : list string)
  : Async (Promise (list (PromiseSettledResult GetAccountDetailsResponse))) :=
  items <- mapIndexed (processAccount accountIds) accountIds 0%nat ;;
  now <- Date_now ;;
  ret (Promise_allSettled now items).

(** [await processAccountBatch(batch)] *)
Definition runBatch (batch : list string)
  : Async (list (PromiseSettledResult GetAccountDetailsResponse)) :=
  batchPromise <- processAccountBatch batch ;;
  await batchPromise.

(** [for (const batch of accountBatches)
       allResults.push(...(await processAccountBatch(batch)))] *)
Fixpoint forBatches (accountBatches : list (list string))
    (allResults : list (PromiseSettledResult GetAccountDetailsResponse))
  : Async (list (PromiseSettledResult GetAccountDetailsResponse)) :=
  match accountBatches with
  | [] => ret allResults
  | batch :: rest =>
      batchResults <- runBatch batch ;;
      forBatches rest (allResults ++ batchResults)
  end.

(** An array element that may be [undefined], in a template literal and in
    [Array.prototype.join]. *)
Definition inTemplate (x : option string) : string :=
  match x with Some s => s | None => "undefined" end.

Definition inJoin (x : option string) : string :=
  match x with Some s => s | None => EmptyString end.

(** [allResults.forEach((result, index) => ...)]: separate successful and
    failed accounts. *)
Fixpoint separate (results : list (PromiseSettledResult GetAccountDetailsResponse))
    (index : nat)
    (successfulAccounts : list GetAccountDetailsResponse)
    (failedAccounts : list (option string))
  : Async (list GetAccountDetailsResponse * list (option string)) :=
  match results with
  | [] => ret (successfulAccounts, failedAccounts)
  | fulfilled value :: rest =>
      separate rest (S index) (successfulAccounts ++ [value]) failedAccounts
  | rejected reason :: rest =>
      let accountId_ := nth_error (accounts session) index in
      console_error ("[EnableBanking] Failed to process account " ++ inTemplate accountId_ ++ ":")
                    reason ;;
      separate rest (S index) successfulAccounts (failedAccounts ++ [accountId_])
  end.

End Session.

Definition failedWarning (failedAccounts : list (option string)) : string :=
  "[EnableBanking] " ++ show (N.of_nat (List.length failedAccounts)) ++ " accounts failed: "
  ++ join ", " (map inJoin failedAccounts).

Definition allFailed (id : string) : Error :=
  new_Error ("All accounts failed to process for session " ++ id).

Definition getAccounts (id : string) : Async (list GetAccountDetailsResponse) :=
  try_catch
    (console_log ("[EnableBanking] Getting accounts for session: " ++ id) ;;
     startTime <- Date_now ;;
     session <- getSession id ;;
     console_log ("[EnableBanking] Session retrieved, found "
                  ++ show (N.of_nat (List.length (accounts session))) ++ " accounts") ;;
     let accountBatches := makeBatches (accounts session) in
     allResults <- forBatches session accountBatches [] ;;
     '(successfulAccounts, failedAccounts) <- separate session allResults 0%nat [] [] ;;
     now <- Date_now ;;
     let duration := now - startTime in
     console_log ("[EnableBanking] Processed " ++ show (N.of_nat (List.length successfulAccounts))
                  ++ "/" ++ show (N.of_nat (List.length (accounts session)))
                  ++ " accounts successfully in " ++ show duration ++ "ms") ;;
     (if (0 <? List.length failedAccounts)%nat
      then console_warn (failedWarning failedAccounts)
      else ret tt) ;;
     (* Return successful accounts even if some failed *)
     if (List.length successfulAccounts =? 0)%nat
     then throw (allFailed id)
     else ret successfulAccounts)
    (fun error =>
       console_error ("[EnableBanking] getAccounts error for session " ++ id ++ ":") error ;;
       throw error).

(** ** Transactions *)

Definition truthy (flag : option bool) : bool :=
  match flag with Some true => true | _ => false end.

Definition transactionParams (latest : option bool) : Async (list (string * string)) :=
  dateFrom <-
    (if truthy latest
     then today <- new_Date ;;
          ret [("date_from", DateFns.formatISO_date (DateFns.subDays today 5))]
     else ret []) ;;
  ret ([("strategy", if truthy latest then "default" else "longest");
        ("transaction_status", "BOOK")] ++ dateFrom)%list.

Definition getTransactions (request : GetTransactionsRequest) : Async GetTransactionsResponse :=
  query <- transactionParams (latest_flag request) ;;
  get GET_transactions ("/accounts/" ++ accountId request ++ "/transactions") (Some query).

End Methods.

End EnableBanking.

(* ===================================================================== *)
(** * 3. The accounts route                                               *)
(* ===================================================================== *)

Module AccountsRoute.

Import JS Async.
Local Open Scope async_scope.

Record AccountsParams :=
  { provider : string;
    accessToken : option string;
    institutionId : option string;
    id : option string }.

Record GetAccountsRequest :=
  { request_id : option string;
    request_accessToken : option string;
    request_institutionId : option string }.

Record ErrorDetail := { code : string; message : string }.

Record ErrorResponse := { error : ErrorDetail }.

Inductive Body (Account : Type) :=
| DataBody (data : list Account)
| ErrorBody (response : ErrorResponse).
Arguments DataBody {Account} data.
Arguments ErrorBody {Account} response.

Record Response (Account : Type) := { body : Body Account; http_status : N }.
Arguments body {Account} r.
Arguments http_status {Account} r.

(** [c.json(body, status)] *)
Definition json {Account} (b : Body Account) (status_ : N) : Response Account :=
  {| body := b; http_status := status_ |}.

(** with unbound workers: 30s limit *)
Definition TOTAL_TIMEOUT : N := 28000. (* 28 seconds (leave 2s buffer) *)

(** Modelled from the spec: [createErrorResponse] of [@engine/utils/error] is
    not among the sources.  Section 4.5 has every error mapped to a uniform
    [{error: {code, message}}] shape, the code being the upstream code
    string when present, else a default sentinel. *)
Definition createErrorResponse (sentinel : string) (e : Error) : ErrorResponse :=
  match e with
  | MkError _ m c =>
      {| error := {| code := match c with Some upstream => upstream | None => sentinel end;
                     message := m |} |}
  end.

Definition present (x : option string) : bool :=
  match x with
  | Some (String _ _) => true
  | _ => false
  end.

Definition idInTemplate (x : option string) : string :=
  match x with Some s => s | None => "undefined" end.

Section Handler.

(** The provider facade ([@engine/providers]) is not among the sources: the
    handler is given the [getAccounts] of the object that [new Provider]
    builds for a provider name, and the sentinel code of the error mapping. *)
Variable Account : Type.
Variable Provider_getAccounts : string -> GetAccountsRequest -> Async (list Account).
Variable sentinel : string.

Definition getAccountsHandler (query : AccountsParams) : Async (Response Account) :=
  console_log ("[Accounts] Request: provider=" ++ provider query ++ ", id="
               ++ (if present (id query) then "present" else "missing")) ;;
  let api_getAccounts := Provider_getAccounts (provider query) in
  try_catch
    (startTime <- Date_now ;;
     (* Add overall timeout for the entire request *)
     timeoutPromise <- rejectAfter TOTAL_TIMEOUT (new_Error "Request timeout") ;;
     accountsPromise <- start (api_getAccounts
                                 {| request_id := id query;
                                    request_accessToken := accessToken query;
                                    request_institutionId := institutionId query |}) ;;
     data <- await (Promise_race accountsPromise timeoutPromise) ;;
     now <- Date_now ;;
     let duration := now - startTime in
     console_log ("[Accounts] Success: " ++ show (N.of_nat (List.length data))
                  ++ " accounts retrieved in " ++ show duration ++ "ms") ;;
     ret (json (DataBody data) 200))
    (fun err =>
       console_error ("[Accounts] Error for provider=" ++ provider query ++ ", id="
                      ++ idInTemplate (id query) ++ ":") err ;;
       let errorResponse := createErrorResponse sentinel err in
       ret (json (ErrorBody errorResponse) 400)).

End Handler.

End AccountsRoute.

(* ===================================================================== *)
(** * 4. Reading an assertion back

    What a party receiving the token does: split at the dots, undo the
    base64url coding of a segment, and parse the JSON text. *)
(* ===================================================================== *)

Module Reader.

Import JS.

(** [text.split(sep)] for a one-character separator *)
Fixpoint split (sep : ascii) (text : string) : list string :=
  match text with
  | EmptyString => [EmptyString]
  | String c rest =>
      if Ascii.eqb c sep then EmptyString :: split sep rest
      else
        match split sep rest with
        | first :: others => String c first :: others
        | [] => [String c EmptyString]
        end
  end.

Definition hexValue (c : ascii) : option N :=
  let n := N_of_ascii c in
  if (48 <=? n) && (n <=? 57) then Some (n - 48)
  else if (97 <=? n) && (n <=? 102) then Some (n - 87)
  else if (65 <=? n) && (n <=? 70) then Some (n - 55)
  else None.

Definition escaped (c : ascii) : option ascii :=
  let n := N_of_ascii c in
  if n =? 34 then Some quote_char
  else if n =? 92 then Some backslash
  else if n =? 47 then Some "/"%char
  else if n =? 98 then Some "008"%char
  else if n =? 102 then Some "012"%char
  else if n =? 110 then Some "010"%char
  else if n =? 114 then Some "013"%char
  else if n =? 116 then Some "009"%char
  else None.

(** The text after an opening quote: the string it spells and what follows
    the closing quote. *)
Fixpoint unquote (text : string) : option (string * string) :=
  match text with
  | EmptyString => None
  | String c rest =>
      if Ascii.eqb c quote_char then Some (EmptyString, rest)
      else if Ascii.eqb c backslash then
        match rest with
        | String e rest1 =>
            if Ascii.eqb e "u" then
              match rest1 with
              | String h1 (String h2 (String h3 (String h4 rest2))) =>
                  match hexValue h1, hexValue h2, hexValue h3, hexValue h4, unquote rest2 with
                  | Some a, Some b, Some c', Some d, Some (spelled, tail) =>
                      let v := ((a * 16 + b) * 16 + c') * 16 + d in
                      if v <? 256 then Some (String (ascii_of_N v) spelled, tail) else None
                  | _, _, _, _, _ => None
                  end
              | _ => None
              end
            else
              match escaped e, unquote rest1 with
              | Some x, Some (spelled, tail) => Some (String x spelled, tail)
              | _, _ => None
              end
        | EmptyString => None
        end
      else
        match unquote rest with
        | Some (spelled, tail) => Some (String c spelled, tail)
        | None => None
        end
  end.

Definition isDigit (c : ascii) : bool :=
  let n := N_of_ascii c in (48 <=? n) && (n <=? 57).

Definition startsWithDigit (text : string) : bool :=
  match text with
  | String c _ => isDigit c
  | EmptyString => false
  end.

Fixpoint spanDigits (text : string) : string * string :=
  match text with
  | String c rest =>
      if isDigit c then let '(run, tail) := spanDigits rest in (String c run, tail)
      else (EmptyString, text)
  | EmptyString => (EmptyString, EmptyString)
  end.

Definition parseValue (text : string) : option (JSONValue * string) :=
  match text with
  | EmptyString => None
  | String c rest =>
      if Ascii.eqb c quote_char then
        match unquote rest with
        | Some (s, tail) => Some (JSONString s, tail)
        | None => None
        end
      else
        let '(run, tail) := spanDigits text in
        match NilZero.uint_of_string run with
        | Some d => Some (JSONNumber (N.of_uint d), tail)
        | None => None
        end
  end.

Definition parseMember (text : string) : option ((string * JSONValue) * string) :=
  match text with
  | String c rest =>
      if Ascii.eqb c quote_char then
        match unquote rest with
        | Some (key, String ":" after) =>
            match parseValue after with
            | Some (v, tail) => Some ((key, v), tail)
            | None => None
            end
        | _ => None
        end
      else None
  | EmptyString => None
  end.

Fixpoint parseMembers (fuel : nat) (text : string) : option JSONObject :=
  match fuel with
  | O => None
  | S fuel' =>
      match parseMember text with
      | Some (kv, String "," rest) => option_map (cons kv) (parseMembers fuel' rest)
      | Some (kv, String "}" EmptyString) => Some [kv]
      | _ => None
      end
  end.

(** [JSON.parse] on the text of a flat object *)
Definition JSON_parse (text : string) : option JSONObject :=
  match text with
  | String "{" (String "}" EmptyString) => Some []
  | String "{" rest => parseMembers (String.length rest) rest
  | _ => None
  end.

Definition decodeSegment (segment : string) : option JSONObject :=
  match Base64Url.decode segment with
  | Some text => JSON_parse text
  | None => None
  end.

End Reader.

(* ===================================================================== *)
(** * 5. Vocabulary of the statements                                     *)
(* ===================================================================== *)

Module Vocabulary.

Import JS Async EnableBanking.

(** Two machines at the same instant. *)
Definition sameInstant (m m' : Machine) : Prop := clock m' = clock m.

(** The values of the fulfilled results, in order. *)
Fixpoint successes {A} (results : list (PromiseSettledResult A)) : list A :=
  match results with
  | [] => []
  | fulfilled v :: rest => v :: successes rest
  | rejected _ :: rest => successes rest
  end.

(** The number of rejected results. *)
Fixpoint failures {A} (results : list (PromiseSettledResult A)) : nat :=
  match results with
  | [] => O
  | fulfilled _ :: rest => failures rest
  | rejected _ :: rest => S (failures rest)
  end.

(** The ids standing at the positions of the rejected results. *)
Fixpoint failedIds {A} (ids : list string) (results : list (PromiseSettledResult A)) : list string :=
  match ids, results with
  | i :: ids', rejected _ :: rest => i :: failedIds ids' rest
  | _ :: ids', fulfilled _ :: rest => failedIds ids' rest
  | _, _ => []
  end.

(** The console lines written for the rejected results. *)
Fixpoint failureLines {A} (ids : list string) (results : list (PromiseSettledResult A))
  : list LogEntry :=
  match ids, results with
  | i :: ids', rejected reason :: rest =>
      {| level := ERROR;
         text := "[EnableBanking] Failed to process account " ++ i ++ ":";
         attached := Some reason |} :: failureLines ids' rest
  | _ :: ids', fulfilled _ :: rest => failureLines ids' rest
  | _, _ => []
  end.

(** Consecutive groups of [size] elements, the last one possibly shorter. *)
Fixpoint chunks {A} (fuel : nat) (size : nat) (xs : list A) : list (list A) :=
  match fuel with
  | O => []
  | S fuel' =>
      match xs with
      | [] => []
      | _ => firstn size xs :: chunks fuel' size (skipn size xs)
      end
  end.

(** Every group but the last has exactly [size] elements; the last has
    between one and [size]. *)
Fixpoint wellSized {A} (size : nat) (groups : list (list A)) : Prop :=
  match groups with
  | [] => True
  | [g] => (1 <= List.length g <= size)%nat
  | g :: rest => List.length g = size /\ wellSized size rest
  end.

(** The machine after more lines were written to the console. *)
Definition logged (m : Machine) (entries : list LogEntry) : Machine :=
  {| clock := clock m; console := (console m ++ entries)%list; draws := draws m |}.

Definition line (l : Level) (msg : string) : LogEntry :=
  {| level := l; text := msg; attached := None |}.

Definition gettingLine (id : string) : LogEntry :=
  line LOG ("[EnableBanking] Getting accounts for session: " ++ id).

Definition foundLine (session : GetSessionResponse) : LogEntry :=
  line LOG ("[EnableBanking] Session retrieved, found "
            ++ show (N.of_nat (List.length (accounts session))) ++ " accounts").

Definition processedLine (succeeded total : nat) (duration : N) : LogEntry :=
  line LOG ("[EnableBanking] Processed " ++ show (N.of_nat succeeded) ++ "/"
            ++ show (N.of_nat total) ++ " accounts successfully in " ++ show duration ++ "ms").

(** The line naming the failed accounts, when there is any. *)
Definition warningLines (failed : list string) : list LogEntry :=
  match failed with
  | [] => []
  | _ => [line WARN (failedWarning (map Some failed))]
  end.

Definition rethrownLine (id : string) (e : Error) : LogEntry :=
  {| level := ERROR;
     text := "[EnableBanking] getAccounts error for session " ++ id ++ ":";
     attached := Some e |}.

(** The token's claims when it is generated at [now] (milliseconds). *)
Definition claimsAt (now : N) : JSONObject :=
  [("iss", JSONString "enablebanking.com");
   ("aud", JSONString "api.enablebanking.com");
   ("iat", JSONNumber (now / 1000));
   ("exp", JSONNumber (now / 1000 + 72000))].

Definition headerOf (this : EnableBankingApi) : JSONObject :=
  [("typ", JSONString "JWT");
   ("alg", JSONString "RS256");
   ("kid", JSONString (applicationId this))].

(** The text that is signed at [now]. *)
Definition signingInput (this : EnableBankingApi) (now : N) : string :=
  Base64Url.encode (JSON_stringify (headerOf this)) ++ "."
  ++ Base64Url.encode (JSON_stringify (claimsAt now)).

(** The request [#get] hands to the HTTP client in machine [m], bearing [jwt]. *)
Definition requestOf (W : World) (m : Machine) (jwt : string)
    (path_ : string) (params_ : option (list (string * string))) : Request :=
  {| sent_at := clock m;
     client := {| baseURL := baseUrl;
                  timeout := 30000;
                  client_headers := [("Accept", "application/json");
                                     ("Authorization", "Bearer " ++ jwt)] |};
     path := path_;
     params := params_;
     headers :=
       [("Psu-Ip-Address",
         join "." (map show [random_octet W (draws m);
                             random_octet W (draws m + 1);
                             random_octet W (draws m + 1 + 1);
                             random_octet W (draws m + 1 + 1 + 1)]));
        ("Psu-User-Agent", userAgent)] |}.

Definition drawn (m : Machine) (k : N) : Machine :=
  {| clock := clock m; console := console m; draws := draws m + k |}.

(** What a call made at [now] through the adapter's client, whose timeout
    is 30000 ms, settles to: the answer when it takes less than the timeout,
    else the client's timeout error when the timeout has elapsed. *)
Definition answered {T} (now : N) (reply : Reply T) : Promise T :=
  match reply with
  | replies d x =>
      if d <? 30000 then settled (now + d) x
      else settled (now + 30000) (rejected (new_XiorTimeoutError 30000))
  | silent => settled (now + 30000) (rejected (new_XiorTimeoutError 30000))
  end.

(** The query of a transactions request issued on local day [today]. *)
Definition transactionQuery (latest : option bool) (today : Z) : list (string * string) :=
  if truthy latest
  then [("strategy", "default");
        ("transaction_status", "BOOK");
        ("date_from", DateFns.formatISO_date (today - 5)%Z)]
  else [("strategy", "longest");
        ("transaction_status", "BOOK")].

Definition booked (t : Transaction) : Prop := status t = "BOOK".

(** The bank answers a request for booked transactions with booked
    transactions only. *)
Definition honoursStatusFilter (W : World) : Prop :=
  forall request query delay response,
    params request = Some query ->
    In ("transaction_status", "BOOK") query ->
    GET_transactions W request = replies delay (fulfilled response) ->
    Forall booked (transactions response).

(** The first console line of the accounts handler. *)
Definition requestLine (query : AccountsRoute.AccountsParams) : LogEntry :=
  line LOG ("[Accounts] Request: provider=" ++ AccountsRoute.provider query ++ ", id="
            ++ (if AccountsRoute.present (AccountsRoute.id query) then "present" else "missing")).

Definition requestOfQuery (query : AccountsRoute.AccountsParams) : AccountsRoute.GetAccountsRequest :=
  {| AccountsRoute.request_id := AccountsRoute.id query;
     AccountsRoute.request_accessToken := AccountsRoute.accessToken query;
     AccountsRoute.request_institutionId := AccountsRoute.institutionId query |}.

(** The answer given when the deadline passes first. *)
Definition timedOut {Account} (sentinel : string) : AccountsRoute.Response Account :=
  AccountsRoute.json
    (AccountsRoute.ErrorBody
       (AccountsRoute.createErrorResponse sentinel (new_Error "Request timeout"))) 400.

(** The line written when an account of a batch is started. *)
Definition processingLine (batch : list string) (accountId_ : string) (index : nat) : LogEntry :=
  line LOG ("[EnableBanking] Processing account " ++ show (N.of_nat (index + 1)) ++ "/"
            ++ show (N.of_nat (List.length batch)) ++ ": " ++ accountId_).

Definition signingErrorLine (e : Error) : LogEntry :=
  {| level := ERROR; text := "Error in JWT signing:"; attached := Some e |}.

(** The machine, clock apart, once a [#get] made in [m] has ended: four
    draws when the token was signed, one console line when it was not. *)
Definition afterCall (W : World) (this : EnableBankingApi) (m : Machine) : Machine :=
  match sign_RS256 W (keyContent this) (signingInput this (clock m)) with
  | inr _ => drawn m 4
  | inl e => logged m [signingErrorLine e]
  end.

(** Two worlds that sign and draw alike and answer the requests about one
    account alike; they may differ in everything they do for other accounts. *)
Definition sameFor (W W' : World) (accountId_ : string) : Prop :=
  (forall key data, sign_RS256 W key data = sign_RS256 W' key data)
  /\ (forall k, random_octet W k = random_octet W' k)
  /\ (forall r, path r = "/accounts/" ++ accountId_ ++ "/details" ->
                GET_details W r = GET_details W' r)
  /\ (forall r, path r = "/accounts/" ++ accountId_ ++ "/balances" ->
                GET_balances W r = GET_balances W' r).

(** The parsed amount of a balance. *)
Definition amountOf (b : Balance) : number := parseFloat (amount (balance_amount b)).

Definition timeoutError (accountId_ : string) : Error :=
  new_Error ("Timeout processing account " ++ accountId_).

(** What one account of a batch dispatched at [dispatched] settles to, given
    the promise of its own detail-and-balance work. *)
Definition itemOutcome (dispatched : N) (accountId_ : string)
    (work : Promise GetAccountDetailsResponse)
  : PromiseSettledResult GetAccountDetailsResponse :=
  match work with
  | settled t r =>
      if t <? dispatched + ACCOUNT_TIMEOUT then r else rejected (timeoutError accountId_)
  | pending => rejected (timeoutError accountId_)
  end.

Definition itemSettledAt (dispatched : N) (work : Promise GetAccountDetailsResponse) : N :=
  match work with
  | settled t _ => N.min t (dispatched + ACCOUNT_TIMEOUT)
  | pending => dispatched + ACCOUNT_TIMEOUT
  end.

(** The work has not completed when the per-item timer is due. *)
Definition late (dispatched : N) (work : Promise GetAccountDetailsResponse) : Prop :=
  match work with
  | settled t _ => dispatched + ACCOUNT_TIMEOUT <= t
  | pending => True
  end.

Section Schedule.

Variable W : World.
Variable this : EnableBankingApi.
Variable session : GetSessionResponse.

(** The promises handed to [Promise.allSettled] for a batch dispatched in [m]. *)
Definition batchItems (batch : list string) (m : Machine)
  : list (Promise GetAccountDetailsResponse) :=
  match mapIndexed (processAccount W this session batch) batch 0%nat m with
  | (Returned items, _) => items
  | _ => []
  end.

(** The machine in which the [k]-th element of [ids] is started, when the
    elements are started in order from [m]. *)
Definition startedIn (batch ids : list string) (index : nat) (m : Machine) (k : nat) : Machine :=
  snd (mapIndexed (processAccount W this session batch) (firstn k ids) index m).

(** For each batch in turn: the instant it is dispatched and its promises. *)
Fixpoint schedule (accountBatches : list (list string)) (m : Machine)
  : list (N * list (Promise GetAccountDetailsResponse)) :=
  match accountBatches with
  | [] => []
  | batch :: rest =>
      (clock m, batchItems batch m) :: schedule rest (snd (runBatch W this session batch m))
  end.

(** The result [r] is what a [processAccount] call for [accountId_],
    dispatched at the [index]-th place of a batch, settled to. *)
Definition outcomeOf (accountId_ : string) (r : PromiseSettledResult GetAccountDetailsResponse) : Prop :=
  exists batch index m,
    nth_error batch index = Some accountId_ /\
    r = itemOutcome (clock m) accountId_
          (settlement (accountPromise W this session batch accountId_ index) m).

End Schedule.

End Vocabulary.

(* ===================================================================== *)
(** * 6. A concrete bank                                                  *)
(* ===================================================================== *)

Module Examples.

Import JS Async EnableBanking.

Definition nordic : Aspsp := {| aspsp_name := "Nordea"; aspsp_country := "SE" |}.

Definition sessionOf (ids : list string) : GetSessionResponse :=
  {| accounts := ids; aspsp := nordic; access := {| access_valid_until := "2025-12-31" |} |}.

Definition eur (value : string) (kind : string) : Balance :=
  {| balance_amount := {| amount := value; currency := "EUR" |}; balance_type := kind |}.

Definition outage : Error := MkError "XiorError" "Request failed with status 503" (Some "503").

(** Session [S1] has the accounts [a], [b], [c]; session [EMPTY] has none;
    in session [DOWN] nothing can be fetched.  The details of [b] never
    arrive, those of [x] and [y] are refused.  The balances of [n] carry an
    amount that is not a number, and [e] has no balance at all. *)
Definition bank : World :=
  {| sign_RS256 := fun _ _ => inr "signature";
     random_octet := fun k => (k * 37 + 11) mod 256;
     localDay := fun t => Z.of_N (t / 86400000);
     GET_session := fun r =>
       if String.eqb (path r) "/sessions/S1" then replies 100 (fulfilled (sessionOf ["a"; "b"; "c"]))
       else if String.eqb (path r) "/sessions/EMPTY" then replies 100 (fulfilled (sessionOf []))
       else if String.eqb (path r) "/sessions/DOWN" then replies 100 (fulfilled (sessionOf ["x"; "y"]))
       else replies 80 (rejected outage);
     GET_details := fun r =>
       if String.eqb (path r) "/accounts/b/details" then silent
       else if String.eqb (path r) "/accounts/x/details" then replies 50 (rejected outage)
       else if String.eqb (path r) "/accounts/y/details" then replies 60 (rejected outage)
       else replies 300
              (fulfilled {| provided := [("resource", path r)];
                            institution := None; valid_until := None; balance := None |});
     GET_balances := fun r =>
       if String.eqb (path r) "/accounts/n/balances"
       then replies 200 (fulfilled {| balances := [eur "abc" "CLAV"; eur "5" "CLBD"] |})
       else if String.eqb (path r) "/accounts/e/balances"
       then replies 200 (fulfilled {| balances := [] |})
       else replies 200 (fulfilled {| balances := [eur "10.50" "CLAV"; eur "100" "CLBD";
                                                   eur "99.99" "ITAV"] |});
     GET_transactions := fun r =>
       match params r with
       | Some _ =>
           replies 150 (fulfilled {| transactions :=
                                       [{| entry_reference := "t1"; status := "BOOK" |};
                                        {| entry_reference := "t2"; status := "BOOK" |}] |})
       | None => replies 150 (rejected outage)
       end |}.

(** The account the adapter builds for a fetched id of session [S1]. *)
Definition accountOf (id : string) : GetAccountDetailsResponse :=
  {| provided := [("resource", "/accounts/" ++ id ++ "/details")];
     institution := Some nordic;
     valid_until := Some "2025-12-31";
     balance := Some (eur "100" "CLBD") |}.

Definition api : EnableBankingApi :=
  {| redirectUrl := "https://app.midday.ai/api/enablebanking/session";
     applicationId := "app-1";
     keyContent := "a2V5" |}.

(** 2023-11-14T22:13:20Z *)
Definition boot : Machine := {| clock := 1700000000000; console := []; draws := 0 |}.

End Examples.

(* ===================================================================== *)
(** * 6a. More of the adapter: code exchange and health check              *)
(* ===================================================================== *)

Module Connection.

Import JS Async EnableBanking.
Local Open Scope async_scope.

(** A provider object whose fields the adapter does not read. *)
Definition Fields := list (string * string).

(** The body of [POST /sessions]: [{ code }]. *)
Record CodeBody := { body_code : string }.

Record PostRequest :=
  { post_sent_at : N;
    post_client : XiorInstance;
    post_path : string;
    post_body : CodeBody }.

Record ApplicationResponse := { application_message : string }.

(** What the bank does with the calls of this part of the class. *)
Record Services :=
  { POST_sessions : PostRequest -> Reply Fields;
    GET_application : Request -> Reply ApplicationResponse }.

(** [new ProviderError({ message, code })] of [@engine/utils/error] *)
Definition new_ProviderError (message code : string) : Error :=
  MkError "ProviderError" message (Some code).

(** [x ?? fallback] *)
Definition orElse (x : option string) (fallback : string) : string :=
  match x with Some v => v | None => fallback end.

(** [console.log(error)] *)
Definition console_log_error (e : Error) : Async unit := write LOG EmptyString (Some e).

Section Methods.

Variable W : World.
Variable S : Services.
Variable this : EnableBankingApi.

(** [transformSessionData] of [./transform] is not among the sources; it is
    given with the type of its result, and may throw. *)
Variable SessionData : Type.
Variable transformSessionData : Fields -> Error + SessionData.

(** [error.response?.data?.error]: what the thrown value carries of the
    answer of a failed HTTP call, if anything. *)
Variable responseDataError : Error -> option string.

(** [#post<TResponse>(path, body)]; the only caller modelled passes no
    [config]. *)
Definition post {T} (endpoint : PostRequest -> Reply T)
    (path_ : string) (body_ : CodeBody) : Async T :=
  api <- getApi W this ;;
  now <- Date_now ;;
  await (xior_request api now
           (endpoint {| post_sent_at := now;
                        post_client := api;
                        post_path := path_;
                        post_body := body_ |})).

Definition exchangeCode (code : string) : Async SessionData :=
  try_catch
    (response <- post (POST_sessions S) "/sessions" {| body_code := code |} ;;
     lift (transformSessionData response))
    (fun error =>
       console_log_error error ;;
       throw (new_ProviderError "Failed to exchange code"
                (orElse (responseDataError error) "ENABLEBANKING_ERROR"))).

Definition getHealthCheck : Async bool :=
  try_catch
    (get W this (fun _ => GET_application S) "/application" None ;;
     ret true)
    (fun _ => ret false).

End Methods.

End Connection.

(* ===================================================================== *)
(** * 6b. The rest of the accounts route                                   *)
(* ===================================================================== *)

Module AccountsRouteRest.

Import JS Async AccountsRoute.
Local Open Scope async_scope.

Record DeleteAccountsParams :=
  { delete_provider : string;
    delete_accountId : option string;
    delete_accessToken : option string }.

Record DeleteAccountsRequest :=
  { deleting_accessToken : option string;
    deleting_accountId : option string }.

Record AccountBalanceParams :=
  { balance_provider : string;
    balance_accessToken : option string;
    balance_id : option string }.

Record GetAccountBalanceRequest :=
  { balancing_accessToken : option string;
    balancing_accountId : option string }.

(** The JSON bodies of the two routes. *)
Inductive Payload (Data : Type) :=
| SuccessTrue
| DataOf (data : Data)
| ErrorOf (response : ErrorResponse).
Arguments SuccessTrue {Data}.
Arguments DataOf {Data} data.
Arguments ErrorOf {Data} response.

Record Answer (Data : Type) := { payload : Payload Data; answer_status : N }.
Arguments payload {Data} a.
Arguments answer_status {Data} a.

Definition answer {Data} (b : Payload Data) (status_ : N) : Answer Data :=
  {| payload := b; answer_status := status_ |}.

Section Handlers.

(** As for [GET /accounts], the facade's methods and the sentinel code of the
    error mapping are given. *)
Variable BalanceData : Type.
Variable Provider_deleteAccounts : string -> DeleteAccountsRequest -> Async unit.
Variable Provider_getAccountBalance : string -> GetAccountBalanceRequest -> Async BalanceData.
Variable sentinel : string.

(** [DELETE /accounts] *)
Definition deleteAccountsHandler (query : DeleteAccountsParams) : Async (Answer unit) :=
  let api_deleteAccounts := Provider_deleteAccounts (delete_provider query) in
  try_catch
    (api_deleteAccounts {| deleting_accessToken := delete_accessToken query;
                           deleting_accountId := delete_accountId query |} ;;
     ret (answer SuccessTrue 200))
    (fun err =>
       let errorResponse := createErrorResponse sentinel err in
       ret (answer (ErrorOf errorResponse) 400)).

(** [GET /accounts/balance] *)
Definition getAccountBalanceHandler (query : AccountBalanceParams) : Async (Answer BalanceData) :=
  let api_getAccountBalance := Provider_getAccountBalance (balance_provider query) in
  try_catch
    (data <- api_getAccountBalance {| balancing_accessToken := balance_accessToken query;
                                      balancing_accountId := balance_id query |} ;;
     ret (answer (DataOf data) 200))
    (fun err =>
       let errorResponse := createErrorResponse sentinel err in
       ret (answer (ErrorOf errorResponse) 400)).

End Handlers.

End AccountsRouteRest.

(* ===================================================================== *)
(** * 6c. More of the concrete bank                                        *)
(* ===================================================================== *)

Module MoreExamples.

Import JS Async EnableBanking Connection Examples.

(** The request [#post] hands to the HTTP client in machine [m]. *)
Definition postOf (m : Machine) (jwt : string) (path_ : string) (body_ : CodeBody)
  : PostRequest :=
  {| post_sent_at := clock m;
     post_client := {| baseURL := baseUrl;
                       timeout := 30000;
                       client_headers := [("Accept", "application/json");
                                          ("Authorization", "Bearer " ++ jwt)] |};
     post_path := path_;
     post_body := body_ |}.

(** The console line of [console.log(error)]. *)
Definition loggedError (e : Error) : LogEntry :=
  {| level := LOG; text := EmptyString; attached := Some e |}.

Definition keyError : Error := MkError "TypeError" "Invalid PKCS8 input" None.

(** The bank of the examples, reached with a key that cannot be imported. *)
Definition lockedBank : World :=
  {| sign_RS256 := fun _ _ => inl keyError;
     random_octet := random_octet bank;
     localDay := localDay bank;
     GET_session := GET_session bank;
     GET_details := GET_details bank;
     GET_balances := GET_balances bank;
     GET_transactions := GET_transactions bank |}.

(** A bank whose balances for [t] tie and whose balances for [u] start with
    an amount that is not a number. *)
Definition tied : GetBalancesResponse :=
  {| balances := [eur "7" "ITAV"; eur "100" "CLAV"; eur "100.0" "CLBD"; eur "1e2" "XPCD"] |}.

Definition unreadable : GetBalancesResponse :=
  {| balances := [eur "n/a" "CLAV"; eur "5" "CLBD"; eur "900" "XPCD"] |}.

Definition tieBank : World :=
  {| sign_RS256 := sign_RS256 bank;
     random_octet := random_octet bank;
     localDay := localDay bank;
     GET_session := fun _ => replies 100 (fulfilled (sessionOf ["e"]));
     GET_details := GET_details bank;
     GET_balances := fun r =>
       if String.eqb (path r) "/accounts/t/balances" then replies 200 (fulfilled tied)
       else if String.eqb (path r) "/accounts/u/balances" then replies 200 (fulfilled unreadable)
       else replies 200 (fulfilled {| balances := [] |});
     GET_transactions := GET_transactions bank |}.

Definition alreadyUsed : Error :=
  MkError "XiorError" "Request failed with status code 422" (Some "ALREADY_AUTHORIZED").

Definition services : Services :=
  {| POST_sessions := fun r =>
       if String.eqb (body_code (post_body r)) "used" then replies 90 (rejected alreadyUsed)
       else if String.eqb (body_code (post_body r)) "lost" then silent
       else replies 90 (fulfilled [("session_id", "S1"); ("code", body_code (post_body r))]);
     GET_application := fun _ => replies 40 (rejected outage) |}.

(** The bank of the examples when it leaves session requests unanswered. *)
Definition muteBank : World :=
  {| sign_RS256 := sign_RS256 bank;
     random_octet := random_octet bank;
     localDay := localDay bank;
     GET_session := fun _ => silent;
     GET_details := GET_details bank;
     GET_balances := GET_balances bank;
     GET_transactions := GET_transactions bank |}.

(** The bank of the examples when it pays no attention to the status asked
    for: it answers with a booked and a pending transaction. *)
Definition laxBank : World :=
  {| sign_RS256 := sign_RS256 bank;
     random_octet := random_octet bank;
     localDay := localDay bank;
     GET_session := GET_session bank;
     GET_details := GET_details bank;
     GET_balances := GET_balances bank;
     GET_transactions := fun _ =>
       replies 150 (fulfilled {| transactions :=
                                   [{| entry_reference := "t1"; status := "BOOK" |};
                                    {| entry_reference := "t3"; status := "PDNG" |}] |}) |}.

(** Only the errors of the HTTP client carry the bank's answer. *)
Definition dataError (e : Error) : option string :=
  match e with
  | MkError name _ c => if String.eqb name "XiorError" then c else None
  end.

(** A provider that never answers. *)
Definition stuck {A} : Async A := await pending.

End MoreExamples.

(* ===================================================================== *)
(** * 7. Properties of the runtime notions                                *)
(* ===================================================================== *)

Import JS Async.

Ltac Zify.zify_post_hook ::= Z.to_euclidean_division_equations.

Section StringFacts.

Lemma string_ind3 (P : string -> Prop) :
  P EmptyString ->
  (forall a, P (String a EmptyString)) ->
  (forall a b, P (String a (String b EmptyString))) ->
  (forall a b c s, P s -> P (String a (String b (String c s)))) ->
  forall s, P s.
Proof.
  intros H0 H1 H2 H3.
  fix IH 1.
  intros [|a [|b [|c s]]]; [apply H0 | apply H1 | apply H2 | apply H3, IH].
Qed.

Lemma append_assoc (a b c : string) : (a ++ b) ++ c = a ++ (b ++ c).
Proof. induction a; simpl; congruence. Qed.

End StringFacts.

Module Base64UrlFacts.

Import Base64Url.

Lemma sextet_roundtrip n : n < 64 -> charSextet (sextetChar n) = Some n.
Proof.
  intros H.
  destruct n as [|p]; [reflexivity|].
  do 6 (destruct p as [p|p|]; try reflexivity); lia.
Qed.

Lemma sextetChar_urlSafe n : n < 64 -> urlSafeChar (sextetChar n) = true.
Proof. intros H. unfold urlSafeChar. now rewrite sextet_roundtrip. Qed.

Lemma byte_bound (a : ascii) : N_of_ascii a < 256.
Proof. apply N_ascii_bounded. Qed.

Lemma byte1_ok x y : x < 256 -> y < 256 ->
  byte1 (x / 4) ((x mod 4) * 16 + y / 16) = ascii_of_N x.
Proof. intros Hx Hy. unfold byte1. f_equal. lia. Qed.

Lemma byte2_ok x y z : x < 256 -> y < 256 -> z < 256 ->
  byte2 ((x mod 4) * 16 + y / 16) ((y mod 16) * 4 + z / 64) = ascii_of_N y.
Proof. intros Hx Hy Hz. unfold byte2. f_equal. lia. Qed.

Lemma byte3_ok y z : y < 256 -> z < 256 ->
  byte3 ((y mod 16) * 4 + z / 64) (z mod 64) = ascii_of_N z.
Proof. intros Hy Hz. unfold byte3. f_equal. lia. Qed.

Ltac sextets :=
  repeat match goal with
  | a : ascii |- _ =>
      lazymatch goal with
      | H : N_of_ascii a < 256 |- _ => fail
      | _ => pose proof (byte_bound a)
      end
  end.

Lemma decode_encode bytes : decode (encode bytes) = Some bytes.
Proof.
  induction bytes as [|a|a b|a b c rest IH] using string_ind3.
  - reflexivity.
  - sextets. cbn [encode decode].
    rewrite !sextet_roundtrip by lia.
    replace ((N_of_ascii a mod 4) * 16) with ((N_of_ascii a mod 4) * 16 + 0 / 16) by lia.
    rewrite byte1_ok by lia. now rewrite ascii_N_embedding.
  - sextets. cbn [encode decode].
    rewrite !sextet_roundtrip by lia.
    replace ((N_of_ascii b mod 16) * 4) with ((N_of_ascii b mod 16) * 4 + 0 / 64) at 1 by lia.
    rewrite byte1_ok, byte2_ok by lia. now rewrite !ascii_N_embedding.
  - sextets. cbn [encode decode].
    rewrite !sextet_roundtrip by lia.
    rewrite IH, byte1_ok, byte2_ok, byte3_ok by lia.
    now rewrite !ascii_N_embedding.
Qed.

Lemma encode_urlSafe bytes : urlSafe (encode bytes) = true.
Proof.
  induction bytes as [|a|a b|a b c rest IH] using string_ind3;
    sextets; cbn [encode urlSafe];
    rewrite ?sextetChar_urlSafe by lia; auto.
Qed.

End Base64UrlFacts.

Module ReaderFacts.

Import Reader.

(** *** Splitting at dots *)

Lemma urlSafe_split_one a :
  Base64Url.urlSafe a = true -> split "." a = [a].
Proof.
  induction a as [|c a IH]; [reflexivity|].
  cbn [Base64Url.urlSafe split]. intros H.
  apply andb_prop in H as [Hc Ha].
  destruct (Ascii.eqb_spec c "."%char) as [->|_]; [discriminate Hc|].
  now rewrite IH.
Qed.

Lemma urlSafe_split_app a b :
  Base64Url.urlSafe a = true -> split "." (a ++ String "." b) = a :: split "." b.
Proof.
  induction a as [|c a IH]; [reflexivity|].
  cbn [Base64Url.urlSafe split append]. intros H.
  apply andb_prop in H as [Hc Ha].
  destruct (Ascii.eqb_spec c "."%char) as [->|_]; [discriminate Hc|].
  now rewrite IH.
Qed.

(** *** Quoted strings *)

Lemma unquote_quoteJSONChar c tail spelled rest :
  unquote tail = Some (spelled, rest) ->
  unquote (quoteJSONChar c ++ tail) = Some (String c spelled, rest).
Proof.
  intros H.
  destruct c as [[|] [|] [|] [|] [|] [|] [|] [|]];
    cbn; rewrite H; reflexivity.
Qed.

Lemma unquote_quoteJSONChars s rest :
  unquote (quoteJSONChars s ++ String quote_char rest) = Some (s, rest).
Proof.
  induction s as [|c s IH]; [reflexivity|].
  cbn [quoteJSONChars]. rewrite append_assoc.
  now apply unquote_quoteJSONChar.
Qed.

Lemma unquote_quoteJSONString s rest :
  exists tail, quoteJSONString s ++ rest = String quote_char tail
               /\ unquote tail = Some (s, rest).
Proof.
  exists (quoteJSONChars s ++ String quote_char rest). split.
  - unfold quoteJSONString. cbn [append]. now rewrite append_assoc.
  - apply unquote_quoteJSONChars.
Qed.

(** *** Numbers *)

Lemma spanDigits_stop text : startsWithDigit text = false -> spanDigits text = (EmptyString, text).
Proof. destruct text as [|c r]; [reflexivity|]. cbn. now intros ->. Qed.

Lemma spanDigits_uint d rest :
  startsWithDigit rest = false ->
  spanDigits (NilEmpty.string_of_uint d ++ rest) = (NilEmpty.string_of_uint d, rest).
Proof.
  intros H.
  induction d; cbn [NilEmpty.string_of_uint append];
    [now apply spanDigits_stop | ..];
    cbn [spanDigits]; cbn [isDigit N_of_ascii N.leb N.compare andb];
    cbn; rewrite IHd; reflexivity.
Qed.

Lemma show_uint n : show n = NilEmpty.string_of_uint (N.to_uint n) /\ N.to_uint n <> Decimal.Nil.
Proof.
  unfold show. destruct n as [|p]; [split; [reflexivity|discriminate]|].
  cbn [N.to_uint]. pose proof (DecimalPos.Unsigned.to_uint_nonnil p) as H.
  split; [|exact H].
  destruct (Pos.to_uint p); [contradiction|reflexivity..].
Qed.

Lemma show_head n : exists c r, show n = String c r /\ isDigit c = true.
Proof.
  destruct (show_uint n) as [-> H].
  destruct (N.to_uint n); [contradiction|..]; cbn; eauto.
Qed.

Lemma parseValue_number n rest :
  startsWithDigit rest = false ->
  parseValue (show n ++ rest) = Some (JSONNumber n, rest).
Proof.
  intros H.
  destruct (show_head n) as (c & r & E & Hc).
  unfold parseValue. rewrite E. cbn [append].
  destruct (Ascii.eqb_spec c quote_char) as [->|_]; [discriminate Hc|].
  change (String c (r ++ rest)) with (String c r ++ rest). rewrite <- E.
  destruct (show_uint n) as [E' Hn]. rewrite E' at 1.
  rewrite spanDigits_uint by exact H.
  rewrite <- E'. unfold show. rewrite NilZero.usu by exact Hn.
  now rewrite DecimalN.Unsigned.of_to.
Qed.

Lemma parseValue_string s rest :
  parseValue (quoteJSONString s ++ rest) = Some (JSONString s, rest).
Proof.
  destruct (unquote_quoteJSONString s rest) as (tail & -> & H).
  unfold parseValue. now rewrite Ascii.eqb_refl, H.
Qed.

Lemma parseValue_stringify v rest :
  startsWithDigit rest = false ->
  parseValue (stringifyValue v ++ rest) = Some (v, rest).
Proof.
  destruct v; cbn [stringifyValue]; intros H.
  - now apply parseValue_number.
  - apply parseValue_string.
Qed.

Lemma parseMember_stringify kv rest :
  startsWithDigit rest = false ->
  parseMember (stringifyMember kv ++ rest) = Some (kv, rest).
Proof.
  intros H. destruct kv as [k v]. unfold stringifyMember. cbn [fst snd].
  rewrite !append_assoc.
  destruct (unquote_quoteJSONString k (":" ++ stringifyValue v ++ rest)) as (tail & -> & Hk).
  unfold parseMember. rewrite Ascii.eqb_refl, Hk. cbn [append].
  now rewrite parseValue_stringify.
Qed.

Lemma parseMembers_stringify o : forall fuel,
  o <> [] -> (List.length o <= fuel)%nat ->
  parseMembers fuel (join "," (map stringifyMember o) ++ "}") = Some o.
Proof.
  induction o as [|kv o IH]; [congruence|].
  intros fuel _ Hf. destruct fuel as [|fuel]; [cbn in Hf; lia|].
  cbn [parseMembers map]. destruct o as [|kv' o].
  - cbn [join map]. now rewrite parseMember_stringify.
  - change (join "," (stringifyMember kv :: map stringifyMember (kv' :: o)))
      with (stringifyMember kv ++ "," ++ join "," (map stringifyMember (kv' :: o))).
    rewrite !append_assoc.
    rewrite parseMember_stringify by reflexivity.
    cbn [append]. rewrite IH; [reflexivity|discriminate|cbn in *; lia].
Qed.

Lemma length_append (a b : string) : String.length (a ++ b) = (String.length a + String.length b)%nat.
Proof. induction a; cbn; congruence. Qed.

Lemma stringifyMember_length kv : (1 <= String.length (stringifyMember kv))%nat.
Proof. destruct kv. unfold stringifyMember, quoteJSONString. cbn. lia. Qed.

Lemma join_length o :
  (List.length o <= String.length (join "," (map stringifyMember o) ++ "}"))%nat.
Proof.
  induction o as [|kv o IH]; [cbn; lia|].
  pose proof (stringifyMember_length kv).
  destruct o as [|kv' o].
  - cbn [map join List.length]. rewrite length_append. lia.
  - change (join "," (map stringifyMember (kv :: kv' :: o)))
      with (stringifyMember kv ++ "," ++ join "," (map stringifyMember (kv' :: o))).
    rewrite !append_assoc, length_append. cbn [append String.length List.length] in *. lia.
Qed.

Lemma JSON_parse_stringify o : JSON_parse (JSON_stringify o) = Some o.
Proof.
  destruct o as [|kv o]; [reflexivity|].
  unfold JSON_stringify. cbn [append].
  set (rest := join "," (map stringifyMember (kv :: o)) ++ "}").
  assert (Hq : exists tail, rest = String quote_char tail).
  { subst rest. destruct kv as [k v]. destruct o; cbn; eauto. }
  destruct Hq as [tail Hq].
  assert (E : JSON_parse (String "{" rest) = parseMembers (String.length rest) rest)
    by (rewrite Hq; reflexivity).
  rewrite E. subst rest.
  apply parseMembers_stringify; [discriminate|apply join_length].
Qed.

Lemma decodeSegment_encode o :
  decodeSegment (Base64Url.encode (JSON_stringify o)) = Some o.
Proof.
  unfold decodeSegment. now rewrite Base64UrlFacts.decode_encode, JSON_parse_stringify.
Qed.

End ReaderFacts.

(** *** The order on numbers *)

Module NumberFacts.

Ltac compare_cases :=
  repeat match goal with
  | H : context [Pos.compare_cont Eq ?a ?b] |- _ =>
      change (Pos.compare_cont Eq a b) with (Pos.compare a b) in H
  | |- context [Pos.compare_cont Eq ?a ?b] =>
      change (Pos.compare_cont Eq a b) with (Pos.compare a b)
  | H : context [Z.compare ?a ?b] |- _ =>
      destruct (Z.compare_spec a b); subst; cbn in H; try discriminate H
  | H : context [Pos.compare ?a ?b] |- _ =>
      destruct (Pos.compare_spec a b); subst; cbn in H; try discriminate H
  | |- context [Z.compare ?a ?b] =>
      destruct (Z.compare_spec a b); subst; cbn; try reflexivity; try lia
  | |- context [Pos.compare ?a ?b] =>
      destruct (Pos.compare_spec a b); subst; cbn; try reflexivity; try lia
  end.

Ltac by_cases :=
  unfold gt, ge, isNaN, SFltb, SFleb, SFcompare;
  intros;
  repeat match goal with
  | x : number |- _ => destruct x as [[|]|[|]| |[|] ? ?]
  | x : spec_float |- _ => destruct x as [[|]|[|]| |[|] ? ?]
  end;
  cbn in *; try reflexivity; try discriminate;
  compare_cases; try reflexivity; try discriminate; try lia.

Lemma gt_irrefl (x : number) : gt x x = false.
Proof. by_cases. Qed.

Lemma lt_trans (x y z : number) :
  SFltb x y = true -> SFltb y z = true -> SFltb x z = true.
Proof. by_cases. Qed.

Lemma not_gt_ge (x y : number) :
  isNaN x = false -> isNaN y = false -> gt x y = false -> ge y x = true.
Proof. by_cases. Qed.

Lemma gt_numbers (x y : number) : gt x y = true -> isNaN x = false /\ isNaN y = false.
Proof. by_cases; split; reflexivity. Qed.

Lemma ge_NaN_r (x : number) : ge x NaN = false.
Proof. by_cases. Qed.

Lemma ge_NaN_l (x : number) : ge NaN x = false.
Proof. by_cases. Qed.

(** Replacing the current maximum [m] by a greater [c] keeps every entry
    seen so far from exceeding it. *)
Lemma not_gt_step (e m c : number) :
  gt e m = false -> gt c m = true -> gt e c = false.
Proof.
  unfold gt. intros Hem Hcm.
  destruct (SFltb c e) eqn:Hce; [|reflexivity].
  now rewrite (lt_trans m c e Hcm Hce) in Hem.
Qed.

End NumberFacts.

(* ===================================================================== *)
(** * 8. Properties of the adapter                                        *)
(* ===================================================================== *)

Module AdapterFacts.

Import EnableBanking Vocabulary.

Section WithWorld.

Variable W : World.
Variable this : EnableBankingApi.

(** ** Promises *)

Lemma race_with_timer dispatched accountId_ work :
  Promise_race work (settled (dispatched + ACCOUNT_TIMEOUT) (rejected (timeoutError accountId_)))
  = settled (itemSettledAt dispatched work) (itemOutcome dispatched accountId_ work).
Proof.
  destruct work as [|t r]; cbn [Promise_race itemSettledAt itemOutcome]; [reflexivity|].
  destruct (N.ltb_spec t (dispatched + ACCOUNT_TIMEOUT)).
  - now rewrite N.min_l by lia.
  - now rewrite N.min_r by lia.
Qed.

Lemma itemSettledAt_bound dispatched work :
  itemSettledAt dispatched work <= dispatched + ACCOUNT_TIMEOUT.
Proof. destruct work; cbn; lia. Qed.

Lemma late_outcome dispatched accountId_ work :
  late dispatched work ->
  itemOutcome dispatched accountId_ work = rejected (timeoutError accountId_).
Proof.
  destruct work as [|t r]; cbn; [reflexivity|]. intros H.
  destruct (N.ltb_spec t (dispatched + ACCOUNT_TIMEOUT)); [lia|reflexivity].
Qed.

Lemma timely_outcome dispatched accountId_ t r :
  t < dispatched + ACCOUNT_TIMEOUT ->
  itemOutcome dispatched accountId_ (settled t r) = r.
Proof.
  cbn. intros H. destruct (N.ltb_spec t (dispatched + ACCOUNT_TIMEOUT)); [reflexivity|lia].
Qed.

(** ** One account of a batch *)

Section WithSession.

Variable session : GetSessionResponse.

Lemma processAccount_run batch accountId_ index m :
  exists m',
    processAccount W this session batch accountId_ index m
    = (Returned
         (settled
            (itemSettledAt (clock m)
               (settlement (accountPromise W this session batch accountId_ index) m))
            (itemOutcome (clock m) accountId_
               (settlement (accountPromise W this session batch accountId_ index) m))),
       m')
    /\ sameInstant m m'.
Proof.
  eexists. split.
  - cbv [processAccount bind rejectAfter start ret].
    rewrite <- race_with_timer. reflexivity.
  - reflexivity.
Qed.

Lemma mapIndexed_prefix batch : forall ids index m,
  exists items m',
    mapIndexed (processAccount W this session batch) ids index m = (Returned items, m').
Proof.
  induction ids as [|i ids IH]; intros index m.
  - now exists [], m.
  - destruct (processAccount_run batch i index m) as (m1 & E1 & _).
    destruct (IH (S index) m1) as (items & m2 & E2).
    eexists (_ :: items), m2.
    cbn [mapIndexed]. unfold bind at 1. rewrite E1.
    unfold bind at 1. rewrite E2. reflexivity.
Qed.

Lemma mapIndexed_run batch : forall ids index m,
  exists items m',
    mapIndexed (processAccount W this session batch) ids index m = (Returned items, m')
    /\ sameInstant m m'
    /\ List.length items = List.length ids
    /\ forall k accountId_, nth_error ids k = Some accountId_ ->
         exists mk,
           mk = startedIn W this session batch ids index m k /\
           sameInstant m mk /\
           nth_error items k
           = Some (settled
                     (itemSettledAt (clock m)
                        (settlement (accountPromise W this session batch accountId_ (index + k)) mk))
                     (itemOutcome (clock m) accountId_
                        (settlement (accountPromise W this session batch accountId_ (index + k)) mk))).
Proof.
  induction ids as [|i ids IH]; intros index m.
  - exists [], m. repeat split. intros [|k] ? H; discriminate H.
  - destruct (processAccount_run batch i index m) as (m1 & E1 & C1).
    destruct (IH (S index) m1) as (items & m2 & E2 & C2 & L & Hk).
    eexists (_ :: items), m2.
    split; [|split; [|split]].
    + cbn [mapIndexed]. unfold bind at 1. rewrite E1.
      unfold bind at 1. rewrite E2. reflexivity.
    + unfold sameInstant in *. congruence.
    + cbn. now rewrite L.
    + intros [|k] a H; cbn in H.
      * injection H as <-. exists m. split; [reflexivity|]. split; [reflexivity|].
        now rewrite Nat.add_0_r.
      * destruct (Hk k a H) as (mk & Em & Ck & Ek).
        exists mk. unfold sameInstant in *. split; [|split; [congruence|]].
        -- rewrite Em. unfold startedIn. cbn [firstn mapIndexed].
           unfold bind at 1. rewrite E1.
           destruct (mapIndexed_prefix batch (firstn k ids) (S index) m1) as (ys & my & Ey).
           unfold bind at 1. rewrite Ey. reflexivity.
        -- cbn [nth_error]. rewrite Ek, C1.
           now replace (S index + k)%nat with (index + S k)%nat by lia.
Qed.

(** ** One batch *)

Lemma settledResults_all {A} (items : list (Promise A)) :
  (forall p, In p items -> exists t r, p = settled t r) ->
  exists rs,
    settledResults items = Some rs
    /\ List.length rs = List.length items
    /\ forall k t r, nth_error items k = Some (settled t r) -> nth_error rs k = Some r.
Proof.
  induction items as [|p items IH]; intros H.
  - exists []. repeat split. intros [|k] ? ? E; discriminate E.
  - destruct (H p (or_introl eq_refl)) as (t & r & ->).
    destruct IH as (rs & E & L & Hk); [intros q Hq; apply H; now right|].
    exists (r :: rs). cbn [settledResults]. rewrite E. repeat split.
    + cbn. now rewrite L.
    + intros [|k] t' r' E'; cbn in E'; [now injection E' as _ <-|].
      cbn. eauto.
Qed.

Lemma latest_ge_now {A} now (items : list (Promise A)) : now <= latest now items.
Proof. induction items as [|[|t r] items IH]; cbn; lia. Qed.

Lemma latest_ge_item {A} now (items : list (Promise A)) t r :
  In (settled t r) items -> t <= latest now items.
Proof.
  induction items as [|p items IH]; cbn; [tauto|].
  intros [->|H]; [lia|]. specialize (IH H). destruct p; lia.
Qed.

Lemma batchItems_settled batch m p :
  In p (batchItems W this session batch m) ->
  exists t r, p = settled t r /\ t <= clock m + ACCOUNT_TIMEOUT.
Proof.
  unfold batchItems.
  destruct (mapIndexed_run batch batch 0%nat m) as (items & m' & E & _ & L & Hk).
  rewrite E. intros Hp.
  apply In_nth_error in Hp as [k Hp].
  assert (Hlt : (k < List.length batch)%nat).
  { rewrite <- L. apply nth_error_Some. congruence. }
  destruct (nth_error batch k) as [a|] eqn:Ea;
    [|apply nth_error_None in Ea; lia].
  destruct (Hk k a Ea) as (mk & _ & _ & Ek).
  rewrite Ek in Hp. injection Hp as <-.
  eexists _, _. split; [reflexivity|apply itemSettledAt_bound].
Qed.

Lemma runBatch_run batch m :
  exists results m',
    runBatch W this session batch m = (Returned results, m')
    /\ settledResults (batchItems W this session batch m) = Some results
    /\ clock m' = latest (clock m) (batchItems W this session batch m)
    /\ List.length results = List.length batch
    /\ forall k accountId_, nth_error batch k = Some accountId_ ->
         exists mk,
           mk = startedIn W this session batch batch 0%nat m k /\
           sameInstant m mk /\
           nth_error results k
           = Some (itemOutcome (clock m) accountId_
                     (settlement (accountPromise W this session batch accountId_ k) mk)).
Proof.
  destruct (settledResults_all (batchItems W this session batch m)) as (rs & E & L & Hk).
  { intros p Hp. destruct (batchItems_settled batch m p Hp) as (t & r & -> & _). eauto. }
  revert E L Hk. unfold batchItems.
  destruct (mapIndexed_run batch batch 0%nat m) as (items & m1 & E1 & C1 & L1 & Hk1).
  rewrite E1. intros E L Hk.
  exists rs. eexists. split; [|split; [|split; [|split]]].
  - unfold runBatch, processAccountBatch. unfold bind at 1. unfold bind at 1.
    rewrite E1. cbv [bind Date_now ret await Promise_allSettled]. rewrite E. reflexivity.
  - exact E.
  - cbn [clock]. unfold sameInstant in C1. rewrite C1.
    apply N.max_r, latest_ge_now.
  - congruence.
  - intros k a Ea. destruct (Hk1 k a Ea) as (mk & Em & Ck & Ek).
    exists mk. split; [exact Em|]. split; [exact Ck|]. eapply Hk. exact Ek.
Qed.

Lemma runBatch_monotone batch m :
  clock m <= clock (snd (runBatch W this session batch m)).
Proof.
  destruct (runBatch_run batch m) as (rs & m' & E & _ & C & _).
  rewrite E. cbn [snd]. rewrite C. apply latest_ge_now.
Qed.

End WithSession.

End WithWorld.

(** ** The loop over the batches *)

Section Loop.

Variable W : World.
Variable this : EnableBankingApi.
Variable session : GetSessionResponse.

Lemma Forall2_of_nth {A B} (P : A -> B -> Prop) (xs : list A) : forall (ys : list B),
  List.length ys = List.length xs ->
  (forall k x, nth_error xs k = Some x -> exists y, nth_error ys k = Some y /\ P x y) ->
  Forall2 P xs ys.
Proof.
  induction xs as [|x xs IH]; intros [|y ys] L H; try discriminate L; constructor.
  - destruct (H 0%nat x eq_refl) as (y' & E & Hp). now injection E as ->.
  - apply IH; [now injection L|]. intros k x' E. exact (H (S k) x' E).
Qed.

Lemma runBatch_outcomes batch m results m' :
  runBatch W this session batch m = (Returned results, m') ->
  Forall2 (outcomeOf W this session) batch results.
Proof.
  intros E.
  destruct (runBatch_run W this session batch m) as (rs & m2 & E2 & _ & _ & L & Hk).
  rewrite E2 in E. injection E as <- <-.
  apply Forall2_of_nth; [exact L|].
  intros k a Ea. destruct (Hk k a Ea) as (mk & _ & Ck & Ek).
  eexists. split; [exact Ek|].
  exists batch, k, mk. split; [exact Ea|]. unfold sameInstant in Ck. now rewrite Ck.
Qed.

Lemma settledResults_app {A} (ps qs : list (Promise A)) rs ss :
  settledResults ps = Some rs -> settledResults qs = Some ss ->
  settledResults (ps ++ qs) = Some (rs ++ ss)%list.
Proof.
  revert rs. induction ps as [|[|t r] ps IH]; intros rs Hp Hq; cbn in *.
  - now injection Hp as <-.
  - discriminate Hp.
  - destruct (settledResults ps) as [rs'|]; [|discriminate Hp].
    injection Hp as <-. now rewrite (IH rs' eq_refl Hq).
Qed.

Lemma forBatches_run : forall accountBatches allResults m,
  exists results m',
    forBatches W this session accountBatches allResults m
    = (Returned (allResults ++ results)%list, m')
    /\ clock m <= clock m'
    /\ Forall2 (outcomeOf W this session) (List.concat accountBatches) results
    /\ settledResults (List.concat (map snd (schedule W this session accountBatches m)))
       = Some results.
Proof.
  induction accountBatches as [|batch rest IH]; intros allResults m.
  - exists [], m. cbn. rewrite app_nil_r. repeat split; [lia|constructor].
  - destruct (runBatch_run W this session batch m) as (rs & m1 & E1 & S1 & C1 & L1 & Hk).
    destruct (IH (allResults ++ rs)%list m1) as (results & m2 & E2 & C2 & F2 & S2).
    exists (rs ++ results)%list, m2. split; [|split; [|split]].
    + cbn [forBatches]. unfold bind. rewrite E1, E2. now rewrite app_assoc.
    + pose proof (runBatch_monotone W this session batch m) as Hm.
      rewrite E1 in Hm. cbn [snd] in Hm. lia.
    + cbn [List.concat]. apply Forall2_app; [|exact F2].
      eapply runBatch_outcomes. exact E1.
    + cbn [schedule map snd List.concat]. rewrite E1. cbn [snd].
      now apply settledResults_app.
Qed.

Lemma schedule_not_before : forall accountBatches m k t items,
  nth_error (schedule W this session accountBatches m) k = Some (t, items) ->
  clock m <= t.
Proof.
  induction accountBatches as [|batch rest IH]; intros m k t items H.
  - destruct k; discriminate H.
  - destruct k as [|k]; cbn in H.
    + injection H as <- _. lia.
    + apply IH in H. pose proof (runBatch_monotone W this session batch m). lia.
Qed.

Lemma schedule_in_sequence : forall accountBatches m j k tj itemsj tk itemsk,
  (j < k)%nat ->
  nth_error (schedule W this session accountBatches m) j = Some (tj, itemsj) ->
  nth_error (schedule W this session accountBatches m) k = Some (tk, itemsk) ->
  forall p, In p itemsj -> exists t r, p = settled t r /\ t <= tk.
Proof.
  induction accountBatches as [|batch rest IH]; intros m j k tj itemsj tk itemsk Hjk Hj Hk p Hp.
  - destruct j; discriminate Hj.
  - destruct k as [|k]; [lia|]. cbn [schedule nth_error] in Hk.
    destruct j as [|j]; cbn [schedule nth_error] in Hj.
    + injection Hj as <- <-.
      destruct (batchItems_settled W this session batch m p Hp) as (t & r & -> & _).
      exists t, r. split; [reflexivity|].
      apply schedule_not_before in Hk.
      destruct (runBatch_run W this session batch m) as (rs & m1 & E1 & _ & C1 & _).
      rewrite E1 in Hk. cbn [snd] in Hk. rewrite C1 in Hk.
      pose proof (latest_ge_item (clock m) _ t r Hp). lia.
    + eapply IH; [|exact Hj|exact Hk|exact Hp]. lia.
Qed.

(** ** Separating successes from failures *)

Lemma nth_skipn {A} (xs : list A) : forall index,
  (index < List.length xs)%nat ->
  exists x, nth_error xs index = Some x /\ skipn index xs = x :: skipn (S index) xs.
Proof.
  induction xs as [|x xs IH]; intros index H; [cbn in H; lia|].
  destruct index as [|index]; [exists x; now split|].
  cbn [List.length] in H. destruct (IH index) as (y & E & Hs); [lia|].
  exists y. split; [exact E|exact Hs].
Qed.

Lemma separate_run : forall results index successful failed m,
  (index + List.length results <= List.length (accounts session))%nat ->
  separate session results index successful failed m
  = (Returned ((successful ++ successes results)%list,
               (failed ++ map Some (failedIds (skipn index (accounts session)) results))%list),
     {| clock := clock m;
        console := (console m ++ failureLines (skipn index (accounts session)) results)%list;
        draws := draws m |}).
Proof.
  induction results as [|[v|reason] results IH]; intros index successful failed m H.
  - cbn. destruct (skipn index (accounts session)); cbn; rewrite !app_nil_r; now destruct m.
  - cbn [List.length] in H.
    destruct (nth_skipn (accounts session) index) as (a & Ea & Es); [lia|].
    cbn [separate]. rewrite IH by lia. rewrite Es. cbn [successes failedIds failureLines].
    now rewrite <- app_assoc.
  - cbn [List.length] in H.
    destruct (nth_skipn (accounts session) index) as (a & Ea & Es); [lia|].
    cbn [separate]. rewrite Ea. cbv [bind console_error write]. rewrite IH by lia.
    rewrite Es. cbn [successes failedIds failureLines map clock console draws inTemplate].
    now rewrite <- !app_assoc.
Qed.

Lemma successes_length {A} (results : list (PromiseSettledResult A)) :
  (List.length (successes results) + failures results = List.length results)%nat.
Proof. induction results as [|[|] ? IH]; cbn; lia. Qed.

Lemma failedIds_length {A} ids : forall (results : list (PromiseSettledResult A)),
  List.length ids = List.length results ->
  List.length (failedIds ids results) = failures results.
Proof.
  induction ids as [|i ids IH]; intros [|[|] results] H; try discriminate H; cbn; auto.
Qed.

End Loop.

(** ** Batching *)

Section Batching.

Lemma slice_skipn {A} (xs : list A) i k : slice xs i (i + k) = firstn k (skipn i xs).
Proof. unfold slice. f_equal. lia. Qed.

Lemma skipn_skipn {A} (xs : list A) : forall i k, skipn k (skipn i xs) = skipn (i + k) xs.
Proof.
  induction xs as [|x xs IH]; intros i k.
  - now rewrite !skipn_nil.
  - destruct i as [|i]; [reflexivity|]. cbn. apply IH.
Qed.

Lemma batchLoop_chunks accounts_ : forall fuel i acc,
  batchLoop fuel accounts_ i acc
  = (acc ++ chunks fuel MAX_CONCURRENT (skipn i accounts_))%list.
Proof.
  induction fuel as [|fuel IH]; intros i acc; cbn [batchLoop chunks].
  - now rewrite app_nil_r.
  - destruct (Nat.ltb_spec i (List.length accounts_)) as [H|H].
    + rewrite IH, <- app_assoc, slice_skipn, skipn_skipn. cbn [app].
      destruct (skipn i accounts_) eqn:E; [|reflexivity].
      apply (f_equal (@List.length string)) in E. rewrite length_skipn in E. cbn in E. lia.
    + rewrite skipn_all2 by lia. now rewrite app_nil_r.
Qed.

Lemma makeBatches_chunks accounts_ :
  makeBatches accounts_ = chunks (List.length accounts_) MAX_CONCURRENT accounts_.
Proof. unfold makeBatches. now rewrite batchLoop_chunks. Qed.

Lemma concat_chunks {A} size : forall fuel (xs : list A),
  (0 < size)%nat -> (List.length xs <= fuel)%nat ->
  List.concat (chunks fuel size xs) = xs.
Proof.
  induction fuel as [|fuel IH]; intros xs Hs Hf.
  - destruct xs; [reflexivity|cbn in Hf; lia].
  - destruct xs as [|x xs]; [reflexivity|].
    cbn [chunks List.concat]. rewrite IH; [apply firstn_skipn|exact Hs|].
    rewrite length_skipn. cbn [List.length] in *. lia.
Qed.

Lemma wellSized_chunks {A} size : forall fuel (xs : list A),
  (0 < size)%nat -> (List.length xs <= fuel)%nat ->
  wellSized size (chunks fuel size xs).
Proof.
  induction fuel as [|fuel IH]; intros xs Hs Hf; [exact I|].
  destruct xs as [|x xs]; [exact I|].
  assert (Hrest : (List.length (skipn size (x :: xs)) <= fuel)%nat).
  { rewrite length_skipn. cbn [List.length] in *. lia. }
  specialize (IH (skipn size (x :: xs)) Hs Hrest).
  cbn [chunks]. 
  destruct (chunks fuel size (skipn size (x :: xs))) as [|g rest] eqn:E.
  - cbn [wellSized]. rewrite length_firstn. cbn [List.length]. lia.
  - cbn [wellSized]. split; [|exact IH].
    rewrite length_firstn. apply Nat.min_l.
    destruct (Nat.le_gt_cases size (List.length (x :: xs))) as [H|H]; [exact H|].
    rewrite skipn_all2 in E by lia. destruct fuel; discriminate E.
Qed.

Lemma wellSized_bounds {A} size (groups : list (list A)) :
  wellSized size groups ->
  forall g, In g groups -> (1 <= List.length g <= size)%nat.
Proof.
  induction groups as [|g0 rest IH]; intros H g Hg; [destruct Hg|].
  destruct rest as [|g1 rest].
  - destruct Hg as [<-|[]]. exact H.
  - destruct H as [H0 H1]. destruct Hg as [<-|Hg]; [|now apply IH].
    pose proof (IH H1 g1 (or_introl eq_refl)). lia.
Qed.

End Batching.

(** ** The whole of [getAccounts] *)

Section GetAccounts.

Variable W : World.
Variable this : EnableBankingApi.

Lemma allResults_length session m allResults m' :
  forBatches W this session (makeBatches (accounts session)) [] m = (Returned allResults, m') ->
  List.length allResults = List.length (accounts session)
  /\ Forall2 (outcomeOf W this session) (accounts session) allResults.
Proof.
  intros E.
  destruct (forBatches_run W this session (makeBatches (accounts session)) [] m)
    as (rs & m2 & E2 & _ & F & _).
  rewrite E2 in E. cbn [app] in E. injection E as <- <-.
  rewrite makeBatches_chunks, concat_chunks in F by (unfold MAX_CONCURRENT; lia).
  split; [|exact F]. symmetry. eapply Forall2_length. exact F.
Qed.

Lemma getAccounts_run id m session m1 allResults m2 :
  getSession W this id (logged m [gettingLine id]) = (Returned session, m1) ->
  forBatches W this session (makeBatches (accounts session)) [] (logged m1 [foundLine session])
  = (Returned allResults, m2) ->
  let m3 :=
    logged m2
      (failureLines (accounts session) allResults
       ++ [processedLine (List.length (successes allResults))
             (List.length (accounts session)) (clock m2 - clock m)]
       ++ warningLines (failedIds (accounts session) allResults)) in
  getAccounts W this id m
  = match successes allResults with
    | [] => (Thrown (allFailed id), logged m3 [rethrownLine id (allFailed id)])
    | _ => (Returned (successes allResults), m3)
    end.
Proof.
  intros H1 H2 m3.
  destruct (allResults_length _ _ _ _ H2) as [L _].
  pose proof (separate_run session allResults 0%nat [] [] m2) as Hs.
  rewrite L in Hs. specialize (Hs (Nat.le_refl _)). cbn [skipn app] in Hs.
  unfold getAccounts, try_catch.
  unfold bind at 1. cbv [console_log write]. 
  unfold bind at 1. cbv [Date_now].
  unfold bind at 1. cbv [logged gettingLine line] in H1. rewrite H1.
  unfold bind at 1. cbv [console_log write].
  unfold bind at 1. cbv [logged foundLine line] in H2. rewrite H2.
  unfold bind at 1. rewrite Hs.
  cbv [bind Date_now console_log console_warn console_error write ret throw].
  cbn [clock console draws].
  subst m3. cbv [logged processedLine warningLines line rethrownLine].
  cbn [clock console draws].
  destruct (failedIds (accounts session) allResults) as [|f fs] eqn:Ef;
    destruct (successes allResults) as [|v vs] eqn:Es;
    cbn [map List.length Nat.ltb Nat.leb Nat.eqb clock console draws app];
    rewrite <- ?app_assoc; cbn [app]; reflexivity.
Qed.

End GetAccounts.

(** ** The highest balance *)

Section Balance.

Lemma reduce_higher : forall xs m,
  exists r,
    reduce higher xs (Some m) = inr (Some r)
    /\ (r = m \/ In r xs)
    /\ (forall e, gt (amountOf e) (amountOf m) = false -> gt (amountOf e) (amountOf r) = false)
    /\ (forall e, In e xs -> gt (amountOf e) (amountOf r) = false).
Proof.
  induction xs as [|c xs IH]; intros m.
  - exists m. cbn. repeat split; auto. intros e [].
  - cbn [reduce higher]. fold (amountOf c). fold (amountOf m).
    destruct (gt (amountOf c) (amountOf m)) eqn:G.
    + destruct (IH c) as (r & E & Hin & Hmono & Hall).
      exists r. split; [exact E|]. split; [|split].
      * destruct Hin as [->|Hin]; right; [now left|now right].
      * intros e He. apply Hmono. eapply NumberFacts.not_gt_step; eassumption.
      * intros e [<-|He]; [|now apply Hall].
        apply Hmono, NumberFacts.gt_irrefl.
    + destruct (IH m) as (r & E & Hin & Hmono & Hall).
      exists r. split; [exact E|]. split; [|split].
      * destruct Hin as [->|Hin]; [now left|right; now right].
      * exact Hmono.
      * intros e [<-|He]; [|now apply Hall]. now apply Hmono.
Qed.

Lemma highestBalance_nonempty response :
  balances response <> [] ->
  exists r,
    highestBalance response = inr (Some r)
    /\ In r (balances response)
    /\ forall e, In e (balances response) -> gt (amountOf e) (amountOf r) = false.
Proof.
  unfold highestBalance. destruct (balances response) as [|b0 rest]; [congruence|].
  intros _. cbn [nth_error].
  destruct (reduce_higher (b0 :: rest) b0) as (r & E & Hin & _ & Hall).
  exists r. split; [exact E|]. split; [|exact Hall].
  destruct Hin as [->|Hin]; [now left|exact Hin].
Qed.

Lemma highestBalance_empty response :
  balances response = [] -> highestBalance response = inr None.
Proof. unfold highestBalance. now intros ->. Qed.

End Balance.

(** ** The signed token and the outbound request *)

Section Token.

Variable W : World.
Variable this : EnableBankingApi.

Lemma getJWTHeader_eq : getJWTHeader this = Base64Url.encode (JSON_stringify (headerOf this)).
Proof. reflexivity. Qed.

Lemma generateJWT_run m :
  generateJWT W this m
  = match sign_RS256 W (keyContent this) (signingInput this (clock m)) with
    | inr signature =>
        (Returned (signingInput this (clock m) ++ "." ++ Base64Url.encode signature), m)
    | inl e =>
        (Thrown e,
         logged m [{| level := ERROR; text := "Error in JWT signing:"; attached := Some e |}])
    end.
Proof.
  unfold generateJWT, getJWTBody, signWithKey.
  cbv [bind Date_now ret try_catch lift].
  change (expiresIn * 60 * 60) with 72000.
  change (encodeData
            [("iss", JSONString "enablebanking.com");
             ("aud", JSONString "api.enablebanking.com");
             ("iat", JSONNumber (clock m / 1000));
             ("exp", JSONNumber (clock m / 1000 + 72000))])
    with (Base64Url.encode (JSON_stringify (claimsAt (clock m)))).
  rewrite getJWTHeader_eq.
  change (Base64Url.encode (JSON_stringify (headerOf this)) ++ "."
          ++ Base64Url.encode (JSON_stringify (claimsAt (clock m))))
    with (signingInput this (clock m)).
  destruct (sign_RS256 W (keyContent this) (signingInput this (clock m))) as [e|signature].
  - reflexivity.
  - cbv [ret throw console_error write bind]. unfold signingInput.
    now rewrite !append_assoc.
Qed.

Lemma xior_request_answered {T} (api : XiorInstance) now (reply : Reply T) :
  timeout api = 30000 -> xior_request api now reply = answered now reply.
Proof.
  intros E. unfold xior_request, answered. rewrite E. cbn [N.eqb Pos.eqb].
  destruct reply as [|d x]; cbn [issued Promise_race]; [reflexivity|].
  destruct (N.ltb_spec (now + d) (now + 30000)), (N.ltb_spec d 30000);
    (reflexivity || lia).
Qed.

Lemma get_run {T} (endpoint : World -> Request -> Reply T) path_ params_ m :
  get W this endpoint path_ params_ m
  = match sign_RS256 W (keyContent this) (signingInput this (clock m)) with
    | inr signature =>
        let jwt := signingInput this (clock m) ++ "." ++ Base64Url.encode signature in
        await (answered (clock m) (endpoint W (requestOf W m jwt path_ params_))) (drawn m 4)
    | inl e =>
        (Thrown e,
         logged m [{| level := ERROR; text := "Error in JWT signing:"; attached := Some e |}])
    end.
Proof.
  unfold get, getApi. unfold bind at 1. unfold bind at 1.
  rewrite generateJWT_run.
  destruct (sign_RS256 W (keyContent this) (signingInput this (clock m))) as [e|signature].
  - reflexivity.
  - cbv [bind ret random256 Date_now]. cbn [clock console draws].
    rewrite xior_request_answered by reflexivity.
    unfold requestOf, drawn.
    replace (draws m + 1 + 1 + 1 + 1) with (draws m + 4) by lia.
    reflexivity.
Qed.

End Token.

(** ** What one account's work depends on *)

Section Independence.

Variable this : EnableBankingApi.

Lemma same_machine (m m' : Machine) :
  clock m = clock m' -> console m = console m' -> draws m = draws m' -> m = m'.
Proof. destruct m, m'. cbn. now intros -> -> ->. Qed.

Lemma get_machine W {T} (endpoint : World -> Request -> Reply T) path_ params_ m :
  console (snd (get W this endpoint path_ params_ m)) = console (afterCall W this m)
  /\ draws (snd (get W this endpoint path_ params_ m)) = draws (afterCall W this m).
Proof.
  rewrite get_run. unfold afterCall.
  destruct (sign_RS256 W (keyContent this) (signingInput this (clock m))) as [e|sg];
    [now split|].
  cbv zeta. unfold await.
  match goal with |- context [answered ?t ?r] => destruct (answered t r) as [|d [v|e]] end;
    now split.
Qed.

Lemma afterCall_clock W m : clock (afterCall W this m) = clock m.
Proof. unfold afterCall. now destruct sign_RS256. Qed.

Lemma start_details_machine W accountId_ m :
  snd (start (getAccountDetails W this accountId_) m) = afterCall W this m.
Proof.
  unfold start, getAccountDetails. cbn [snd].
  destruct (get_machine W GET_details ("/accounts/" ++ accountId_ ++ "/details") None m)
    as [Hc Hd].
  apply same_machine; cbn [clock console draws]; auto using eq_sym, afterCall_clock.
Qed.

Lemma start_balance_machine W accountId_ m :
  snd (start (getAccountBalance W this accountId_) m) = afterCall W this m.
Proof.
  unfold start. cbn [snd].
  destruct (get_machine W GET_balances ("/accounts/" ++ accountId_ ++ "/balances") None m)
    as [Hc Hd].
  assert (E : snd (getAccountBalance W this accountId_ m)
              = snd (get W this GET_balances ("/accounts/" ++ accountId_ ++ "/balances") None m)).
  { unfold getAccountBalance, bind.
    destruct (get W this GET_balances ("/accounts/" ++ accountId_ ++ "/balances") None m)
      as [[response|e|] m1]; [|reflexivity..].
    cbn [snd]. now destruct (highestBalance response). }
  rewrite E.
  apply same_machine; cbn [clock console draws]; auto using eq_sym, afterCall_clock.
Qed.

Lemma start_eq {A} (body : Async A) m :
  start body m = (Returned (settlement body m), snd (start body m)).
Proof. reflexivity. Qed.

Lemma accountPromise_run W session batch accountId_ index m :
  let m0 := logged m [processingLine batch accountId_ index] in
  let m1 := afterCall W this m0 in
  let m2 := afterCall W this m1 in
  accountPromise W this session batch accountId_ index m
  = match await (Promise_all2 (settlement (getAccountDetails W this accountId_) m0)
                              (settlement (getAccountBalance W this accountId_) m1)) m2 with
    | (Returned (details, balance_), m3) =>
        (Returned {| provided := provided details;
                     institution := Some (aspsp session);
                     valid_until := Some (access_valid_until (access session));
                     balance := balance_ |}, m3)
    | (Thrown e, m3) => (Thrown e, m3)
    | (Suspended, m3) => (Suspended, m3)
    end.
Proof.
  cbv zeta. unfold accountPromise.
  unfold bind at 1. cbv [console_log write].
  change {| clock := clock m;
            console := (console m ++ [{| level := LOG;
                                         text := "[EnableBanking] Processing account "
                                                 ++ show (N.of_nat (index + 1)) ++ "/"
                                                 ++ show (N.of_nat (List.length batch))
                                                 ++ ": " ++ accountId_;
                                         attached := None |}])%list;
            draws := draws m |}
    with (logged m [processingLine batch accountId_ index]).
  unfold bind at 1. rewrite start_eq, start_details_machine.
  unfold bind at 1. rewrite start_eq, start_balance_machine.
  unfold bind at 1.
  destruct (await _ _) as [[[d b]|e|] m3]; reflexivity.
Qed.

Lemma accountPromise_machine W session batch accountId_ index m :
  let m2 := afterCall W this (afterCall W this (logged m [processingLine batch accountId_ index])) in
  console (snd (accountPromise W this session batch accountId_ index m)) = console m2
  /\ draws (snd (accountPromise W this session batch accountId_ index m)) = draws m2.
Proof.
  cbv zeta. rewrite accountPromise_run. cbv zeta. unfold await.
  destruct (Promise_all2 _ _) as [|t [[d b]|e]]; now split.
Qed.

Lemma processAccount_machine W session batch accountId_ index m :
  snd (processAccount W this session batch accountId_ index m)
  = afterCall W this (afterCall W this (logged m [processingLine batch accountId_ index])).
Proof.
  destruct (accountPromise_machine W session batch accountId_ index m) as [Hc Hd].
  cbv [processAccount bind rejectAfter start ret]. cbn [snd].
  apply same_machine; cbn [clock console draws]; auto.
  now rewrite !afterCall_clock.
Qed.

(** An account is a success exactly when both of its calls are fulfilled and
    the later of the two comes before the timer is due; the record is then
    built from the two answers. *)
Lemma item_fulfilled_iff W session batch accountId_ index m v :
  let m0 := logged m [processingLine batch accountId_ index] in
  let detailsCall := settlement (getAccountDetails W this accountId_) m0 in
  let balanceCall := settlement (getAccountBalance W this accountId_) (afterCall W this m0) in
  itemOutcome (clock m) accountId_
    (settlement (accountPromise W this session batch accountId_ index) m) = fulfilled v
  <-> exists td details tb balance_,
        detailsCall = settled td (fulfilled details)
        /\ balanceCall = settled tb (fulfilled balance_)
        /\ N.max (clock m) (N.max td tb) < clock m + ACCOUNT_TIMEOUT
        /\ v = {| provided := provided details;
                  institution := Some (aspsp session);
                  valid_until := Some (access_valid_until (access session));
                  balance := balance_ |}.
Proof.
  cbv zeta. unfold settlement at 1. rewrite accountPromise_run. cbv zeta.
  set (d := settlement (getAccountDetails W this accountId_) _).
  set (b := settlement (getAccountBalance W this accountId_) _).
  assert (Hc : clock (afterCall W this
                        (afterCall W this (logged m [processingLine batch accountId_ index])))
               = clock m) by now rewrite !afterCall_clock.
  unfold await.
  destruct d as [|td [details|ed]], b as [|tb [bal|eb]]; cbn [Promise_all2];
    try (destruct (td <=? tb));
    cbn [clock itemOutcome]; rewrite ?Hc;
    (split;
     [intros H
     |intros (td0 & details0 & tb0 & bal0 & H1 & H2 & H3 & ->);
      try discriminate H1; try discriminate H2]);
    try discriminate H;
    try (destruct (_ <? _) in H; discriminate H).
  all: first
    [ destruct (N.ltb_spec (N.max (clock m) (N.max td tb)) (clock m + ACCOUNT_TIMEOUT))
        as [Ht|Ht]; [|discriminate H];
      injection H as <-; now exists td, details, tb, bal
    | injection H1 as <- <-; injection H2 as <- <-;
      now rewrite (proj2 (N.ltb_lt _ _) H3) ].
Qed.

Section TwoWorlds.

Variables W W' : World.
Hypothesis same_sign : forall key data, sign_RS256 W key data = sign_RS256 W' key data.
Hypothesis same_draws : forall k, random_octet W k = random_octet W' k.

Lemma afterCall_same m : afterCall W this m = afterCall W' this m.
Proof. unfold afterCall. now rewrite same_sign. Qed.

Lemma get_same {T} (endpoint : World -> Request -> Reply T) path_ params_ m :
  (forall r, path r = path_ -> endpoint W r = endpoint W' r) ->
  get W this endpoint path_ params_ m = get W' this endpoint path_ params_ m.
Proof.
  intros H. rewrite !get_run, same_sign.
  destruct (sign_RS256 W' (keyContent this) (signingInput this (clock m))) as [e|sg];
    [reflexivity|].
  cbv zeta.
  assert (R : requestOf W m (signingInput this (clock m) ++ "." ++ Base64Url.encode sg)
                path_ params_
              = requestOf W' m (signingInput this (clock m) ++ "." ++ Base64Url.encode sg)
                  path_ params_)
    by (unfold requestOf; now rewrite !same_draws).
  rewrite <- R. now rewrite H.
Qed.

Lemma processAccount_machine_same session batch accountId_ index m :
  snd (processAccount W this session batch accountId_ index m)
  = snd (processAccount W' this session batch accountId_ index m).
Proof. rewrite !processAccount_machine. now rewrite !afterCall_same. Qed.

Lemma startedIn_same session batch : forall k ids index m,
  startedIn W this session batch ids index m k
  = startedIn W' this session batch ids index m k.
Proof.
  unfold startedIn.
  induction k as [|k IH]; intros ids index m; [reflexivity|].
  destruct ids as [|i ids]; [reflexivity|].
  cbn [firstn mapIndexed].
  destruct (processAccount_run W this session batch i index m) as (m1 & E1 & _).
  destruct (processAccount_run W' this session batch i index m) as (m1' & E1' & _).
  pose proof (processAccount_machine_same session batch i index m) as Hm.
  rewrite E1, E1' in Hm. cbn [snd] in Hm. subst m1'.
  destruct (mapIndexed_prefix W this session batch (firstn k ids) (S index) m1) as (ys & my & Ey).
  destruct (mapIndexed_prefix W' this session batch (firstn k ids) (S index) m1) as (ys' & my' & Ey').
  specialize (IH ids (S index) m1). rewrite Ey, Ey' in IH. cbn [snd] in IH.
  unfold bind. rewrite E1, E1', Ey, Ey'. exact IH.
Qed.

Lemma accountPromise_same session batch accountId_ index m :
  (forall r, path r = "/accounts/" ++ accountId_ ++ "/details" ->
             GET_details W r = GET_details W' r) ->
  (forall r, path r = "/accounts/" ++ accountId_ ++ "/balances" ->
             GET_balances W r = GET_balances W' r) ->
  accountPromise W this session batch accountId_ index m
  = accountPromise W' this session batch accountId_ index m.
Proof.
  intros Hd Hb. rewrite !accountPromise_run. cbv zeta.
  rewrite !afterCall_same.
  assert (Ed : forall m0, getAccountDetails W this accountId_ m0
                          = getAccountDetails W' this accountId_ m0).
  { intros m0. unfold getAccountDetails. now apply get_same. }
  assert (Eb : forall m0, getAccountBalance W this accountId_ m0
                          = getAccountBalance W' this accountId_ m0).
  { intros m0. unfold getAccountBalance, bind. now rewrite get_same. }
  unfold settlement. now rewrite Ed, Eb.
Qed.

End TwoWorlds.

End Independence.

End AdapterFacts.

(* ===================================================================== *)
(** * 9. The multi-account fetch                                          *)
(* ===================================================================== *)

Module AccountsFetch.

Import EnableBanking Vocabulary Examples AdapterFacts.

Lemma forBatches_total W this session m :
  exists allResults m',
    forBatches W this session (makeBatches (accounts session)) [] m = (Returned allResults, m').
Proof.
  destruct (forBatches_run W this session (makeBatches (accounts session)) [] m)
    as (rs & m' & E & _).
  now exists rs, m'.
Qed.

Lemma failureLines_length {A} ids : forall (results : list (PromiseSettledResult A)),
  List.length ids = List.length results ->
  List.length (failureLines ids results) = failures results.
Proof.
  induction ids as [|i ids IH]; intros [|[|] results] H; try discriminate H; cbn; auto.
Qed.

(** C1.  Once the session is retrieved, let [allResults] be the settled
    outcomes of its [N] accounts, each the outcome of the detail-and-balance
    fetch of the account at its position.  When fewer than [N] of them are
    failures, [getAccounts] does not throw: it returns exactly the [N - |S|]
    successful records, and the console carries one error line per failed
    account and the warning that lists the [|S|] failed ids. *)
Theorem partial_failure_returns_successes W this id m session m1 allResults m2 :
  getSession W this id (logged m [gettingLine id]) = (Returned session, m1) ->
  forBatches W this session (makeBatches (accounts session)) []
    (logged m1 [foundLine session]) = (Returned allResults, m2) ->
  (failures allResults < List.length (accounts session))%nat ->
  exists m3,
    getAccounts W this id m = (Returned (successes allResults), m3)
    /\ Forall2 (outcomeOf W this session) (accounts session) allResults
    /\ List.length (successes allResults)
       = (List.length (accounts session) - failures allResults)%nat
    /\ List.length (failedIds (accounts session) allResults) = failures allResults
    /\ List.length (failureLines (accounts session) allResults) = failures allResults
    /\ (forall entry,
          In entry (failureLines (accounts session) allResults
                    ++ warningLines (failedIds (accounts session) allResults)) ->
          In entry (console m3)).
Proof.
  intros H1 H2 Hlt.
  destruct (allResults_length W this session _ _ _ H2) as [L F].
  pose proof (successes_length allResults) as Hlen.
  pose proof (getAccounts_run W this id m session m1 allResults m2 H1 H2) as Hrun.
  cbv zeta in Hrun.
  destruct (successes allResults) as [|v vs] eqn:Es; [cbn in Hlen; lia|].
  eexists. split; [exact Hrun|]. split; [exact F|]. split; [|split; [|split]].
  - lia.
  - now apply failedIds_length.
  - now apply failureLines_length.
  - intros entry Hin. cbn [logged console]. apply in_or_app. right.
    apply in_app_or in Hin as [Hin|Hin]; apply in_or_app; [now left|].
    right. apply in_or_app. now right.
Qed.

(** C2, as the code has it.  Once the session is retrieved and its
    accounts have settled to [allResults], [getAccounts] fails with the
    aggregate error, whose message names the session, if and only if no
    outcome is a success -- which is also the case of a session without
    accounts; in every other case it returns the successes. *)
Theorem fails_iff_no_success W this id m session m1 allResults m2 :
  getSession W this id (logged m [gettingLine id]) = (Returned session, m1) ->
  forBatches W this session (makeBatches (accounts session)) []
    (logged m1 [foundLine session]) = (Returned allResults, m2) ->
  (fst (getAccounts W this id m) = Thrown (allFailed id) <-> successes allResults = [])
  /\ (successes allResults <> [] ->
      fst (getAccounts W this id m) = Returned (successes allResults))
  /\ (accounts session = [] -> successes allResults = [])
  /\ error_message (allFailed id) = "All accounts failed to process for session " ++ id.
Proof.
  intros H1 H2.
  destruct (allResults_length W this session _ _ _ H2) as [L _].
  pose proof (getAccounts_run W this id m session m1 allResults m2 H1 H2) as Hrun.
  cbv zeta in Hrun. rewrite Hrun.
  split; [|split; [|split]].
  - destruct (successes allResults); cbn [fst]; split; congruence.
  - destruct (successes allResults); cbn [fst]; congruence.
  - intros E. rewrite E in L. destruct allResults; [reflexivity|discriminate L].
  - reflexivity.
Qed.

Lemma partial_failure_witness :
  let session := sessionOf ["a"; "b"; "c"] in
  let m1 := snd (getSession bank api "S1" (logged boot [gettingLine "S1"])) in
  let m2 := snd (forBatches bank api session (makeBatches (accounts session)) []
                   (logged m1 [foundLine session])) in
  let allResults :=
    [fulfilled (accountOf "a"); rejected (timeoutError "b"); fulfilled (accountOf "c")] in
  getSession bank api "S1" (logged boot [gettingLine "S1"]) = (Returned session, m1)
  /\ forBatches bank api session (makeBatches (accounts session)) []
       (logged m1 [foundLine session]) = (Returned allResults, m2)
  /\ (failures allResults < List.length (accounts session))%nat
  /\ exists m3,
       getAccounts bank api "S1" boot = (Returned (successes allResults), m3)
       /\ Forall2 (outcomeOf bank api session) (accounts session) allResults
       /\ List.length (successes allResults)
          = (List.length (accounts session) - failures allResults)%nat
       /\ List.length (failedIds (accounts session) allResults) = failures allResults
       /\ List.length (failureLines (accounts session) allResults) = failures allResults
       /\ (forall entry,
             In entry (failureLines (accounts session) allResults
                       ++ warningLines (failedIds (accounts session) allResults)) ->
             In entry (console m3)).
Proof.
  cbv zeta.
  assert (H1 : getSession bank api "S1" (logged boot [gettingLine "S1"])
               = (Returned (sessionOf ["a"; "b"; "c"]),
                  snd (getSession bank api "S1" (logged boot [gettingLine "S1"]))))
    by (vm_compute; reflexivity).
  assert (H2 : forBatches bank api (sessionOf ["a"; "b"; "c"])
                 (makeBatches (accounts (sessionOf ["a"; "b"; "c"]))) []
                 (logged (snd (getSession bank api "S1" (logged boot [gettingLine "S1"])))
                    [foundLine (sessionOf ["a"; "b"; "c"])])
               = (Returned [fulfilled (accountOf "a"); rejected (timeoutError "b");
                            fulfilled (accountOf "c")],
                  snd (forBatches bank api (sessionOf ["a"; "b"; "c"])
                         (makeBatches (accounts (sessionOf ["a"; "b"; "c"]))) []
                         (logged (snd (getSession bank api "S1"
                                         (logged boot [gettingLine "S1"])))
                            [foundLine (sessionOf ["a"; "b"; "c"])]))))
    by (vm_compute; reflexivity).
  assert (H3 : (failures [fulfilled (accountOf "a"); rejected (timeoutError "b");
                          fulfilled (accountOf "c")]
                < List.length (accounts (sessionOf ["a"; "b"; "c"])))%nat)
    by (cbn; lia).
  split; [exact H1|]. split; [exact H2|]. split; [exact H3|].
  exact (partial_failure_returns_successes bank api "S1" boot _ _ _ _ H1 H2 H3).
Defined.

Lemma fails_iff_no_success_witness :
  let session := sessionOf ["x"; "y"] in
  let m1 := snd (getSession bank api "DOWN" (logged boot [gettingLine "DOWN"])) in
  let m2 := snd (forBatches bank api session (makeBatches (accounts session)) []
                   (logged m1 [foundLine session])) in
  let allResults : list (PromiseSettledResult GetAccountDetailsResponse) :=
    [rejected outage; rejected outage] in
  getSession bank api "DOWN" (logged boot [gettingLine "DOWN"]) = (Returned session, m1)
  /\ forBatches bank api session (makeBatches (accounts session)) []
       (logged m1 [foundLine session]) = (Returned allResults, m2)
  /\ (fst (getAccounts bank api "DOWN" boot) = Thrown (allFailed "DOWN")
      <-> successes allResults = [])
  /\ (successes allResults <> [] ->
      fst (getAccounts bank api "DOWN" boot) = Returned (successes allResults))
  /\ (accounts session = [] -> successes allResults = [])
  /\ error_message (allFailed "DOWN") = "All accounts failed to process for session " ++ "DOWN".
Proof.
  cbv zeta.
  assert (H1 : getSession bank api "DOWN" (logged boot [gettingLine "DOWN"])
               = (Returned (sessionOf ["x"; "y"]),
                  snd (getSession bank api "DOWN" (logged boot [gettingLine "DOWN"]))))
    by (vm_compute; reflexivity).
  assert (H2 : forBatches bank api (sessionOf ["x"; "y"])
                 (makeBatches (accounts (sessionOf ["x"; "y"]))) []
                 (logged (snd (getSession bank api "DOWN" (logged boot [gettingLine "DOWN"])))
                    [foundLine (sessionOf ["x"; "y"])])
               = (Returned [rejected outage; rejected outage],
                  snd (forBatches bank api (sessionOf ["x"; "y"])
                         (makeBatches (accounts (sessionOf ["x"; "y"]))) []
                         (logged (snd (getSession bank api "DOWN"
                                         (logged boot [gettingLine "DOWN"])))
                            [foundLine (sessionOf ["x"; "y"])]))))
    by (vm_compute; reflexivity).
  split; [exact H1|]. split; [exact H2|].
  exact (fails_iff_no_success bank api "DOWN" boot _ _ _ _ H1 H2).
Defined.

(** A session without accounts: nothing failed, and yet the aggregate error
    is thrown instead of the empty collection being returned. *)
Lemma no_accounts_still_fails :
  let session := sessionOf [] in
  let m1 := snd (getSession bank api "EMPTY" (logged boot [gettingLine "EMPTY"])) in
  let allResults : list (PromiseSettledResult GetAccountDetailsResponse) := [] in
  getSession bank api "EMPTY" (logged boot [gettingLine "EMPTY"]) = (Returned session, m1)
  /\ forBatches bank api session (makeBatches (accounts session)) []
       (logged m1 [foundLine session])
     = (Returned allResults, logged m1 [foundLine session])
  /\ ~ (fst (getAccounts bank api "EMPTY" boot) = Thrown (allFailed "EMPTY")
        <-> (successes allResults = [] /\ (0 < List.length (accounts session))%nat))
  /\ fst (getAccounts bank api "EMPTY" boot) <> Returned (successes allResults).
Proof.
  cbv zeta. split; [vm_compute; reflexivity|]. split; [vm_compute; reflexivity|].
  assert (E : fst (getAccounts bank api "EMPTY" boot) = Thrown (allFailed "EMPTY"))
    by (vm_compute; reflexivity).
  split.
  - intros [H _]. destruct (H E) as [_ Hpos]. cbn in Hpos. lia.
  - rewrite E. discriminate.
Qed.

(** C9.  The settled outcomes stand in the order of the session's account
    list: there are as many as accounts, the [i]-th is the outcome of the
    call made for the [i]-th id, and the ids reported as failed are the ids
    at the positions of the rejected outcomes -- each one the id of an
    account whose own outcome was a rejection. *)
Theorem outcomes_follow_account_order W this session m :
  exists allResults m',
    forBatches W this session (makeBatches (accounts session)) [] m = (Returned allResults, m')
    /\ List.length allResults = List.length (accounts session)
    /\ Forall2 (outcomeOf W this session) (accounts session) allResults
    /\ fst (separate session allResults 0%nat [] [] m')
       = Returned (successes allResults, map Some (failedIds (accounts session) allResults))
    /\ (forall i accountId_ reason,
          nth_error (accounts session) i = Some accountId_ ->
          nth_error allResults i = Some (rejected reason) ->
          In accountId_ (failedIds (accounts session) allResults))
    /\ (forall accountId_,
          In accountId_ (failedIds (accounts session) allResults) ->
          exists i reason,
            nth_error (accounts session) i = Some accountId_
            /\ nth_error allResults i = Some (rejected reason)).
Proof.
  destruct (forBatches_total W this session m) as (allResults & m' & H).
  exists allResults, m'. split; [exact H|].
  destruct (allResults_length W this session _ _ _ H) as [L F].
  split; [exact L|]. split; [exact F|]. split; [|split].
  - rewrite separate_run by (rewrite L; apply Nat.le_refl). reflexivity.
  - clear H F L. generalize (accounts session) as ids. intros ids. revert allResults.
    induction ids as [|a ids IH]; intros [|r rs] i x reason Hi Hr;
      try (destruct i; discriminate).
    destruct i as [|i]; cbn in Hi, Hr.
    + injection Hi as ->. injection Hr as ->. now left.
    + destruct r; cbn [failedIds]; [|right]; eapply IH; eassumption.
  - clear H F L. generalize (accounts session) as ids. intros ids. revert allResults.
    induction ids as [|a ids IH]; intros [|r rs] x Hx; try (now destruct Hx).
    destruct r as [v|reason]; cbn [failedIds] in Hx.
    + destruct (IH rs x Hx) as (i & reason & Hi & Hr). now exists (S i), reason.
    + destruct Hx as [->|Hx]; [now exists 0%nat, reason|].
      destruct (IH rs x Hx) as (i & reason' & Hi & Hr). now exists (S i), reason'.
Qed.

(** C4.  In a batch dispatched at the instant [clock m], every account
    settles to the outcome of its own work raced against its own 8-second
    timer, which is set before the work is started.  The work of the [k]-th
    account is started at that same instant; if it is not done when the
    timer is due, 8000 ms later, the account is a failure whose reason names
    that account, and if it is done before then the account settles to the
    result of that work.  What the bank does for the other accounts
    has no part in it: in a world that differs only in the answers to other
    accounts' requests, the account settles to the same outcome. *)
Theorem slow_item_fails_alone W this session batch m :
  exists results m',
    runBatch W this session batch m = (Returned results, m')
    /\ List.length results = List.length batch
    /\ ACCOUNT_TIMEOUT = 8000
    /\ (forall k accountId_,
          nth_error batch k = Some accountId_ ->
          let mk := startedIn W this session batch batch 0%nat m k in
          let work := settlement (accountPromise W this session batch accountId_ k) mk in
          clock mk = clock m
          /\ nth_error results k = Some (itemOutcome (clock m) accountId_ work)
          /\ (late (clock m) work ->
              nth_error results k
              = Some (rejected (new_Error ("Timeout processing account " ++ accountId_))))
          /\ (forall t r,
                work = settled t r -> t < clock m + ACCOUNT_TIMEOUT ->
                nth_error results k = Some r))
    /\ (forall W',
          exists results' m'',
            runBatch W' this session batch m = (Returned results', m'')
            /\ forall k accountId_,
                 nth_error batch k = Some accountId_ ->
                 sameFor W W' accountId_ ->
                 nth_error results' k = nth_error results k).
Proof.
  destruct (runBatch_run W this session batch m) as (results & m' & E & _ & _ & L & Hk).
  exists results, m'. split; [exact E|]. split; [exact L|]. split; [reflexivity|]. split.
  - intros k a Ha. destruct (Hk k a Ha) as (mk & <- & Ck & Ek).
    cbv zeta. split; [exact Ck|]. split; [exact Ek|]. split.
    + intros Hlate. rewrite Ek. f_equal. now apply late_outcome.
    + intros t r Hw Ht. rewrite Ek, Hw. f_equal. now apply timely_outcome.
  - intros W'.
    destruct (runBatch_run W' this session batch m) as (results' & m'' & E' & _ & _ & _ & Hk').
    exists results', m''. split; [exact E'|].
    intros k a Ha (Hsign & Hdraw & Hdet & Hbal).
    destruct (Hk k a Ha) as (mk & Em & _ & Ek).
    destruct (Hk' k a Ha) as (mk' & Em' & _ & Ek').
    rewrite Ek, Ek'. f_equal. f_equal.
    rewrite Em, Em', (startedIn_same this W W' Hsign session batch k batch 0%nat m).
    unfold settlement.
    now rewrite (accountPromise_same this W W' Hsign Hdraw session batch a k).
Qed.

(** In the batch [a], [b] of session [S1] the details of [b] never arrive:
    [b] fails on its timer and [a] is fetched all the same. *)
Example slow_sibling :
  fst (runBatch bank api (sessionOf ["a"; "b"; "c"]) ["a"; "b"] boot)
  = Returned [fulfilled (accountOf "a"); rejected (timeoutError "b")].
Proof. vm_compute. reflexivity. Qed.

Lemma schedule_length W this session : forall accountBatches m,
  List.length (schedule W this session accountBatches m) = List.length accountBatches.
Proof. induction accountBatches as [|b rest IH]; intros m; cbn; [reflexivity|now rewrite IH]. Qed.

Lemma schedule_ordered W this session : forall accountBatches m j k tj tk itemsj itemsk,
  (j < k)%nat ->
  nth_error (schedule W this session accountBatches m) j = Some (tj, itemsj) ->
  nth_error (schedule W this session accountBatches m) k = Some (tk, itemsk) ->
  tj <= tk.
Proof.
  induction accountBatches as [|b bs IH]; intros m j k tj tk itemsj itemsk Hjk Hj Hk;
    [destruct j; discriminate Hj|].
  destruct k as [|k]; [lia|]. cbn [schedule nth_error] in Hk.
  destruct j as [|j]; cbn [schedule nth_error] in Hj.
  - injection Hj as <- _. apply schedule_not_before in Hk.
    pose proof (runBatch_monotone W this session b m). lia.
  - eapply IH; [|exact Hj|exact Hk]. lia.
Qed.

(** C5.  The account ids are cut into consecutive batches of
    [MAX_CONCURRENT = 2] ids, the last one possibly shorter and none empty;
    put end to end the batches give back the account list in its order.  The
    batches run in sequence: every promise of a batch has settled by the
    instant at which any later batch is dispatched, and the loop's results
    are the settled results of the batches in that order. *)
Theorem batches_are_sequential W this session m :
  let accountBatches := makeBatches (accounts session) in
  List.concat accountBatches = accounts session
  /\ MAX_CONCURRENT = 2%nat
  /\ wellSized MAX_CONCURRENT accountBatches
  /\ (forall batch, In batch accountBatches ->
        (1 <= List.length batch <= MAX_CONCURRENT)%nat)
  /\ List.length (schedule W this session accountBatches m) = List.length accountBatches
  /\ (forall j k tj itemsj tk itemsk,
        (j < k)%nat ->
        nth_error (schedule W this session accountBatches m) j = Some (tj, itemsj) ->
        nth_error (schedule W this session accountBatches m) k = Some (tk, itemsk) ->
        tj <= tk /\
        forall p, In p itemsj -> exists t r, p = settled t r /\ t <= tk)
  /\ exists allResults m',
       forBatches W this session accountBatches [] m = (Returned allResults, m')
       /\ settledResults (List.concat (map snd (schedule W this session accountBatches m)))
          = Some allResults.
Proof.
  cbv zeta.
  assert (Hpos : (0 < MAX_CONCURRENT)%nat) by (unfold MAX_CONCURRENT; lia).
  split; [|split; [|split; [|split; [|split; [|split]]]]].
  - rewrite makeBatches_chunks. now apply concat_chunks.
  - reflexivity.
  - rewrite makeBatches_chunks. now apply wellSized_chunks.
  - apply wellSized_bounds. rewrite makeBatches_chunks. now apply wellSized_chunks.
  - apply schedule_length.
  - intros j k tj itemsj tk itemsk Hjk Hj Hk. split.
    + eapply schedule_ordered; eassumption.
    + eapply schedule_in_sequence; eassumption.
  - destruct (forBatches_run W this session (makeBatches (accounts session)) [] m)
      as (rs & m' & E & _ & _ & S).
    exists rs, m'. split; [exact E|exact S].
Qed.

End AccountsFetch.

(* ===================================================================== *)
(** * 10. The representative balance                                      *)
(* ===================================================================== *)

Module Balances.

Import EnableBanking Vocabulary Examples AdapterFacts.

(** C3, as the code has it.  When the provider answers with at least one
    balance and every amount parses to a number, [getAccountBalance] returns
    an entry of the list whose amount is [>=] the amount of every entry. *)
Theorem highest_balance_is_maximum W this accountId_ m response m' :
  get W this GET_balances ("/accounts/" ++ accountId_ ++ "/balances") None m
  = (Returned response, m') ->
  balances response <> [] ->
  (forall b, In b (balances response) -> isNaN (amountOf b) = false) ->
  exists r,
    getAccountBalance W this accountId_ m = (Returned (Some r), m')
    /\ In r (balances response)
    /\ forall e, In e (balances response) -> ge (amountOf r) (amountOf e) = true.
Proof.
  intros Hget Hne Hnum.
  destruct (highestBalance_nonempty response Hne) as (r & E & Hin & Hall).
  exists r. split; [|split].
  - unfold getAccountBalance, bind. rewrite Hget, E. reflexivity.
  - exact Hin.
  - intros e He. apply NumberFacts.not_gt_ge; auto.
Qed.

Lemma highest_balance_witness :
  let response :=
    {| balances := [eur "10.50" "CLAV"; eur "100" "CLBD"; eur "99.99" "ITAV"] |} in
  let m' := {| clock := 1700000000200; console := []; draws := 4 |} in
  get bank api GET_balances ("/accounts/" ++ "a" ++ "/balances") None boot
  = (Returned response, m')
  /\ balances response <> []
  /\ (forall b, In b (balances response) -> isNaN (amountOf b) = false)
  /\ exists r,
       getAccountBalance bank api "a" boot = (Returned (Some r), m')
       /\ In r (balances response)
       /\ forall e, In e (balances response) -> ge (amountOf r) (amountOf e) = true.
Proof.
  cbv zeta.
  assert (H1 : get bank api GET_balances ("/accounts/" ++ "a" ++ "/balances") None boot
               = (Returned {| balances := [eur "10.50" "CLAV"; eur "100" "CLBD";
                                           eur "99.99" "ITAV"] |},
                  {| clock := 1700000000200; console := []; draws := 4 |}))
    by (vm_compute; reflexivity).
  assert (H2 : balances {| balances := [eur "10.50" "CLAV"; eur "100" "CLBD";
                                        eur "99.99" "ITAV"] |} <> [])
    by discriminate.
  assert (H3 : forall b,
             In b (balances {| balances := [eur "10.50" "CLAV"; eur "100" "CLBD";
                                            eur "99.99" "ITAV"] |}) ->
             isNaN (amountOf b) = false)
    by (intros b [<-|[<-|[<-|[]]]]; vm_compute; reflexivity).
  split; [exact H1|]. split; [exact H2|]. split; [exact H3|].
  exact (highest_balance_is_maximum bank api "a" boot _ _ H1 H2 H3).
Defined.

(** An amount that does not parse: the first entry is kept although the
    second one holds 5, which it is not [>=]. *)
Lemma unparsable_amount_is_kept :
  let response := {| balances := [eur "abc" "CLAV"; eur "5" "CLBD"] |} in
  let m' := {| clock := 1700000000200; console := []; draws := 4 |} in
  get bank api GET_balances ("/accounts/" ++ "n" ++ "/balances") None boot
  = (Returned response, m')
  /\ balances response <> []
  /\ getAccountBalance bank api "n" boot = (Returned (Some (eur "abc" "CLAV")), m')
  /\ ~ (exists r,
          getAccountBalance bank api "n" boot = (Returned (Some r), m')
          /\ In r (balances response)
          /\ forall e, In e (balances response) -> ge (amountOf r) (amountOf e) = true).
Proof.
  cbv zeta. split; [vm_compute; reflexivity|]. split; [discriminate|].
  assert (E : getAccountBalance bank api "n" boot
              = (Returned (Some (eur "abc" "CLAV")),
                 {| clock := 1700000000200; console := []; draws := 4 |}))
    by (vm_compute; reflexivity).
  split; [exact E|].
  intros (r & Er & _ & Hall). rewrite E in Er. injection Er as <-.
  specialize (Hall (eur "5" "CLBD") (or_intror (or_introl eq_refl))).
  vm_compute in Hall. discriminate Hall.
Qed.

(** Whatever the amounts, the returned entry is one of the list and no
    entry is strictly greater than it. *)
Lemma highest_balance_not_exceeded W this accountId_ m response m' :
  get W this GET_balances ("/accounts/" ++ accountId_ ++ "/balances") None m
  = (Returned response, m') ->
  balances response <> [] ->
  exists r,
    getAccountBalance W this accountId_ m = (Returned (Some r), m')
    /\ In r (balances response)
    /\ forall e, In e (balances response) -> gt (amountOf e) (amountOf r) = false.
Proof.
  intros Hget Hne.
  destruct (highestBalance_nonempty response Hne) as (r & E & Hin & Hall).
  exists r. split; [|split; assumption].
  unfold getAccountBalance, bind. rewrite Hget, E. reflexivity.
Qed.

(** C10.  When the provider answers with an empty list of balances,
    [getAccountBalance] returns [undefined]: it neither throws nor returns
    a balance record. *)
Theorem empty_balances_give_undefined W this accountId_ m response m' :
  get W this GET_balances ("/accounts/" ++ accountId_ ++ "/balances") None m
  = (Returned response, m') ->
  balances response = [] ->
  getAccountBalance W this accountId_ m = (Returned None, m').
Proof.
  intros Hget He. unfold getAccountBalance, bind.
  now rewrite Hget, (highestBalance_empty response He).
Qed.

Lemma empty_balances_witness :
  let response := {| balances := [] |} in
  let m' := {| clock := 1700000000200; console := []; draws := 4 |} in
  get bank api GET_balances ("/accounts/" ++ "e" ++ "/balances") None boot
  = (Returned response, m')
  /\ balances response = []
  /\ getAccountBalance bank api "e" boot = (Returned None, m').
Proof.
  cbv zeta.
  assert (H1 : get bank api GET_balances ("/accounts/" ++ "e" ++ "/balances") None boot
               = (Returned {| balances := [] |},
                  {| clock := 1700000000200; console := []; draws := 4 |}))
    by (vm_compute; reflexivity).
  split; [exact H1|]. split; [reflexivity|].
  exact (empty_balances_give_undefined bank api "e" boot _ _ H1 eq_refl).
Defined.

End Balances.

(* ===================================================================== *)
(** * 11. The signed token                                                *)
(* ===================================================================== *)

Module Token.

Import EnableBanking Vocabulary Examples AdapterFacts.

(** C6.  When the key signs, the assertion generated at [clock m] is
    [header.body.signature]: three segments joined by dots, each over the
    URL-safe alphabet with no padding.  Decoding the header gives back type,
    algorithm and key id; decoding the body gives back the issuer
    [enablebanking.com], the audience [api.enablebanking.com], the issued-at
    second and an expiry of issued-at plus 72000 s, the 20 hours of
    [expiresIn], which is below the provider's 86400 s. *)
Theorem token_round_trip W this m signature :
  sign_RS256 W (keyContent this) (signingInput this (clock m)) = inr signature ->
  exists header body sig,
    generateJWT W this m = (Returned (header ++ "." ++ body ++ "." ++ sig), m)
    /\ Reader.split "." (header ++ "." ++ body ++ "." ++ sig) = [header; body; sig]
    /\ Base64Url.urlSafe header = true
    /\ Base64Url.urlSafe body = true
    /\ Base64Url.urlSafe sig = true
    /\ sig = Base64Url.encode signature
    /\ Reader.decodeSegment header
       = Some [("typ", JSONString "JWT"); ("alg", JSONString "RS256");
               ("kid", JSONString (applicationId this))]
    /\ Reader.decodeSegment body
       = Some [("iss", JSONString "enablebanking.com");
               ("aud", JSONString "api.enablebanking.com");
               ("iat", JSONNumber (clock m / 1000));
               ("exp", JSONNumber (clock m / 1000 + 72000))]
    /\ expiresIn * 60 * 60 = 72000
    /\ 72000 < 86400.
Proof.
  intros Hsign.
  exists (Base64Url.encode (JSON_stringify (headerOf this))),
         (Base64Url.encode (JSON_stringify (claimsAt (clock m)))),
         (Base64Url.encode signature).
  split; [|split; [|split; [|split; [|split; [|split; [|split; [|split; [|split]]]]]]]].
  - rewrite generateJWT_run, Hsign. unfold signingInput. now rewrite !append_assoc.
  - cbn [append].
    rewrite !ReaderFacts.urlSafe_split_app by apply Base64UrlFacts.encode_urlSafe.
    now rewrite ReaderFacts.urlSafe_split_one by apply Base64UrlFacts.encode_urlSafe.
  - apply Base64UrlFacts.encode_urlSafe.
  - apply Base64UrlFacts.encode_urlSafe.
  - apply Base64UrlFacts.encode_urlSafe.
  - reflexivity.
  - apply ReaderFacts.decodeSegment_encode.
  - apply ReaderFacts.decodeSegment_encode.
  - reflexivity.
  - reflexivity.
Qed.

Lemma token_witness :
  sign_RS256 bank (keyContent api) (signingInput api (clock boot)) = inr "signature"
  /\ exists header body sig,
       generateJWT bank api boot = (Returned (header ++ "." ++ body ++ "." ++ sig), boot)
       /\ Reader.split "." (header ++ "." ++ body ++ "." ++ sig) = [header; body; sig]
       /\ Base64Url.urlSafe header = true
       /\ Base64Url.urlSafe body = true
       /\ Base64Url.urlSafe sig = true
       /\ sig = Base64Url.encode "signature"
       /\ Reader.decodeSegment header
          = Some [("typ", JSONString "JWT"); ("alg", JSONString "RS256");
                  ("kid", JSONString (applicationId api))]
       /\ Reader.decodeSegment body
          = Some [("iss", JSONString "enablebanking.com");
                  ("aud", JSONString "api.enablebanking.com");
                  ("iat", JSONNumber (clock boot / 1000));
                  ("exp", JSONNumber (clock boot / 1000 + 72000))]
       /\ expiresIn * 60 * 60 = 72000
       /\ 72000 < 86400.
Proof.
  split; [reflexivity|].
  exact (token_round_trip bank api boot "signature" eq_refl).
Defined.

Example token_of_the_bank :
  fst (generateJWT bank api boot)
  = Returned ("eyJ0eXAiOiJKV1QiLCJhbGciOiJSUzI1NiIsImtpZCI6ImFwcC0xIn0"
              ++ "." ++ "eyJpc3MiOiJlbmFibGViYW5raW5nLmNvbSIsImF1ZCI6ImFwaS5lbmFibGViYW5raW5nLmNvbSIsImlhdCI6MTcwMDAwMDAwMCwiZXhwIjoxNzAwMDcyMDAwfQ"
              ++ "." ++ "c2lnbmF0dXJl").
Proof. vm_compute. reflexivity. Qed.

End Token.

(* ===================================================================== *)
(** * 12. The transactions query                                          *)
(* ===================================================================== *)

Module Transactions.

Import EnableBanking Vocabulary Examples MoreExamples AdapterFacts.

Lemma getTransactions_get W this request m :
  getTransactions W this request m
  = get W this GET_transactions ("/accounts/" ++ accountId request ++ "/transactions")
      (Some (transactionQuery (latest_flag request) (localDay W (clock m)))) m.
Proof.
  unfold getTransactions, transactionParams, transactionQuery, DateFns.subDays.
  destruct (truthy (latest_flag request)); reflexivity.
Qed.

(** C7.  Every [getTransactions] call passes to [#get] a query whose
    [transaction_status] is [BOOK].  With the [latest] flag set the strategy
    is [default] and [date_from] is the ISO date of the fifth day before the
    local day of the call; with the flag unset (or absent) the strategy is
    [longest] and there is no [date_from].  If the token cannot be signed no
    request leaves; otherwise the request that leaves carries exactly that
    query.  Whatever is returned is the answer the bank gave to that
    request, as it is: the transactions returned are all booked when the bank
    honours the status filter, and the adapter adds no filter of its own. *)
Theorem booked_is_asked_of_the_bank W this request m :
  let today := localDay W (clock m) in
  let query := transactionQuery (latest_flag request) today in
  let path_ := "/accounts/" ++ accountId request ++ "/transactions" in
  getTransactions W this request m = get W this GET_transactions path_ (Some query) m
  /\ In ("transaction_status", "BOOK") query
  /\ (latest_flag request = Some true ->
      query = [("strategy", "default");
               ("transaction_status", "BOOK");
               ("date_from", DateFns.formatISO_date (DateFns.subDays today 5))])
  /\ (latest_flag request <> Some true ->
      query = [("strategy", "longest"); ("transaction_status", "BOOK")])
  /\ (forall signature,
        sign_RS256 W (keyContent this) (signingInput this (clock m)) = inr signature ->
        exists request_,
          getTransactions W this request m
          = await (answered (clock m) (GET_transactions W request_)) (drawn m 4)
          /\ path request_ = path_
          /\ params request_ = Some query)
  /\ (forall response m',
        getTransactions W this request m = (Returned response, m') ->
        exists request_ delay,
          path request_ = path_
          /\ params request_ = Some query
          /\ GET_transactions W request_ = replies delay (fulfilled response))
  /\ (honoursStatusFilter W ->
      forall response m',
        getTransactions W this request m = (Returned response, m') ->
        Forall booked (transactions response)).
Proof.
  cbv zeta.
  assert (Hin : In ("transaction_status", "BOOK")
                   (transactionQuery (latest_flag request) (localDay W (clock m)))).
  { unfold transactionQuery. destruct (truthy (latest_flag request)); cbn; auto. }
  assert (Hback : forall response m',
            getTransactions W this request m = (Returned response, m') ->
            exists request_ delay,
              path request_ = "/accounts/" ++ accountId request ++ "/transactions"
              /\ params request_
                 = Some (transactionQuery (latest_flag request) (localDay W (clock m)))
              /\ GET_transactions W request_ = replies delay (fulfilled response)).
  { intros response m' E.
    rewrite getTransactions_get, get_run in E.
    destruct (sign_RS256 W (keyContent this) (signingInput this (clock m)))
      as [e|signature]; [discriminate E|].
    cbv zeta in E. unfold await, answered in E.
    match type of E with
    | context [GET_transactions W ?r] =>
        exists r; destruct (GET_transactions W r) as [|delay [resp|e]] eqn:Er
    end; try discriminate E.
    - destruct (delay <? 30000); [|discriminate E].
      injection E as -> _. now exists delay.
    - destruct (delay <? 30000); discriminate E. }
  split; [apply getTransactions_get|]. split; [exact Hin|].
  split; [|split; [|split; [|split]]].
  - intros ->. reflexivity.
  - intros Hl. unfold transactionQuery.
    destruct (latest_flag request) as [[|]|]; cbn; congruence.
  - intros signature Hs. eexists. split; [|split].
    + rewrite getTransactions_get, get_run, Hs. cbv zeta. reflexivity.
    + reflexivity.
    + reflexivity.
  - exact Hback.
  - intros Hw response m' E.
    destruct (Hback response m' E) as (r & delay & _ & Hq & Er).
    exact (Hw r _ delay response Hq Hin Er).
Qed.

Lemma bank_honours_filter : honoursStatusFilter bank.
Proof.
  intros request_ query delay response Hp _ E.
  cbn [bank GET_transactions] in E. rewrite Hp in E.
  injection E as _ <-. repeat constructor.
Defined.

Lemma booked_witness :
  let request := {| accountId := "a"; latest_flag := Some true |} in
  honoursStatusFilter bank
  /\ latest_flag request = Some true
  /\ transactionQuery (latest_flag request) (localDay bank (clock boot))
     = [("strategy", "default"); ("transaction_status", "BOOK"); ("date_from", "2023-11-09")]
  /\ forall response m',
       getTransactions bank api request boot = (Returned response, m') ->
       Forall booked (transactions response).
Proof.
  cbv zeta. split; [exact bank_honours_filter|]. split; [reflexivity|].
  destruct (booked_is_asked_of_the_bank bank api
              {| accountId := "a"; latest_flag := Some true |} boot)
    as (_ & _ & Hlatest & _ & _ & _ & Hbooked).
  split; [rewrite (Hlatest eq_refl); vm_compute; reflexivity|].
  exact (Hbooked bank_honours_filter).
Defined.

(** Against a bank that ignores the status asked for, the request still says
    [BOOK] and the pending transaction of the answer is returned. *)
Lemma unbooked_transaction_is_returned :
  let request := {| accountId := "a"; latest_flag := None |} in
  let returned :=
    {| transactions := [{| entry_reference := "t1"; status := "BOOK" |};
                        {| entry_reference := "t3"; status := "PDNG" |}] |} in
  In ("transaction_status", "BOOK")
     (transactionQuery (latest_flag request) (localDay laxBank (clock boot)))
  /\ fst (getTransactions laxBank api request boot) = Returned returned
  /\ ~ Forall booked (transactions returned).
Proof.
  cbv zeta. split; [cbn; auto|]. split; [vm_compute; reflexivity|].
  intros H. inversion H as [|? ? _ H2]. inversion H2 as [|? ? Hp _].
  discriminate Hp.
Qed.

(** Five days back across the end of February, of a year, and of a
    century year that is not a leap year. *)
Example date_from_leap_february :
  DateFns.formatISO_date (DateFns.subDays 19785%Z 5%Z) = "2024-02-27"
  /\ DateFns.formatISO_date 19785%Z = "2024-03-03".
Proof. split; vm_compute; reflexivity. Qed.

Example date_from_previous_year :
  DateFns.formatISO_date (DateFns.subDays 19725%Z 5%Z) = "2023-12-29"
  /\ DateFns.formatISO_date 19725%Z = "2024-01-03".
Proof. split; vm_compute; reflexivity. Qed.

Example date_from_century_year :
  DateFns.formatISO_date (DateFns.subDays 47542%Z 5%Z) = "2100-02-25"
  /\ DateFns.formatISO_date 47542%Z = "2100-03-02".
Proof. split; vm_compute; reflexivity. Qed.

End Transactions.

(* ===================================================================== *)
(** * 13. The accounts route                                              *)
(* ===================================================================== *)

Module RouteFacts.

Import AccountsRoute Vocabulary.

Lemma createErrorResponse_shape {Account} sentinel e :
  exists c msg,
    @ErrorBody Account (createErrorResponse sentinel e)
    = ErrorBody {| error := {| code := c; message := msg |} |}.
Proof. destruct e as [n msg c]. cbn. eauto. Qed.

(** C8.  The handler always answers.  Let [fetch] be the promise of the
    provider's [getAccounts], started when the request arrives, and the
    deadline be 28000 ms later; the deadline timer is set before the fetch
    is started.  If [fetch] is fulfilled before the deadline the answer is
    200 with [{data}]; if it is rejected before the deadline the answer is
    400 with the error mapped to [{error: {code, message}}]; if it has not
    settled when the deadline timer is due the answer is 400 with the mapped
    [Request timeout] error, given at the deadline.  Hence every answer is
    200 or 400, every 400 has the structured body, and a 200 carries the
    data of a fetch that completed before the deadline. *)
Theorem accounts_handler_responses (Account : Type)
    (Provider_getAccounts : string -> GetAccountsRequest -> Async (list Account))
    (sentinel : string) (query : AccountsParams) (m : Machine) :
  let fetch :=
    settlement (Provider_getAccounts (provider query) (requestOfQuery query))
               (logged m [requestLine query]) in
  let deadline := clock m + TOTAL_TIMEOUT in
  TOTAL_TIMEOUT = 28000
  /\ exists response m',
       getAccountsHandler Account Provider_getAccounts sentinel query m = (Returned response, m')
       /\ clock m' <= deadline
       /\ response
          = match fetch with
            | settled t (fulfilled data) =>
                if t <? deadline then json (DataBody data) 200 else timedOut sentinel
            | settled t (rejected e) =>
                if t <? deadline
                then json (ErrorBody (createErrorResponse sentinel e)) 400
                else timedOut sentinel
            | pending => timedOut sentinel
            end
       /\ (http_status response = 200 \/ http_status response = 400)
       /\ (http_status response = 400 ->
           exists c msg,
             body response = ErrorBody {| error := {| code := c; message := msg |} |})
       /\ (http_status response = 200 ->
           exists data t,
             fetch = settled t (fulfilled data) /\ t < deadline
             /\ body response = DataBody data).
Proof.
  cbv zeta. split; [reflexivity|].
  unfold getAccountsHandler.
  cbv [bind try_catch console_log console_error write Date_now rejectAfter start ret].
  cbn [clock console draws].
  change {| clock := clock m;
            console := (console m ++ [{| level := LOG;
                                         text := "[Accounts] Request: provider=" ++ provider query
                                                 ++ ", id=" ++ (if present (id query)
                                                                then "present" else "missing");
                                         attached := None |}])%list;
            draws := draws m |}
    with (logged m [requestLine query]).
  change {| request_id := id query;
            request_accessToken := accessToken query;
            request_institutionId := institutionId query |}
    with (requestOfQuery query).
  destruct (settlement (Provider_getAccounts (provider query) (requestOfQuery query))
              (logged m [requestLine query])) as [|t [data|e]];
    cbn [Promise_race await];
    try destruct (N.ltb_spec t (clock m + TOTAL_TIMEOUT)) as [Ht|Ht];
    cbn [clock console draws];
    eexists; eexists; (split; [reflexivity|]); cbn [clock json http_status body timedOut];
    (split; [lia|]); (split; [reflexivity|]);
    (split; [auto|]);
    (split; [intros H; try discriminate H; apply createErrorResponse_shape|]);
    intros H; try discriminate H; eauto.
Qed.

End RouteFacts.

(* ===================================================================== *)
(** * 14. More on the multi-account fetch                                  *)
(* ===================================================================== *)

Module AccountsFetchMore.

Import EnableBanking Vocabulary Examples MoreExamples AdapterFacts.

Section Helpers.

Variable W : World.
Variable this : EnableBankingApi.

Lemma getAccounts_session_thrown id m e m1 :
  getSession W this id (logged m [gettingLine id]) = (Thrown e, m1) ->
  getAccounts W this id m = (Thrown e, logged m1 [rethrownLine id e]).
Proof.
  intros H. unfold getAccounts, try_catch.
  unfold bind at 1. cbv [console_log write].
  unfold bind at 1. cbv [Date_now].
  unfold bind at 1. cbv [logged gettingLine line] in H. rewrite H.
  reflexivity.
Qed.

Lemma getAccounts_session_suspended id m m1 :
  getSession W this id (logged m [gettingLine id]) = (Suspended, m1) ->
  getAccounts W this id m = (Suspended, m1).
Proof.
  intros H. unfold getAccounts, try_catch.
  unfold bind at 1. cbv [console_log write].
  unfold bind at 1. cbv [Date_now].
  unfold bind at 1. cbv [logged gettingLine line] in H. rewrite H.
  reflexivity.
Qed.

Lemma latest_le {A} now bound (items : list (Promise A)) :
  now <= bound ->
  (forall p, In p items -> exists t r, p = settled t r /\ t <= bound) ->
  latest now items <= bound.
Proof.
  intros Hn. induction items as [|p items IH]; intros H; cbn [latest]; [exact Hn|].
  assert (IH' : latest now items <= bound) by (apply IH; intros q Hq; apply H; now right).
  destruct (H p (or_introl eq_refl)) as (t & r & -> & Ht). lia.
Qed.

Lemma runBatch_bound session batch m :
  clock (snd (runBatch W this session batch m)) <= clock m + ACCOUNT_TIMEOUT.
Proof.
  destruct (runBatch_run W this session batch m) as (rs & m' & E & _ & C & _).
  rewrite E. cbn [snd]. rewrite C. apply latest_le; [lia|].
  intros p Hp. now apply batchItems_settled in Hp.
Qed.

Lemma forBatches_bound session : forall accountBatches allResults m,
  clock (snd (forBatches W this session accountBatches allResults m))
  <= clock m + ACCOUNT_TIMEOUT * N.of_nat (List.length accountBatches).
Proof.
  induction accountBatches as [|batch rest IH]; intros allResults m.
  - cbn. lia.
  - destruct (runBatch_run W this session batch m) as (rs & m1 & E & _).
    pose proof (runBatch_bound session batch m) as Hb. rewrite E in Hb. cbn [snd] in Hb.
    cbn [forBatches]. unfold bind. rewrite E.
    specialize (IH (allResults ++ rs)%list m1).
    cbn [List.length]. lia.
Qed.

End Helpers.

Lemma chunks2_length {A} : forall fuel (xs : list A),
  (List.length xs <= fuel)%nat ->
  List.length (chunks fuel 2 xs) = ((List.length xs + 1) / 2)%nat.
Proof.
  induction fuel as [|fuel IH]; intros xs H.
  - destruct xs; [reflexivity|cbn in H; lia].
  - destruct xs as [|a [|b xs]]; [reflexivity| |].
    + cbn [chunks firstn skipn List.length]. destruct fuel; reflexivity.
    + cbn [chunks firstn skipn List.length] in *. rewrite IH by lia.
      replace (S (S (List.length xs)) + 1)%nat with ((List.length xs + 1) + 1 * 2)%nat by lia.
      rewrite Nat.div_add by lia. lia.
Qed.

Lemma chunks2_nth {A} : forall k fuel (xs : list A),
  (List.length xs <= fuel)%nat ->
  (2 * k < List.length xs)%nat ->
  nth_error (chunks fuel 2 xs) k = Some (firstn 2 (skipn (2 * k) xs)).
Proof.
  induction k as [|k IH]; intros fuel xs Hf Hk.
  - destruct fuel as [|fuel]; [lia|]. destruct xs; [cbn in Hk; lia|]. reflexivity.
  - destruct fuel as [|fuel]; [lia|].
    destruct xs as [|a [|b xs]]; cbn [List.length] in *; try lia.
    cbn [chunks nth_error]. cbn [skipn]. rewrite IH by (cbn [List.length]; lia).
    replace (2 * S k)%nat with (S (S (2 * k))) by lia. reflexivity.
Qed.

(** X1.  When the session cannot be retrieved, [getAccounts] throws the
    very error of the session call: it is written once to the console with
    the session id, no account is processed and nothing else is logged. *)
Theorem session_failure_is_rethrown W this id m e m1 :
  getSession W this id (logged m [gettingLine id]) = (Thrown e, m1) ->
  getAccounts W this id m = (Thrown e, logged m1 [rethrownLine id e])
  /\ clock (snd (getAccounts W this id m)) = clock m1
  /\ draws (snd (getAccounts W this id m)) = draws m1.
Proof.
  intros H. rewrite (getAccounts_session_thrown W this id m e m1 H). now repeat split.
Qed.

Lemma session_failure_witness :
  let m1 := snd (getSession bank api "GONE" (logged boot [gettingLine "GONE"])) in
  getSession bank api "GONE" (logged boot [gettingLine "GONE"]) = (Thrown outage, m1)
  /\ getAccounts bank api "GONE" boot = (Thrown outage, logged m1 [rethrownLine "GONE" outage])
  /\ clock (snd (getAccounts bank api "GONE" boot)) = clock m1
  /\ draws (snd (getAccounts bank api "GONE" boot)) = draws m1.
Proof.
  cbv zeta.
  assert (H : getSession bank api "GONE" (logged boot [gettingLine "GONE"])
              = (Thrown outage,
                 snd (getSession bank api "GONE" (logged boot [gettingLine "GONE"]))))
    by (vm_compute; reflexivity).
  split; [exact H|].
  exact (session_failure_is_rethrown bank api "GONE" boot outage _ H).
Defined.

(** X2.  [getAccounts] sets no timer of its own around the session call;
    the client's timeout is the only one.  When the key signs and the bank
    does not answer the session request in less than 30000 ms, [getAccounts]
    throws the client's timeout error 30000 ms after it was called, having
    written its own error line, and no account is processed. *)
Theorem unanswered_session_times_out W this id m signature :
  sign_RS256 W (keyContent this) (signingInput this (clock m)) = inr signature ->
  (forall d x,
     GET_session W
       (requestOf W (logged m [gettingLine id])
          (signingInput this (clock m) ++ "." ++ Base64Url.encode signature)
          ("/sessions/" ++ id) None)
     = replies d x -> 30000 <= d) ->
  fst (getAccounts W this id m) = Thrown (new_XiorTimeoutError 30000)
  /\ clock (snd (getAccounts W this id m)) = clock m + 30000
  /\ console (snd (getAccounts W this id m))
     = (console m ++ [gettingLine id; rethrownLine id (new_XiorTimeoutError 30000)])%list
  /\ draws (snd (getAccounts W this id m)) = draws m + 4.
Proof.
  intros Hsign Hslow.
  assert (H : getSession W this id (logged m [gettingLine id])
              = (Thrown (new_XiorTimeoutError 30000),
                 {| clock := clock m + 30000;
                    console := (console m ++ [gettingLine id])%list;
                    draws := draws m + 4 |})).
  { unfold getSession. rewrite get_run. cbn [logged clock]. rewrite Hsign. cbv zeta.
    unfold answered.
    match goal with
    | |- context [GET_session W ?r] => destruct (GET_session W r) as [|d x] eqn:Er
    end.
    - cbn [await drawn logged clock console draws]. now rewrite N.max_r by lia.
    - specialize (Hslow d x eq_refl).
      destruct (N.ltb_spec d 30000); [lia|].
      cbn [await drawn logged clock console draws]. now rewrite N.max_r by lia. }
  rewrite (getAccounts_session_thrown W this id m _ _ H).
  cbn [fst snd logged clock console draws]. rewrite <- app_assoc. now repeat split.
Qed.

Lemma unanswered_session_witness :
  sign_RS256 muteBank (keyContent api) (signingInput api (clock boot)) = inr "signature"
  /\ (forall d x,
        GET_session muteBank
          (requestOf muteBank (logged boot [gettingLine "S1"])
             (signingInput api (clock boot) ++ "." ++ Base64Url.encode "signature")
             ("/sessions/" ++ "S1") None)
        = replies d x -> 30000 <= d)
  /\ fst (getAccounts muteBank api "S1" boot) = Thrown (new_XiorTimeoutError 30000)
  /\ clock (snd (getAccounts muteBank api "S1" boot)) = clock boot + 30000
  /\ console (snd (getAccounts muteBank api "S1" boot))
     = (console boot
        ++ [gettingLine "S1"; rethrownLine "S1" (new_XiorTimeoutError 30000)])%list
  /\ draws (snd (getAccounts muteBank api "S1" boot)) = draws boot + 4.
Proof.
  assert (H1 : sign_RS256 muteBank (keyContent api) (signingInput api (clock boot))
               = inr "signature") by reflexivity.
  assert (H2 : forall d x,
             GET_session muteBank
               (requestOf muteBank (logged boot [gettingLine "S1"])
                  (signingInput api (clock boot) ++ "." ++ Base64Url.encode "signature")
                  ("/sessions/" ++ "S1") None)
             = replies d x -> 30000 <= d)
    by (intros d x E; discriminate E).
  split; [exact H1|]. split; [exact H2|].
  exact (unanswered_session_times_out muteBank api "S1" boot "signature" H1 H2).
Defined.

(** X3.  [getAccounts] never returns an empty list: whenever it returns, at
    least one account was fetched. *)
Theorem never_returns_no_account W this id m accounts_ m' :
  getAccounts W this id m = (Returned accounts_, m') ->
  accounts_ <> [].
Proof.
  intros H.
  destruct (getSession W this id (logged m [gettingLine id])) as [[session|e|] m1] eqn:E.
  - destruct (forBatches_run W this session (makeBatches (accounts session)) []
                (logged m1 [foundLine session])) as (rs & m2 & E2 & _).
    cbn [app] in E2.
    pose proof (getAccounts_run W this id m session m1 rs m2 E E2) as Hrun.
    cbv zeta in Hrun. rewrite Hrun in H.
    destruct (successes rs) as [|v vs]; [discriminate H|].
    injection H as <- _. discriminate.
  - rewrite (getAccounts_session_thrown W this id m e m1 E) in H. discriminate H.
  - rewrite (getAccounts_session_suspended W this id m m1 E) in H. discriminate H.
Qed.

Lemma never_returns_no_account_witness :
  getAccounts bank api "S1" boot
  = (Returned [accountOf "a"; accountOf "c"], snd (getAccounts bank api "S1" boot))
  /\ [accountOf "a"; accountOf "c"] <> [].
Proof.
  assert (H : getAccounts bank api "S1" boot
              = (Returned [accountOf "a"; accountOf "c"], snd (getAccounts bank api "S1" boot)))
    by (vm_compute; reflexivity).
  split; [exact H|].
  exact (never_returns_no_account bank api "S1" boot _ _ H).
Defined.

Lemma successes_of_outcomes W this session (P : GetAccountDetailsResponse -> Prop) :
  (forall batch accountId_ index m v,
      itemOutcome (clock m) accountId_
        (settlement (accountPromise W this session batch accountId_ index) m) = fulfilled v ->
      P v) ->
  forall ids results,
    Forall2 (outcomeOf W this session) ids results -> Forall P (successes results).
Proof.
  intros HP ids results F. induction F as [|i r ids results Hr _ IH]; [constructor|].
  destruct r as [v|reason]; cbn [successes]; [|exact IH].
  constructor; [|exact IH].
  destruct Hr as (batch & index & m & _ & Hv). symmetry in Hv. eapply HP. exact Hv.
Qed.

(** X4.  Every account that [getAccounts] returns carries the institution
    and the validity date of the session it was listed in. *)
Theorem returned_accounts_carry_the_session W this id m session m1 accounts_ m' :
  getSession W this id (logged m [gettingLine id]) = (Returned session, m1) ->
  getAccounts W this id m = (Returned accounts_, m') ->
  Forall (fun a => institution a = Some (aspsp session)
                   /\ valid_until a = Some (access_valid_until (access session)))
         accounts_.
Proof.
  intros H1 H.
  destruct (forBatches_run W this session (makeBatches (accounts session)) []
              (logged m1 [foundLine session])) as (rs & m2 & E2 & _).
  cbn [app] in E2.
  destruct (allResults_length W this session _ _ _ E2) as [_ F].
  pose proof (getAccounts_run W this id m session m1 rs m2 H1 E2) as Hrun.
  cbv zeta in Hrun. rewrite Hrun in H.
  assert (Hs : accounts_ = successes rs).
  { destruct (successes rs); [discriminate H|]. now injection H as <- _. }
  rewrite Hs. eapply successes_of_outcomes; [|exact F].
  intros batch a index m0 v Hv.
  apply (item_fulfilled_iff this W session batch a index m0 v) in Hv.
  destruct Hv as (td & details & tb & bal & _ & _ & _ & ->). now split.
Qed.

Lemma returned_accounts_witness :
  let session := sessionOf ["a"; "b"; "c"] in
  let m1 := snd (getSession bank api "S1" (logged boot [gettingLine "S1"])) in
  getSession bank api "S1" (logged boot [gettingLine "S1"]) = (Returned session, m1)
  /\ getAccounts bank api "S1" boot
     = (Returned [accountOf "a"; accountOf "c"], snd (getAccounts bank api "S1" boot))
  /\ Forall (fun a => institution a = Some (aspsp session)
                      /\ valid_until a = Some (access_valid_until (access session)))
            [accountOf "a"; accountOf "c"].
Proof.
  cbv zeta.
  assert (H1 : getSession bank api "S1" (logged boot [gettingLine "S1"])
               = (Returned (sessionOf ["a"; "b"; "c"]),
                  snd (getSession bank api "S1" (logged boot [gettingLine "S1"]))))
    by (vm_compute; reflexivity).
  assert (H : getAccounts bank api "S1" boot
              = (Returned [accountOf "a"; accountOf "c"], snd (getAccounts bank api "S1" boot)))
    by (vm_compute; reflexivity).
  split; [exact H1|]. split; [exact H|].
  exact (returned_accounts_carry_the_session bank api "S1" boot _ _ _ _ H1 H).
Defined.

(** X5.  Once the session is retrieved, [getAccounts] ends -- with a result
    or with the aggregate error -- no later than 8000 ms times the number of
    batches, which is half the number of accounts rounded up. *)
Theorem fetch_ends_within_the_batch_timeouts W this id m session m1 :
  getSession W this id (logged m [gettingLine id]) = (Returned session, m1) ->
  clock (snd (getAccounts W this id m))
  <= clock m1 + 8000 * N.of_nat ((List.length (accounts session) + 1) / 2)
  /\ fst (getAccounts W this id m) <> Suspended.
Proof.
  intros H1.
  destruct (forBatches_run W this session (makeBatches (accounts session)) []
              (logged m1 [foundLine session])) as (rs & m2 & E2 & _).
  cbn [app] in E2.
  pose proof (getAccounts_run W this id m session m1 rs m2 H1 E2) as Hrun.
  cbv zeta in Hrun. rewrite Hrun.
  pose proof (forBatches_bound W this session (makeBatches (accounts session)) []
                (logged m1 [foundLine session])) as Hb.
  rewrite E2 in Hb. cbn [snd logged clock] in Hb.
  rewrite makeBatches_chunks in Hb. unfold MAX_CONCURRENT in Hb.
  rewrite chunks2_length in Hb by apply Nat.le_refl.
  change ACCOUNT_TIMEOUT with 8000 in Hb.
  destruct (successes rs); cbn [fst snd logged clock]; split; (exact Hb || discriminate).
Qed.

Lemma fetch_duration_witness :
  let session := sessionOf ["a"; "b"; "c"] in
  let m1 := snd (getSession bank api "S1" (logged boot [gettingLine "S1"])) in
  getSession bank api "S1" (logged boot [gettingLine "S1"]) = (Returned session, m1)
  /\ clock (snd (getAccounts bank api "S1" boot))
     <= clock m1 + 8000 * N.of_nat ((List.length (accounts session) + 1) / 2)
  /\ fst (getAccounts bank api "S1" boot) <> Suspended.
Proof.
  cbv zeta.
  assert (H1 : getSession bank api "S1" (logged boot [gettingLine "S1"])
               = (Returned (sessionOf ["a"; "b"; "c"]),
                  snd (getSession bank api "S1" (logged boot [gettingLine "S1"]))))
    by (vm_compute; reflexivity).
  split; [exact H1|].
  exact (fetch_ends_within_the_batch_timeouts bank api "S1" boot _ _ H1).
Defined.

(** X6.  A list of [N] account ids is cut into [(N + 1) / 2] batches, and
    the [k]-th batch is [accounts.slice(2k, 2k + 2)]. *)
Theorem batches_are_the_slices (accounts_ : list string) :
  List.length (makeBatches accounts_) = ((List.length accounts_ + 1) / 2)%nat
  /\ forall k, (2 * k < List.length accounts_)%nat ->
       nth_error (makeBatches accounts_) k = Some (slice accounts_ (2 * k) (2 * k + 2)).
Proof.
  rewrite makeBatches_chunks. unfold MAX_CONCURRENT. split.
  - apply chunks2_length, Nat.le_refl.
  - intros k Hk. rewrite chunks2_nth by (try apply Nat.le_refl; exact Hk).
    now rewrite slice_skipn.
Qed.

(** X7.  In a batch, the [k]-th account is a success exactly when its
    details call and its balance call are both fulfilled and the later of
    the two comes less than 8000 ms after the dispatch, that is before the
    account's timer is due; the record returned is then the details answer
    with the session's institution and validity date and the selected
    balance.  A rejected call of either kind, or an answer that comes when
    the timer is due or later, makes the account a failure: no partial
    record is ever built. *)
Theorem account_succeeds_iff_both_calls_do W this session batch m :
  exists results m',
    runBatch W this session batch m = (Returned results, m')
    /\ forall k accountId_ v,
         nth_error batch k = Some accountId_ ->
         let m0 := logged (startedIn W this session batch batch 0%nat m k)
                          [processingLine batch accountId_ k] in
         let detailsCall := settlement (getAccountDetails W this accountId_) m0 in
         let balanceCall :=
           settlement (getAccountBalance W this accountId_) (afterCall W this m0) in
         nth_error results k = Some (fulfilled v)
         <-> exists td details tb balance_,
               detailsCall = settled td (fulfilled details)
               /\ balanceCall = settled tb (fulfilled balance_)
               /\ N.max (clock m) (N.max td tb) < clock m + 8000
               /\ v = {| provided := provided details;
                         institution := Some (aspsp session);
                         valid_until := Some (access_valid_until (access session));
                         balance := balance_ |}.
Proof.
  destruct (runBatch_run W this session batch m) as (results & m' & E & _ & _ & _ & Hk).
  exists results, m'. split; [exact E|].
  intros k a v Ha. destruct (Hk k a Ha) as (mk & <- & Ck & Ek).
  cbv zeta. rewrite Ek. unfold sameInstant in Ck. rewrite <- Ck.
  change 8000 with ACCOUNT_TIMEOUT.
  rewrite <- (item_fulfilled_iff this W session batch a k mk v).
  split; [now intros [= ->]|now intros ->].
Qed.

(** X8.  An account whose list of balances is empty is not a failure: when
    its details arrive and the balances answer holds no entry, both before
    the account's timer is due, the account settles to a record whose
    balance is [undefined]. *)
Theorem empty_balances_keep_the_account W this session batch accountId_ index m
        td details response mb :
  let m0 := logged m [processingLine batch accountId_ index] in
  settlement (getAccountDetails W this accountId_) m0 = settled td (fulfilled details) ->
  get W this GET_balances ("/accounts/" ++ accountId_ ++ "/balances") None
      (afterCall W this m0) = (Returned response, mb) ->
  balances response = [] ->
  N.max (clock m) (N.max td (clock mb)) < clock m + ACCOUNT_TIMEOUT ->
  itemOutcome (clock m) accountId_
    (settlement (accountPromise W this session batch accountId_ index) m)
  = fulfilled {| provided := provided details;
                 institution := Some (aspsp session);
                 valid_until := Some (access_valid_until (access session));
                 balance := None |}.
Proof.
  cbv zeta. intros Hd Hg He Ht.
  apply (item_fulfilled_iff this W session batch accountId_ index m).
  exists td, details, (clock mb), None. split; [exact Hd|]. split; [|split; [exact Ht|reflexivity]].
  unfold settlement, getAccountBalance, bind.
  now rewrite Hg, (highestBalance_empty response He).
Qed.

Lemma empty_balances_account_witness :
  let session := sessionOf ["e"] in
  let m0 := logged boot [processingLine ["e"] "e" 0] in
  let details := {| provided := [("resource", "/accounts/e/details")];
                    institution := None; valid_until := None; balance := None |} in
  let response := {| balances := [] |} in
  let mb := snd (get tieBank api GET_balances ("/accounts/" ++ "e" ++ "/balances") None
                   (afterCall tieBank api m0)) in
  settlement (getAccountDetails tieBank api "e") m0
  = settled 1700000000300 (fulfilled details)
  /\ get tieBank api GET_balances ("/accounts/" ++ "e" ++ "/balances") None
       (afterCall tieBank api m0) = (Returned response, mb)
  /\ balances response = []
  /\ N.max (clock boot) (N.max 1700000000300 (clock mb)) < clock boot + ACCOUNT_TIMEOUT
  /\ itemOutcome (clock boot) "e"
       (settlement (accountPromise tieBank api session ["e"] "e" 0) boot)
     = fulfilled {| provided := provided details;
                    institution := Some (aspsp session);
                    valid_until := Some (access_valid_until (access session));
                    balance := None |}.
Proof.
  cbv zeta.
  assert (Hd : settlement (getAccountDetails tieBank api "e")
                 (logged boot [processingLine ["e"] "e" 0])
               = settled 1700000000300
                   (fulfilled {| provided := [("resource", "/accounts/e/details")];
                                 institution := None; valid_until := None;
                                 balance := None |}))
    by (vm_compute; reflexivity).
  assert (Hg : get tieBank api GET_balances ("/accounts/" ++ "e" ++ "/balances") None
                 (afterCall tieBank api (logged boot [processingLine ["e"] "e" 0]))
               = (Returned {| balances := [] |},
                  snd (get tieBank api GET_balances ("/accounts/" ++ "e" ++ "/balances") None
                         (afterCall tieBank api (logged boot [processingLine ["e"] "e" 0])))))
    by (vm_compute; reflexivity).
  assert (Ht : N.max (clock boot)
                 (N.max 1700000000300
                    (clock (snd (get tieBank api GET_balances
                                   ("/accounts/" ++ "e" ++ "/balances") None
                                   (afterCall tieBank api
                                      (logged boot [processingLine ["e"] "e" 0]))))))
               < clock boot + ACCOUNT_TIMEOUT)
    by (vm_compute; reflexivity).
  split; [exact Hd|]. split; [exact Hg|]. split; [reflexivity|]. split; [exact Ht|].
  exact (empty_balances_keep_the_account tieBank api (sessionOf ["e"]) ["e"] "e" 0%nat boot
           _ _ _ _ Hd Hg eq_refl Ht).
Defined.

(** The whole fetch on that bank: one account, returned without a balance. *)
Example account_without_balance :
  fst (getAccounts tieBank api "S" boot)
  = Returned [{| provided := [("resource", "/accounts/e/details")];
                 institution := Some nordic;
                 valid_until := Some "2025-12-31";
                 balance := None |}].
Proof. vm_compute. reflexivity. Qed.

End AccountsFetchMore.

(* ===================================================================== *)
(** * 15. More on the representative balance                               *)
(* ===================================================================== *)

Module BalanceSelection.

Import EnableBanking Vocabulary Examples MoreExamples AdapterFacts.

Lemma gt_trans (x y z : number) : gt x y = true -> gt y z = true -> gt x z = true.
Proof. unfold gt. intros Hxy Hyz. exact (NumberFacts.lt_trans z y x Hyz Hxy). Qed.

Lemma gt_after (r m c : number) :
  gt r m = true -> gt c m = false -> isNaN c = false -> gt r c = true.
Proof. NumberFacts.by_cases. Qed.

Lemma gt_NaN (x y : number) : isNaN y = true -> gt x y = false.
Proof. NumberFacts.by_cases. Qed.

Lemma reduce_first_highest : forall xs m,
  (forall e, In e xs -> isNaN (amountOf e) = false) ->
  exists r,
    reduce higher xs (Some m) = inr (Some r)
    /\ ((r = m /\ forall e, In e xs -> gt (amountOf e) (amountOf m) = false)
        \/ exists pre post,
             xs = (pre ++ r :: post)%list
             /\ gt (amountOf r) (amountOf m) = true
             /\ (forall e, In e pre -> gt (amountOf r) (amountOf e) = true)
             /\ (forall e, In e post -> gt (amountOf e) (amountOf r) = false)).
Proof.
  induction xs as [|c xs IH]; intros m Hnum.
  - exists m. split; [reflexivity|]. left. split; [reflexivity|]. intros e [].
  - assert (Hxs : forall e, In e xs -> isNaN (amountOf e) = false)
      by (intros e He; apply Hnum; now right).
    assert (Hc : isNaN (amountOf c) = false) by (apply Hnum; now left).
    cbn [reduce higher]. fold (amountOf c). fold (amountOf m).
    destruct (gt (amountOf c) (amountOf m)) eqn:G.
    + destruct (IH c Hxs) as (r & E & [[-> Hall]|(pre & post & -> & Grc & Hpre & Hpost)]).
      * exists c. split; [exact E|]. right. exists [], xs.
        split; [reflexivity|]. split; [exact G|]. split; [intros e []|exact Hall].
      * exists r. split; [exact E|]. right. exists (c :: pre), post.
        split; [reflexivity|]. split; [eapply gt_trans; eassumption|]. split; [|exact Hpost].
        intros e [<-|He]; [exact Grc|now apply Hpre].
    + destruct (IH m Hxs) as (r & E & [[-> Hall]|(pre & post & -> & Grm & Hpre & Hpost)]).
      * exists m. split; [exact E|]. left. split; [reflexivity|].
        intros e [<-|He]; [exact G|now apply Hall].
      * exists r. split; [exact E|]. right. exists (c :: pre), post.
        split; [reflexivity|]. split; [exact Grm|]. split; [|exact Hpost].
        intros e [<-|He]; [now apply (gt_after _ (amountOf m))|now apply Hpre].
Qed.

Lemma reduce_unreadable_first : forall xs m,
  isNaN (amountOf m) = true -> reduce higher xs (Some m) = inr (Some m).
Proof.
  induction xs as [|c xs IH]; intros m Hm; [reflexivity|].
  cbn [reduce higher]. fold (amountOf c). fold (amountOf m).
  rewrite (gt_NaN _ _ Hm). now apply IH.
Qed.

(** X9.  Among balances whose amounts all parse to numbers, the entry
    returned is the first of those with the highest amount: every entry
    before it in the provider's list is strictly lower, every entry after it
    is lower or equal. *)
Theorem first_of_the_highest_is_returned W this accountId_ m response m' :
  get W this GET_balances ("/accounts/" ++ accountId_ ++ "/balances") None m
  = (Returned response, m') ->
  balances response <> [] ->
  (forall b, In b (balances response) -> isNaN (amountOf b) = false) ->
  exists pre r post,
    getAccountBalance W this accountId_ m = (Returned (Some r), m')
    /\ balances response = (pre ++ r :: post)%list
    /\ (forall e, In e pre -> gt (amountOf r) (amountOf e) = true)
    /\ (forall e, In e post -> ge (amountOf r) (amountOf e) = true).
Proof.
  intros Hget Hne Hnum.
  assert (Hrun : forall r, highestBalance response = inr (Some r) ->
                 getAccountBalance W this accountId_ m = (Returned (Some r), m')).
  { intros r E. unfold getAccountBalance, bind. now rewrite Hget, E. }
  unfold highestBalance in Hrun.
  destruct (balances response) as [|b0 rest] eqn:Eb; [congruence|]. cbn [nth_error] in Hrun.
  destruct (reduce_first_highest (b0 :: rest) b0 Hnum)
    as (r & E & [[-> Hall]|(pre & post & Hsplit & _ & Hpre & Hpost)]).
  - exists [], b0, rest. split; [now apply Hrun|]. split; [reflexivity|]. split.
    + intros e [].
    + intros e He. apply NumberFacts.not_gt_ge.
      * apply Hnum. now right.
      * apply Hnum. now left.
      * apply Hall. now right.
  - exists pre, r, post. split; [now apply Hrun|]. split; [exact Hsplit|]. split; [exact Hpre|].
    intros e He. apply NumberFacts.not_gt_ge.
    + apply Hnum. rewrite Hsplit. apply in_or_app. right. now right.
    + apply Hnum. rewrite Hsplit. apply in_or_app. right. now left.
    + now apply Hpost.
Qed.

Lemma first_of_the_highest_witness :
  let m' := {| clock := 1700000000200; console := []; draws := 4 |} in
  get tieBank api GET_balances ("/accounts/" ++ "t" ++ "/balances") None boot
  = (Returned tied, m')
  /\ balances tied <> []
  /\ (forall b, In b (balances tied) -> isNaN (amountOf b) = false)
  /\ exists pre r post,
       getAccountBalance tieBank api "t" boot = (Returned (Some r), m')
       /\ balances tied = (pre ++ r :: post)%list
       /\ (forall e, In e pre -> gt (amountOf r) (amountOf e) = true)
       /\ (forall e, In e post -> ge (amountOf r) (amountOf e) = true).
Proof.
  cbv zeta.
  assert (H1 : get tieBank api GET_balances ("/accounts/" ++ "t" ++ "/balances") None boot
               = (Returned tied, {| clock := 1700000000200; console := []; draws := 4 |}))
    by (vm_compute; reflexivity).
  assert (H2 : balances tied <> []) by discriminate.
  assert (H3 : forall b, In b (balances tied) -> isNaN (amountOf b) = false)
    by (intros b [<-|[<-|[<-|[<-|[]]]]]; vm_compute; reflexivity).
  split; [exact H1|]. split; [exact H2|]. split; [exact H3|].
  exact (first_of_the_highest_is_returned tieBank api "t" boot _ _ H1 H2 H3).
Defined.

(** Of the three entries worth 100 the first one, [CLAV], is returned. *)
Example tie_goes_to_the_first :
  fst (getAccountBalance tieBank api "t" boot) = Returned (Some (eur "100" "CLAV")).
Proof. vm_compute. reflexivity. Qed.

(** X10.  When the amount of the first entry does not parse to a number,
    the first entry is returned whatever the other entries hold. *)
Theorem unreadable_first_amount_is_returned W this accountId_ m response m' first rest :
  get W this GET_balances ("/accounts/" ++ accountId_ ++ "/balances") None m
  = (Returned response, m') ->
  balances response = first :: rest ->
  isNaN (amountOf first) = true ->
  getAccountBalance W this accountId_ m = (Returned (Some first), m').
Proof.
  intros Hget Hb Hn. unfold getAccountBalance, bind, highestBalance.
  rewrite Hget, Hb. cbn [nth_error].
  now rewrite (reduce_unreadable_first (first :: rest) first Hn).
Qed.

Lemma unreadable_first_witness :
  let m' := {| clock := 1700000000200; console := []; draws := 4 |} in
  get tieBank api GET_balances ("/accounts/" ++ "u" ++ "/balances") None boot
  = (Returned unreadable, m')
  /\ balances unreadable = eur "n/a" "CLAV" :: [eur "5" "CLBD"; eur "900" "XPCD"]
  /\ isNaN (amountOf (eur "n/a" "CLAV")) = true
  /\ getAccountBalance tieBank api "u" boot = (Returned (Some (eur "n/a" "CLAV")), m').
Proof.
  cbv zeta.
  assert (H1 : get tieBank api GET_balances ("/accounts/" ++ "u" ++ "/balances") None boot
               = (Returned unreadable, {| clock := 1700000000200; console := []; draws := 4 |}))
    by (vm_compute; reflexivity).
  split; [exact H1|]. split; [reflexivity|]. split; [reflexivity|].
  exact (unreadable_first_amount_is_returned tieBank api "u" boot _ _ _ _ H1 eq_refl eq_refl).
Defined.

(** White space before an amount is skipped, also when it is not ASCII: a
    no-break space (U+00A0), a line separator (U+2028), a byte order mark
    (U+FEFF).  The zero width space (U+200B) is no white space. *)
Example amounts_after_unicode_space :
  JS.parseFloat (String "194"%char (String "160"%char "5")) = JS.parseFloat "5"
  /\ JS.parseFloat (String "226"%char (String "128"%char (String "168"%char "2.5")))
     = JS.parseFloat "2.5"
  /\ JS.parseFloat (String "239"%char (String "187"%char (String "191"%char " 7")))
     = JS.parseFloat "7"
  /\ JS.isNaN (JS.parseFloat (String "226"%char (String "128"%char (String "139"%char "5"))))
     = true.
Proof. repeat split; vm_compute; reflexivity. Qed.

(** An amount of 5 written after a no-break space is a number, and the
    entry worth 7 that follows it is the one selected. *)
Example amount_after_no_break_space :
  highestBalance
    {| balances := [eur (String "194"%char (String "160"%char "5")) "CLAV"; eur "7" "CLBD"] |}
  = inr (Some (eur "7" "CLBD")).
Proof. vm_compute. reflexivity. Qed.

End BalanceSelection.

(* ===================================================================== *)
(** * 16. How the token is used                                            *)
(* ===================================================================== *)

Module TokenUse.

Import EnableBanking Vocabulary Examples MoreExamples AdapterFacts.

Section Draws.

Variable W : World.
Variable this : EnableBankingApi.

Hypothesis signs : forall data, exists signature,
  sign_RS256 W (keyContent this) data = inr signature.

Lemma afterCall_signed m : afterCall W this m = drawn m 4.
Proof.
  unfold afterCall. destruct (signs (signingInput this (clock m))) as [sg ->]. reflexivity.
Qed.

Variable session : GetSessionResponse.

Lemma mapIndexed_draws batch : forall ids index m,
  draws (snd (mapIndexed (processAccount W this session batch) ids index m))
  = draws m + 8 * N.of_nat (List.length ids).
Proof.
  induction ids as [|i ids IH]; intros index m.
  - cbn. lia.
  - pose proof (processAccount_machine this W session batch i index m) as Hm.
    destruct (processAccount_run W this session batch i index m) as (m1 & E1 & _).
    rewrite E1 in Hm. cbn [snd] in Hm. rewrite !afterCall_signed in Hm.
    specialize (IH (S index) m1).
    destruct (mapIndexed_prefix W this session batch ids (S index) m1) as (items & m2 & E2).
    rewrite E2 in IH. cbn [snd] in IH.
    cbn [mapIndexed]. unfold bind at 1. rewrite E1. unfold bind at 1. rewrite E2.
    cbn [ret snd]. rewrite IH, Hm. cbn [drawn logged draws List.length]. lia.
Qed.

Lemma runBatch_draws batch m :
  draws (snd (runBatch W this session batch m))
  = draws m + 8 * N.of_nat (List.length batch).
Proof.
  pose proof (mapIndexed_draws batch batch 0%nat m) as H.
  destruct (mapIndexed_prefix W this session batch batch 0%nat m) as (items & m1 & E1).
  rewrite E1 in H. cbn [snd] in H.
  unfold runBatch, processAccountBatch. unfold bind at 1. unfold bind at 1. rewrite E1.
  cbv [bind Date_now ret await].
  destruct (Promise_allSettled (clock m1) items) as [|t [rs|e]]; cbn [snd draws]; exact H.
Qed.

Lemma forBatches_draws : forall accountBatches allResults m,
  draws (snd (forBatches W this session accountBatches allResults m))
  = draws m + 8 * N.of_nat (List.length (List.concat accountBatches)).
Proof.
  induction accountBatches as [|batch rest IH]; intros allResults m.
  - cbn. lia.
  - pose proof (runBatch_draws batch m) as Hb.
    destruct (runBatch_run W this session batch m) as (rs & m1 & E1 & _).
    rewrite E1 in Hb. cbn [snd] in Hb.
    cbn [forBatches]. unfold bind. rewrite E1.
    rewrite (IH (allResults ++ rs)%list m1), Hb.
    cbn [List.concat]. rewrite length_app. lia.
Qed.

End Draws.

(** X11.  The encoding of a token segment can be undone: what
    [#encodeData] yields is over the URL-safe alphabet, decodes to the object
    it was given, and so differs for different objects. *)
Theorem encodeData_is_reversible (data : JS.JSONObject) :
  Base64Url.urlSafe (encodeData data) = true
  /\ Reader.decodeSegment (encodeData data) = Some data
  /\ forall data', encodeData data' = encodeData data -> data' = data.
Proof.
  unfold encodeData. split; [apply Base64UrlFacts.encode_urlSafe|].
  split; [apply ReaderFacts.decodeSegment_encode|].
  intros data' E.
  pose proof (ReaderFacts.decodeSegment_encode data') as H'.
  rewrite E, ReaderFacts.decodeSegment_encode in H'. congruence.
Qed.

(** X12.  No token is kept between calls.  When the key signs, the request
    sent by [#get] at [clock m] goes to the provider's base URL through its
    own client, whose timeout is 30 s, and its bearer is the token
    [#generateJWT] yields at that moment: three segments, the second
    decoding to claims issued in the second the request is sent. *)
Theorem every_request_bears_a_fresh_token {T} W this
    (endpoint : World -> Request -> Reply T) path_ params_ m signature :
  sign_RS256 W (keyContent this) (signingInput this (clock m)) = inr signature ->
  exists request jwt header body sig,
    get W this endpoint path_ params_ m
    = await (xior_request (client request) (clock m) (endpoint W request)) (drawn m 4)
    /\ sent_at request = clock m
    /\ path request = path_
    /\ params request = params_
    /\ baseURL (client request) = "https://api.enablebanking.com"
    /\ timeout (client request) = 30000
    /\ client_headers (client request)
       = [("Accept", "application/json"); ("Authorization", "Bearer " ++ jwt)]
    /\ generateJWT W this m = (Returned jwt, m)
    /\ Reader.split "." jwt = [header; body; sig]
    /\ Reader.decodeSegment body = Some (claimsAt (sent_at request)).
Proof.
  intros Hsign.
  exists (requestOf W m (signingInput this (clock m) ++ "." ++ Base64Url.encode signature)
            path_ params_),
         (signingInput this (clock m) ++ "." ++ Base64Url.encode signature),
         (Base64Url.encode (JS.JSON_stringify (headerOf this))),
         (Base64Url.encode (JS.JSON_stringify (claimsAt (clock m)))),
         (Base64Url.encode signature).
  split; [rewrite get_run, Hsign, xior_request_answered; reflexivity|].
  do 6 (split; [reflexivity|]).
  split; [rewrite generateJWT_run, Hsign; reflexivity|].
  split.
  - unfold signingInput. rewrite !append_assoc. cbn [append].
    rewrite !ReaderFacts.urlSafe_split_app by apply Base64UrlFacts.encode_urlSafe.
    now rewrite ReaderFacts.urlSafe_split_one by apply Base64UrlFacts.encode_urlSafe.
  - apply ReaderFacts.decodeSegment_encode.
Qed.

Lemma fresh_token_witness :
  sign_RS256 bank (keyContent api) (signingInput api (clock boot)) = inr "signature"
  /\ exists request jwt header body sig,
       get bank api GET_session "/sessions/S1" None boot
       = await (xior_request (client request) (clock boot) (GET_session bank request))
           (drawn boot 4)
       /\ sent_at request = clock boot
       /\ path request = "/sessions/S1"
       /\ params request = None
       /\ baseURL (client request) = "https://api.enablebanking.com"
       /\ timeout (client request) = 30000
       /\ client_headers (client request)
          = [("Accept", "application/json"); ("Authorization", "Bearer " ++ jwt)]
       /\ generateJWT bank api boot = (Returned jwt, boot)
       /\ Reader.split "." jwt = [header; body; sig]
       /\ Reader.decodeSegment body = Some (claimsAt (sent_at request)).
Proof.
  split; [reflexivity|].
  exact (every_request_bears_a_fresh_token bank api GET_session "/sessions/S1" None boot
           "signature" eq_refl).
Defined.

(** X13.  With a key that does not sign, no request leaves: each call of
    the class throws the signing error at once, having written the one
    signing line and drawn no random number, and [getAccounts] rethrows it
    after its own error line. *)
Theorem unsignable_key_stops_every_call W this m e :
  sign_RS256 W (keyContent this) (signingInput this (clock m)) = inl e ->
  let m' := logged m [signingErrorLine e] in
  (forall sessionId, getSession W this sessionId m = (Thrown e, m'))
  /\ (forall accountId_, getAccountDetails W this accountId_ m = (Thrown e, m'))
  /\ (forall accountId_, getAccountBalance W this accountId_ m = (Thrown e, m'))
  /\ (forall request, getTransactions W this request m = (Thrown e, m'))
  /\ (forall id, getAccounts W this id m
                 = (Thrown e, logged m [gettingLine id; signingErrorLine e; rethrownLine id e])).
Proof.
  intros Hsign m'.
  assert (Hget : forall T (endpoint : World -> Request -> Reply T) path_ params_ l,
            get W this endpoint path_ params_ (logged m l)
            = (Thrown e, logged (logged m l) [signingErrorLine e])).
  { intros. rewrite get_run. cbn [logged clock]. now rewrite Hsign. }
  assert (Hget0 : forall T (endpoint : World -> Request -> Reply T) path_ params_,
            get W this endpoint path_ params_ m = (Thrown e, m')).
  { intros. rewrite get_run. now rewrite Hsign. }
  split; [intros; apply Hget0|]. split; [intros; apply Hget0|].
  split; [intros; unfold getAccountBalance, bind; now rewrite Hget0|].
  split.
  - intros request. unfold getTransactions, transactionParams.
    destruct (truthy (latest_flag request));
      cbv [bind new_Date ret]; apply Hget0.
  - intros id.
    rewrite (AccountsFetchMore.getAccounts_session_thrown W this id m e
               (logged (logged m [gettingLine id]) [signingErrorLine e])).
    + unfold logged. cbn [clock console draws]. now rewrite <- !app_assoc.
    + apply Hget.
Qed.

Lemma unsignable_key_witness :
  sign_RS256 lockedBank (keyContent api) (signingInput api (clock boot)) = inl keyError
  /\ let m' := logged boot [signingErrorLine keyError] in
     (forall sessionId, getSession lockedBank api sessionId boot = (Thrown keyError, m'))
     /\ (forall accountId_, getAccountDetails lockedBank api accountId_ boot = (Thrown keyError, m'))
     /\ (forall accountId_, getAccountBalance lockedBank api accountId_ boot = (Thrown keyError, m'))
     /\ (forall request, getTransactions lockedBank api request boot = (Thrown keyError, m'))
     /\ (forall id, getAccounts lockedBank api id boot
                    = (Thrown keyError,
                       logged boot [gettingLine id; signingErrorLine keyError;
                                    rethrownLine id keyError])).
Proof.
  split; [reflexivity|].
  exact (unsignable_key_stops_every_call lockedBank api boot keyError eq_refl).
Defined.

(** X14.  With a key that signs, a fetch over a session of [N] accounts
    draws [Math.random] four times for each of [1 + 2 N] requests: one for
    the session and two for every account, whether the account succeeds,
    fails or times out; nothing is retried and nothing is skipped. *)
Theorem two_requests_per_account W this id m session m1 :
  (forall data, exists signature, sign_RS256 W (keyContent this) data = inr signature) ->
  getSession W this id (logged m [gettingLine id]) = (Returned session, m1) ->
  draws (snd (getAccounts W this id m))
  = draws m + 4 * (1 + 2 * N.of_nat (List.length (accounts session))).
Proof.
  intros Hsign H1.
  destruct (forBatches_run W this session (makeBatches (accounts session)) []
              (logged m1 [foundLine session])) as (rs & m2 & E2 & _).
  cbn [app] in E2.
  pose proof (getAccounts_run W this id m session m1 rs m2 H1 E2) as Hrun.
  cbv zeta in Hrun.
  pose proof (forBatches_draws W this Hsign session (makeBatches (accounts session)) []
                (logged m1 [foundLine session])) as Hd.
  rewrite E2 in Hd. cbn [snd logged draws] in Hd.
  rewrite makeBatches_chunks, concat_chunks in Hd
    by (unfold MAX_CONCURRENT; lia).
  destruct (get_machine this W GET_session ("/sessions/" ++ id) None (logged m [gettingLine id]))
    as [_ Hs].
  unfold getSession in H1. rewrite H1 in Hs. cbn [snd] in Hs.
  rewrite (afterCall_signed W this Hsign) in Hs. cbn [drawn logged draws] in Hs.
  rewrite Hrun.
  destruct (successes rs); cbn [snd logged draws]; lia.
Qed.

Lemma two_requests_witness :
  let session := sessionOf ["a"; "b"; "c"] in
  let m1 := snd (getSession bank api "S1" (logged boot [gettingLine "S1"])) in
  (forall data, exists signature, sign_RS256 bank (keyContent api) data = inr signature)
  /\ getSession bank api "S1" (logged boot [gettingLine "S1"]) = (Returned session, m1)
  /\ draws (snd (getAccounts bank api "S1" boot))
     = draws boot + 4 * (1 + 2 * N.of_nat (List.length (accounts session))).
Proof.
  cbv zeta.
  assert (H0 : forall data, exists signature,
             sign_RS256 bank (keyContent api) data = inr signature)
    by (intros data; eexists; reflexivity).
  assert (H1 : getSession bank api "S1" (logged boot [gettingLine "S1"])
               = (Returned (sessionOf ["a"; "b"; "c"]),
                  snd (getSession bank api "S1" (logged boot [gettingLine "S1"]))))
    by (vm_compute; reflexivity).
  split; [exact H0|]. split; [exact H1|].
  exact (two_requests_per_account bank api "S1" boot _ _ H0 H1).
Defined.

End TokenUse.

(* ===================================================================== *)
(** * 17. Code exchange and health check                                   *)
(* ===================================================================== *)

Module ConnectionFacts.

Import EnableBanking Connection Vocabulary Examples MoreExamples AdapterFacts.

Lemma post_run W this {T} (endpoint : PostRequest -> Reply T) path_ body_ m :
  post W this endpoint path_ body_ m
  = match sign_RS256 W (keyContent this) (signingInput this (clock m)) with
    | inr signature =>
        let jwt := signingInput this (clock m) ++ "." ++ Base64Url.encode signature in
        await (answered (clock m) (endpoint (postOf m jwt path_ body_))) m
    | inl e => (Thrown e, logged m [signingErrorLine e])
    end.
Proof.
  unfold post, getApi. unfold bind at 1. unfold bind at 1.
  rewrite generateJWT_run.
  destruct (sign_RS256 W (keyContent this) (signingInput this (clock m))) as [e|signature];
    [reflexivity|].
  cbv [bind ret Date_now]. now rewrite xior_request_answered.
Qed.

(** X15.  Whatever goes wrong in [exchangeCode] is logged and then reported
    as a [ProviderError] with the message [Failed to exchange code], whose
    code is the one found in the failed answer, else [ENABLEBANKING_ERROR].
    The cause is one of four: the key did not sign, the bank rejected the
    request, the bank did not answer before the client's timeout of 30 s, or
    the bank's answer could not be transformed. *)
Theorem exchange_failures_are_wrapped W S this (SessionData : Type)
    (transformSessionData : Fields -> Error + SessionData)
    (responseDataError : Error -> option string) code m e m' :
  exchangeCode W S this SessionData transformSessionData responseDataError code m
  = (Thrown e, m') ->
  let signed := sign_RS256 W (keyContent this) (signingInput this (clock m)) in
  let call signature :=
    POST_sessions S
      (postOf m (signingInput this (clock m) ++ "." ++ Base64Url.encode signature)
         "/sessions" {| body_code := code |}) in
  exists cause before,
    e = new_ProviderError "Failed to exchange code"
          (orElse (responseDataError cause) "ENABLEBANKING_ERROR")
    /\ m' = logged before [loggedError cause]
    /\ (signed = inl cause
        \/ (exists signature d,
              signed = inr signature
              /\ call signature = replies d (rejected cause)
              /\ d < 30000)
        \/ (exists signature,
              signed = inr signature
              /\ cause = new_XiorTimeoutError 30000
              /\ clock m' = clock m + 30000
              /\ (call signature = silent
                  \/ exists d x, call signature = replies d x /\ 30000 <= d))
        \/ (exists signature d response,
              signed = inr signature
              /\ call signature = replies d (fulfilled response)
              /\ d < 30000
              /\ transformSessionData response = inl cause)).
Proof.
  cbv zeta. unfold exchangeCode, try_catch. unfold bind at 1. rewrite post_run.
  destruct (sign_RS256 W (keyContent this) (signingInput this (clock m))) as [c|signature].
  - cbv [bind console_log_error write throw]. intros H. injection H as <- <-.
    exists c, (logged m [signingErrorLine c]). split; [reflexivity|]. split; [reflexivity|].
    now left.
  - cbv zeta. unfold await, answered.
    destruct (POST_sessions S _) as [|d [response|c]] eqn:Ep.
    + cbv [bind console_log_error write throw]. intros H. injection H as <- <-.
      exists (new_XiorTimeoutError 30000),
             {| clock := N.max (clock m) (clock m + 30000);
                console := console m; draws := draws m |}.
      split; [reflexivity|]. split; [reflexivity|].
      right. right. left. exists signature. cbn [logged clock].
      repeat split; [lia|now left].
    + destruct (N.ltb_spec d 30000) as [Hd|Hd].
      * destruct (transformSessionData response) as [c|v] eqn:Et; cbn [lift].
        -- cbv [bind console_log_error write throw]. intros H. injection H as <- <-.
           exists c, {| clock := N.max (clock m) (clock m + d);
                        console := console m; draws := draws m |}.
           split; [reflexivity|]. split; [reflexivity|].
           right. right. right. now exists signature, d, response.
        -- discriminate.
      * cbv [bind console_log_error write throw]. intros H. injection H as <- <-.
        exists (new_XiorTimeoutError 30000),
               {| clock := N.max (clock m) (clock m + 30000);
                  console := console m; draws := draws m |}.
        split; [reflexivity|]. split; [reflexivity|].
        right. right. left. exists signature. cbn [logged clock].
        repeat split; [lia|right; eauto].
    + destruct (N.ltb_spec d 30000) as [Hd|Hd].
      * cbv [bind console_log_error write throw]. intros H. injection H as <- <-.
        exists c, {| clock := N.max (clock m) (clock m + d);
                     console := console m; draws := draws m |}.
        split; [reflexivity|]. split; [reflexivity|].
        right. left. now exists signature, d.
      * cbv [bind console_log_error write throw]. intros H. injection H as <- <-.
        exists (new_XiorTimeoutError 30000),
               {| clock := N.max (clock m) (clock m + 30000);
                  console := console m; draws := draws m |}.
        split; [reflexivity|]. split; [reflexivity|].
        right. right. left. exists signature. cbn [logged clock].
        repeat split; [lia|right; eauto].
Qed.

Lemma exchange_failure_witness :
  let m' := snd (exchangeCode bank services api Fields inr dataError "used" boot) in
  let signed := sign_RS256 bank (keyContent api) (signingInput api (clock boot)) in
  let call signature :=
    POST_sessions services
      (postOf boot (signingInput api (clock boot) ++ "." ++ Base64Url.encode signature)
         "/sessions" {| body_code := "used" |}) in
  exchangeCode bank services api Fields inr dataError "used" boot
  = (Thrown (new_ProviderError "Failed to exchange code" "ALREADY_AUTHORIZED"), m')
  /\ exists cause before,
       new_ProviderError "Failed to exchange code" "ALREADY_AUTHORIZED"
       = new_ProviderError "Failed to exchange code"
           (orElse (dataError cause) "ENABLEBANKING_ERROR")
       /\ m' = logged before [loggedError cause]
       /\ (signed = inl cause
           \/ (exists signature d,
                 signed = inr signature
                 /\ call signature = replies d (rejected cause)
                 /\ d < 30000)
           \/ (exists signature,
                 signed = inr signature
                 /\ cause = new_XiorTimeoutError 30000
                 /\ clock m' = clock boot + 30000
                 /\ (call signature = silent
                     \/ exists d x, call signature = replies d x /\ 30000 <= d))
           \/ (exists signature d response,
                 signed = inr signature
                 /\ call signature = replies d (fulfilled response)
                 /\ d < 30000
                 /\ @inr Error Fields response = inl cause)).
Proof.
  cbv zeta.
  assert (H : exchangeCode bank services api Fields inr dataError "used" boot
              = (Thrown (new_ProviderError "Failed to exchange code" "ALREADY_AUTHORIZED"),
                 snd (exchangeCode bank services api Fields inr dataError "used" boot)))
    by (vm_compute; reflexivity).
  split; [exact H|].
  exact (exchange_failures_are_wrapped bank services api Fields inr dataError "used" boot _ _ H).
Defined.

(** A signing error carries no answer of the bank: the default code is used. *)
Example exchange_with_a_locked_key :
  fst (exchangeCode lockedBank services api Fields inr dataError "fresh" boot)
  = Thrown (new_ProviderError "Failed to exchange code" "ENABLEBANKING_ERROR").
Proof. vm_compute. reflexivity. Qed.

(** So does the client's timeout, 30 s after a code the bank leaves
    unanswered. *)
Example exchange_left_unanswered :
  exchangeCode bank services api Fields inr dataError "lost" boot
  = (Thrown (new_ProviderError "Failed to exchange code" "ENABLEBANKING_ERROR"),
     {| clock := 1700000030000;
        console := [loggedError (new_XiorTimeoutError 30000)];
        draws := 0 |}).
Proof. vm_compute. reflexivity. Qed.

(** X16.  [exchangeCode] returns only what [transformSessionData] made of an
    answer the bank gave, in less than the client's 30 s, to [POST /sessions]
    with the code as body, and logs nothing on that path. *)
Theorem exchanged_code_is_the_transformed_answer W S this (SessionData : Type)
    (transformSessionData : Fields -> Error + SessionData)
    (responseDataError : Error -> option string) code m data m' :
  exchangeCode W S this SessionData transformSessionData responseDataError code m
  = (Returned data, m') ->
  exists signature d response,
    sign_RS256 W (keyContent this) (signingInput this (clock m)) = inr signature
    /\ POST_sessions S
         (postOf m (signingInput this (clock m) ++ "." ++ Base64Url.encode signature)
            "/sessions" {| body_code := code |})
       = replies d (fulfilled response)
    /\ d < 30000
    /\ transformSessionData response = inr data
    /\ clock m' = clock m + d
    /\ console m' = console m.
Proof.
  unfold exchangeCode, try_catch. unfold bind at 1. rewrite post_run.
  destruct (sign_RS256 W (keyContent this) (signingInput this (clock m))) as [c|signature].
  - cbv [bind console_log_error write throw]. discriminate.
  - cbv zeta. unfold await, answered.
    destruct (POST_sessions S _) as [|d [response|c]] eqn:Ep.
    + cbv [bind console_log_error write throw]. discriminate.
    + destruct (N.ltb_spec d 30000) as [Hd|Hd].
      * destruct (transformSessionData response) as [c|v] eqn:Et; cbn [lift].
        -- cbv [bind console_log_error write throw]. discriminate.
        -- cbv [ret]. intros H. injection H as <- <-.
           exists signature, d, response. cbn [clock console]. repeat split; auto. lia.
      * cbv [bind console_log_error write throw]. discriminate.
    + destruct (d <? 30000); cbv [bind console_log_error write throw]; discriminate.
Qed.

Lemma exchanged_code_witness :
  let data := [("session_id", "S1"); ("code", "fresh")] in
  let m' := snd (exchangeCode bank services api Fields inr dataError "fresh" boot) in
  exchangeCode bank services api Fields inr dataError "fresh" boot = (Returned data, m')
  /\ exists signature d response,
       sign_RS256 bank (keyContent api) (signingInput api (clock boot)) = inr signature
       /\ POST_sessions services
            (postOf boot (signingInput api (clock boot) ++ "." ++ Base64Url.encode signature)
               "/sessions" {| body_code := "fresh" |})
          = replies d (fulfilled response)
       /\ d < 30000
       /\ @inr Error Fields response = inr data
       /\ clock m' = clock boot + d
       /\ console m' = console boot.
Proof.
  cbv zeta.
  assert (H : exchangeCode bank services api Fields inr dataError "fresh" boot
              = (Returned [("session_id", "S1"); ("code", "fresh")],
                 snd (exchangeCode bank services api Fields inr dataError "fresh" boot)))
    by (vm_compute; reflexivity).
  split; [exact H|].
  exact (exchanged_code_is_the_transformed_answer bank services api Fields inr dataError
           "fresh" boot _ _ H).
Defined.

(** X17.  The health check never throws and never stays pending.  It is
    [true] exactly when the key signed and the bank fulfilled
    [GET /application] in less than the client's timeout of 30 s; it is
    [false] in every other case: the key did not sign, the bank rejected the
    request, or no answer came before the timeout.  It ends no later than
    30 s after it was called. *)
Theorem health_check_never_throws W S this m :
  let call signature :=
    GET_application S
      (requestOf W m (signingInput this (clock m) ++ "." ++ Base64Url.encode signature)
         "/application" None) in
  let signed := sign_RS256 W (keyContent this) (signingInput this (clock m)) in
  (forall e, fst (getHealthCheck W S this m) <> Thrown e)
  /\ fst (getHealthCheck W S this m) <> Suspended
  /\ clock (snd (getHealthCheck W S this m)) <= clock m + 30000
  /\ (fst (getHealthCheck W S this m) = Returned true
      <-> exists signature d v,
            signed = inr signature /\ call signature = replies d (fulfilled v) /\ d < 30000)
  /\ (fst (getHealthCheck W S this m) = Returned false
      <-> (exists e, signed = inl e)
          \/ exists signature,
               signed = inr signature
               /\ (call signature = silent
                   \/ (exists d e, call signature = replies d (rejected e))
                   \/ (exists d x, call signature = replies d x /\ 30000 <= d))).
Proof.
  cbv zeta. unfold getHealthCheck, try_catch. unfold bind.
  rewrite get_run.
  destruct (sign_RS256 W (keyContent this) (signingInput this (clock m))) as [c|signature].
  - cbn [fst snd ret logged clock]. split; [discriminate|]. split; [discriminate|].
    split; [lia|]. split.
    + split; [discriminate|]. intros (? & ? & ? & H & _). discriminate H.
    + split; [eauto|reflexivity].
  - cbv zeta. unfold await, answered.
    destruct (GET_application S _) as [|d [v|c]] eqn:Ec;
      [|destruct (N.ltb_spec d 30000) as [Hd|Hd]..];
      cbn [fst snd ret drawn clock];
      (split; [discriminate|]); (split; [discriminate|]); (split; [lia|]); split;
      split;
      try discriminate; try reflexivity;
      try (intros (sg & d0 & v0 & H & H' & Hlt); injection H as <-;
           rewrite Ec in H'; (discriminate H' || (injection H' as <- <-; lia)));
      try (intros [[e0 H]|(sg & H & [H'|[(d0 & e0 & H')|(d0 & x0 & H' & Hge)]])];
           [discriminate H|injection H as <-; rewrite Ec in H'..];
           (discriminate H' || (injection H' as <- <-; lia)));
      intros _.
    + right. exists signature. split; [reflexivity|]. now left.
    + exists signature, d, v. now repeat split.
    + right. exists signature. split; [reflexivity|]. right. right. eauto.
    + right. exists signature. split; [reflexivity|]. right. left. eauto.
    + right. exists signature. split; [reflexivity|]. right. left. eauto.
Qed.

(** The bank of the examples rejects the check after 40 ms. *)
Example health_of_the_bank :
  getHealthCheck bank services api boot
  = (Returned false, {| clock := 1700000000040; console := []; draws := 4 |}).
Proof. vm_compute. reflexivity. Qed.

End ConnectionFacts.

(* ===================================================================== *)
(** * 18. The other two handlers of the accounts route                     *)
(* ===================================================================== *)

Module RestOfRoute.

Import AccountsRoute AccountsRouteRest Vocabulary MoreExamples.

Section Handlers.

Variable Account BalanceData : Type.
Variable Provider_getAccounts : string -> GetAccountsRequest -> Async (list Account).
Variable Provider_deleteAccounts : string -> DeleteAccountsRequest -> Async unit.
Variable Provider_getAccountBalance : string -> GetAccountBalanceRequest -> Async BalanceData.
Variable sentinel : string.

(** X18.  [DELETE /accounts] and [GET /accounts/balance] never throw.  Each
    hands the provider named in the query the token and the account id of
    the query, and answers when the provider's call ends, without writing to
    the console: 200 with [{success: true}], respectively [{data}], when
    the call returned, else 400 with the mapped error. *)
Theorem delete_and_balance_never_throw (deletion : DeleteAccountsParams)
    (enquiry : AccountBalanceParams) (m : Machine) :
  let deleting :=
    Provider_deleteAccounts (delete_provider deletion)
      {| deleting_accessToken := delete_accessToken deletion;
         deleting_accountId := delete_accountId deletion |} m in
  let balancing :=
    Provider_getAccountBalance (balance_provider enquiry)
      {| balancing_accessToken := balance_accessToken enquiry;
         balancing_accountId := balance_id enquiry |} m in
  let deleted := deleteAccountsHandler Provider_deleteAccounts sentinel deletion m in
  let balanced :=
    getAccountBalanceHandler BalanceData Provider_getAccountBalance sentinel enquiry m in
  (forall e, fst deleted <> Thrown e)
  /\ (forall e, fst balanced <> Thrown e)
  /\ snd deleted = snd deleting
  /\ snd balanced = snd balancing
  /\ (forall r, fst deleted = Returned r ->
        (answer_status r = 200 /\ payload r = SuccessTrue /\ fst deleting = Returned tt)
        \/ (answer_status r = 400
            /\ exists e, fst deleting = Thrown e
                         /\ payload r = ErrorOf (createErrorResponse sentinel e)))
  /\ (forall r, fst balanced = Returned r ->
        (answer_status r = 200
         /\ exists data, fst balancing = Returned data /\ payload r = DataOf data)
        \/ (answer_status r = 400
            /\ exists e, fst balancing = Thrown e
                         /\ payload r = ErrorOf (createErrorResponse sentinel e))).
Proof.
  cbv zeta. unfold deleteAccountsHandler, getAccountBalanceHandler, try_catch, bind.
  destruct (Provider_deleteAccounts _ _ m) as [[[]|e1|] m1];
    destruct (Provider_getAccountBalance _ _ m) as [[data|e2|] m2];
    cbn [fst snd ret];
    (split; [discriminate|]); (split; [discriminate|]);
    (split; [reflexivity|]); (split; [reflexivity|]);
    (split; intros r H; try discriminate H; injection H as <-; cbn [answer answer_status payload];
     first [ left; split; [reflexivity|]; first [ now split | now exists data ]
           | right; split; [reflexivity|]; eexists; now split ]).
Qed.

(** X19.  Of the three handlers only [GET /accounts] has a deadline.  If
    the provider's calls never settle, [GET /accounts] answers 400 with the
    mapped [Request timeout] error 28000 ms after the request arrived, while
    [DELETE /accounts] and [GET /accounts/balance] never answer. *)
Theorem only_the_accounts_list_has_a_deadline (query : AccountsParams)
    (deletion : DeleteAccountsParams) (enquiry : AccountBalanceParams) (m : Machine) :
  fst (Provider_getAccounts (provider query) (requestOfQuery query)
         (logged m [requestLine query])) = Suspended ->
  fst (Provider_deleteAccounts (delete_provider deletion)
         {| deleting_accessToken := delete_accessToken deletion;
            deleting_accountId := delete_accountId deletion |} m) = Suspended ->
  fst (Provider_getAccountBalance (balance_provider enquiry)
         {| balancing_accessToken := balance_accessToken enquiry;
            balancing_accountId := balance_id enquiry |} m) = Suspended ->
  fst (getAccountsHandler Account Provider_getAccounts sentinel query m)
  = Returned (timedOut sentinel)
  /\ clock (snd (getAccountsHandler Account Provider_getAccounts sentinel query m))
     = clock m + 28000
  /\ fst (deleteAccountsHandler Provider_deleteAccounts sentinel deletion m) = Suspended
  /\ fst (getAccountBalanceHandler BalanceData Provider_getAccountBalance sentinel enquiry m)
     = Suspended.
Proof.
  intros Hget Hdel Hbal.
  unfold deleteAccountsHandler, getAccountBalanceHandler, getAccountsHandler.
  cbv [bind try_catch console_log console_error write Date_now rejectAfter start ret settlement].
  cbn [clock console draws].
  unfold requestOfQuery, requestLine, logged, line in Hget.
  destruct (Provider_getAccounts _ _ _) as [[data|e|] m1]; try discriminate Hget.
  destruct (Provider_deleteAccounts _ _ m) as [[[]|e1|] m2]; try discriminate Hdel.
  destruct (Provider_getAccountBalance _ _ m) as [[data|e2|] m3]; try discriminate Hbal.
  cbn [Promise_race await fst snd clock]. unfold TOTAL_TIMEOUT.
  repeat split. lia.
Qed.

End Handlers.

Lemma deadline_witness :
  let query := {| provider := "enablebanking"; accessToken := None;
                  institutionId := None; id := Some "S1" |} in
  let deletion := {| delete_provider := "enablebanking"; delete_accountId := Some "a";
                     delete_accessToken := None |} in
  let enquiry := {| balance_provider := "enablebanking"; balance_accessToken := None;
                    balance_id := Some "a" |} in
  let m := {| clock := 1700000000000; console := []; draws := 0 |} in
  fst (@stuck (list string) (logged m [requestLine query])) = Suspended
  /\ fst (@stuck unit m) = Suspended
  /\ fst (@stuck string m) = Suspended
  /\ fst (getAccountsHandler string (fun _ _ => stuck) "unknown" query m)
     = Returned (timedOut "unknown")
  /\ clock (snd (getAccountsHandler string (fun _ _ => stuck) "unknown" query m))
     = clock m + 28000
  /\ fst (deleteAccountsHandler (fun _ _ => stuck) "unknown" deletion m) = Suspended
  /\ fst (getAccountBalanceHandler string (fun _ _ => stuck) "unknown" enquiry m) = Suspended.
Proof.
  cbv zeta.
  split; [reflexivity|]. split; [reflexivity|]. split; [reflexivity|].
  exact (only_the_accounts_list_has_a_deadline string string
           (fun _ _ => stuck) (fun _ _ => stuck) (fun _ _ => stuck) "unknown"
           {| provider := "enablebanking"; accessToken := None;
              institutionId := None; id := Some "S1" |}
           {| delete_provider := "enablebanking"; delete_accountId := Some "a";
              delete_accessToken := None |}
           {| balance_provider := "enablebanking"; balance_accessToken := None;
              balance_id := Some "a" |}
           {| clock := 1700000000000; console := []; draws := 0 |}
           eq_refl eq_refl eq_refl).
Defined.

End RestOfRoute.
